(** * Attendance system: schedules, sessions and attendance records

    A shallow embedding of the rules engine of the attendance back end:
    - [schedule.helper.js]   : [checkTimeConflict]
    - [schedule.service.js]  : [createSchedule], [bulkCreateSchedules]
    - [session.service.js]   : [createSession], [updateSessionStatus],
                               [endSession], [cancelSession]
    - [attendance.service.js]: [markAttendance], [markSingleAttendance],
                               [studentCheckIn]
    - [attendance.helper.js] : [determineAttendanceStatus],
                               [validateSessionActive],
                               [getAttendanceRiskLevel], ...

    The Prisma tables are lists of rows, in insertion order. A service call
    is a function from the store to a [Result]: an exception thrown by the
    JavaScript code is [Err], and nothing is written in that case (every
    service writes last, and its writes are one Prisma call or one
    [$transaction]). *)

From Stdlib Require Import ZArith QArith List String Bool Lia.
Import ListNotations.

Open Scope string_scope.
Open Scope list_scope.
Open Scope Z_scope.

(** ** Times, thrown values and the result monad *)

(** A clock time of day [HH:MM:SS], kept as the number of seconds since
    midnight: the zero-padded strings of the source are ordered as these
    numbers are. *)
Definition Time := Z.

Definition hms (h m s : Z) : Time := h * 3600 + m * 60 + s.

(** The text of the two messages [checkTimeConflict] builds from the
    conflicting row's [startTime] and [endTime]. *)
Inductive ConflictMessage :=
| TeacherHasConflict (startTime endTime : Time)
| ClassHasConflict (startTime endTime : Time).

Module Candidate.
(** The body of [createSchedule], and an item of [bulkCreateSchedules]. *)
Record t := mk {
  classId : Z;
  subjectId : Z;
  teacherId : Z;
  dayOfWeek : Z;
  startTime : Time;
  endTime : Time;
  room : option string;
  academicPeriodId : Z
}.
End Candidate.

(** The message of a [ResponseError]: a fixed text, the message of
    [checkTimeConflict] as [createSchedule] rethrows it, or the text
    [bulkCreateSchedules] builds from it and the JSON of the candidate. *)
Inductive Message :=
| Msg (text : string)
| ConflictMsg (m : option ConflictMessage)
| BulkConflictMsg (m : option ConflictMessage) (schedule : Candidate.t).

(** What a thrown value is: a [ResponseError] with its HTTP status and
    message, Prisma's own error (code [P2025], "record to update not found"),
    a plain JavaScript [Error], or a [TypeError] on a missing relation. *)
Inductive Error :=
| ResponseError (status : Z) (message : Message)
| PrismaError (code : string)
| JsError (text : string)
| TypeError.

Inductive Result (A : Type) :=
| Ok (a : A)
| Err (e : Error).

Arguments Ok {A} a.
Arguments Err {A} e.

Definition bind {A B} (c : Result A) (k : A -> Result B) : Result B :=
  match c with
  | Ok a => k a
  | Err e => Err e
  end.

Notation "x <- c ;; k" := (bind c (fun x => k))
  (at level 61, c at next level, right associativity).
Notation "c ;;; k" := (bind c (fun _ => k))
  (at level 61, right associativity).

(** [if (cond) throw e] *)
Definition throwIf (cond : bool) (e : Error) : Result unit :=
  if cond then Err e else Ok tt.

(** [const x = await find...; if (!x) throw e] *)
Definition orThrow {A} (o : option A) (e : Error) : Result A :=
  match o with
  | Some a => Ok a
  | None => Err e
  end.

Definition isOk {A} (r : Result A) : bool :=
  match r with Ok _ => true | Err _ => false end.

(** Modelled from the spec: [validate] of validation/validation.js is not
    among the sources. A request that does not satisfy its Joi schema is
    rejected with a Validation error before the service does anything; the
    services throw it as they throw every other 400. *)
Definition validationError (text : string) : Error :=
  ResponseError 400 (Msg text).

Definition validate (schemaHolds : bool) (text : string) : Result unit :=
  throwIf (negb schemaHolds) (validationError text).

(** [Joi.number().integer().positive()] *)
Definition positiveId (n : Z) : bool := 0 <? n.

(** [v || null] on an optional string: the empty string is falsy. *)
Definition orNull (v : option string) : option string :=
  match v with
  | Some s => if String.eqb s "" then None else Some s
  | None => None
  end.

(** [Joi.string().max(n).optional().allow('', null)] *)
Definition maxLength (n : nat) (v : option string) : bool :=
  match v with
  | Some s => (String.length s <=? n)%nat
  | None => true
  end.

(** ** Tables *)

Module ClassSchedule.
Record t := mk {
  id : Z;
  classId : Z;
  subjectId : Z;
  teacherId : Z;
  dayOfWeek : Z;
  startTime : Time;
  endTime : Time;
  room : option string;
  academicPeriodId : Z;
  isActive : bool
}.
End ClassSchedule.

Module Student.
Record t := mk {
  id : Z;
  classId : Z
}.
End Student.

Module AttendanceSession.
Record t := mk {
  id : Z;
  classScheduleId : Z;
  date : Z;                 (* the calendar day, in days since the epoch *)
  status : string;
  startedAt : Z;            (* milliseconds since the epoch *)
  endedAt : option Z;
  notes : option string;
  createdBy : Z
}.
End AttendanceSession.

Module Attendance.
Record t := mk {
  id : Z;
  attendanceSessionId : Z;
  studentId : Z;
  status : string;
  checkInTime : option Z;
  attendanceMethod : option string;
  faceConfidence : option Q;
  markedBy : option Z;
  notes : option string;
  updatedAt : option Z
}.
End Attendance.

(** The store: the four tables and the auto-increment counters of the
    three the engine inserts into. *)
Record Store := mkStore {
  classSchedules : list ClassSchedule.t;
  students : list Student.t;
  attendanceSessions : list AttendanceSession.t;
  attendances : list Attendance.t;
  nextClassScheduleId : Z;
  nextAttendanceSessionId : Z;
  nextAttendanceId : Z
}.

(** ** schedule.helper.js *)

Module Params.
(** The argument of [checkTimeConflict]. *)
Record t := mk {
  teacherId : Z;
  classId : Z;
  dayOfWeek : Z;
  startTime : Time;
  endTime : Time;
  academicPeriodId : Z;
  excludeScheduleId : option Z
}.
End Params.

Record ConflictResult := mkConflictResult {
  hasConflict : bool;
  message : option ConflictMessage
}.

(** [whereClause]: same day, same academic period, active, and, when
    [excludeScheduleId] is truthy, not that row. *)
Definition whereClause (p : Params.t) (s : ClassSchedule.t) : bool :=
  (ClassSchedule.dayOfWeek s =? Params.dayOfWeek p)
  && (ClassSchedule.academicPeriodId s =? Params.academicPeriodId p)
  && ClassSchedule.isActive s
  && match Params.excludeScheduleId p with
     | Some x => if x =? 0 then true else negb (ClassSchedule.id s =? x)
     | None => true
     end.

(** The [OR] of the three [AND] pairs, on the row's [startTime] and
    [endTime] against the candidate's. *)
Definition timeOverlap (startTime endTime : Time) (s : ClassSchedule.t) : bool :=
  ((ClassSchedule.startTime s <=? startTime) && (ClassSchedule.endTime s >? startTime))
  || ((ClassSchedule.startTime s <? endTime) && (ClassSchedule.endTime s >=? endTime))
  || ((ClassSchedule.startTime s >=? startTime) && (ClassSchedule.endTime s <=? endTime)).

Definition teacherWhere (p : Params.t) (s : ClassSchedule.t) : bool :=
  whereClause p s
  && (ClassSchedule.teacherId s =? Params.teacherId p)
  && timeOverlap (Params.startTime p) (Params.endTime p) s.

Definition classWhere (p : Params.t) (s : ClassSchedule.t) : bool :=
  whereClause p s
  && (ClassSchedule.classId s =? Params.classId p)
  && timeOverlap (Params.startTime p) (Params.endTime p) s.

Definition checkTimeConflict (schedules : list ClassSchedule.t) (p : Params.t)
  : ConflictResult :=
  match find (teacherWhere p) schedules with
  | Some teacherConflict =>
      mkConflictResult true
        (Some (TeacherHasConflict (ClassSchedule.startTime teacherConflict)
                                  (ClassSchedule.endTime teacherConflict)))
  | None =>
      match find (classWhere p) schedules with
      | Some classConflict =>
          mkConflictResult true
            (Some (ClassHasConflict (ClassSchedule.startTime classConflict)
                                    (ClassSchedule.endTime classConflict)))
      | None => mkConflictResult false None
      end
  end.

(** [validateTimeRange]: exported by the helper, called by no service. *)
Definition validateTimeRange (startTime endTime : Time) : Result bool :=
  throwIf (endTime <=? startTime)
          (JsError "End time must be after start time") ;;;
  Ok true.

(** ** schedule.validation.js and schedule.service.js *)

(** The pattern [([01]\d|2[0-3]):([0-5]\d):([0-5]\d)] *)
Definition timePattern (t : Time) : bool := (0 <=? t) && (t <? 86400).

(** [createScheduleSchema], and the item schema of
    [bulkCreateSchedulesSchema]: no rule relates [endTime] to [startTime]. *)
Definition createScheduleSchema (c : Candidate.t) : bool :=
  positiveId (Candidate.classId c)
  && positiveId (Candidate.subjectId c)
  && positiveId (Candidate.teacherId c)
  && (1 <=? Candidate.dayOfWeek c) && (Candidate.dayOfWeek c <=? 7)
  && timePattern (Candidate.startTime c)
  && timePattern (Candidate.endTime c)
  && maxLength 50 (Candidate.room c)
  && positiveId (Candidate.academicPeriodId c).

Definition bulkCreateSchedulesSchema (schedules : list Candidate.t) : bool :=
  forallb createScheduleSchema schedules && (1 <=? List.length schedules)%nat.

Definition paramsOf (c : Candidate.t) : Params.t :=
  Params.mk (Candidate.teacherId c) (Candidate.classId c)
            (Candidate.dayOfWeek c) (Candidate.startTime c)
            (Candidate.endTime c) (Candidate.academicPeriodId c) None.

(** [prismaClient.classSchedule.create({ data: { ...schedule, isActive: true } })] *)
Definition insertSchedule (c : Candidate.t) (st : Store) : Store * ClassSchedule.t :=
  let row :=
    ClassSchedule.mk (nextClassScheduleId st)
                     (Candidate.classId c) (Candidate.subjectId c)
                     (Candidate.teacherId c) (Candidate.dayOfWeek c)
                     (Candidate.startTime c) (Candidate.endTime c)
                     (Candidate.room c) (Candidate.academicPeriodId c) true in
  (mkStore (classSchedules st ++ [row]) (students st)
           (attendanceSessions st) (attendances st)
           (nextClassScheduleId st + 1)
           (nextAttendanceSessionId st) (nextAttendanceId st),
   row).

Definition createSchedule (c : Candidate.t) (st : Store)
  : Result (Store * ClassSchedule.t) :=
  validate (createScheduleSchema c) "createScheduleSchema" ;;;
  let conflict := checkTimeConflict (classSchedules st) (paramsOf c) in
  throwIf (hasConflict conflict)
          (ResponseError 400 (ConflictMsg (message conflict))) ;;;
  Ok (insertSchedule c st).

(** The [for ... of] loop of [bulkCreateSchedules]: every candidate is
    checked against the table as it was when the call began. *)
Fixpoint checkAll (persisted : list ClassSchedule.t)
                  (schedules : list Candidate.t) : Result unit :=
  match schedules with
  | [] => Ok tt
  | schedule :: rest =>
      let conflict := checkTimeConflict persisted (paramsOf schedule) in
      throwIf (hasConflict conflict)
              (ResponseError 400 (BulkConflictMsg (message conflict) schedule)) ;;;
      checkAll persisted rest
  end.

(** The [$transaction] of [create] calls, none of which can fail here. *)
Fixpoint createAll (schedules : list Candidate.t) (st : Store)
  : Store * list ClassSchedule.t :=
  match schedules with
  | [] => (st, [])
  | schedule :: rest =>
      let '(st1, row) := insertSchedule schedule st in
      let '(st2, rows) := createAll rest st1 in
      (st2, row :: rows)
  end.

Record BulkCreated := mkBulkCreated {
  count : nat;
  schedules : list Z
}.

Definition bulkCreateSchedules (request : list Candidate.t) (st : Store)
  : Result (Store * BulkCreated) :=
  validate (bulkCreateSchedulesSchema request) "bulkCreateSchedulesSchema" ;;;
  checkAll (classSchedules st) request ;;;
  let '(st', created) := createAll request st in
  Ok (st', mkBulkCreated (List.length created) (map ClassSchedule.id created)).

(** ** attendance.helper.js *)

Definition msPerDay : Z := 86400000.

(** [new Date(`${sessionDateStr}T${scheduledStartTime}`)]: the wall-clock
    time [scheduledStartTime] of day [sessionDate], read in the zone of the
    process, whose offset from UTC is [utcOffset] milliseconds. *)
Definition scheduledDateTime (utcOffset sessionDate : Z) (scheduledStartTime : Time) : Z :=
  sessionDate * msPerDay + scheduledStartTime * 1000 - utcOffset.

Definition determineAttendanceStatus
    (utcOffset : Z) (checkInTime sessionDate : Z) (scheduledStartTime : Time)
    (lateThresholdMinutes : option Z) : string :=
  let minutes := match lateThresholdMinutes with Some m => m | None => 15 end in
  let lateThreshold :=
    scheduledDateTime utcOffset sessionDate scheduledStartTime + minutes * 60000 in
  if checkInTime <=? lateThreshold then "present" else "late".

Definition validateSessionActive (session : AttendanceSession.t) : Result bool :=
  throwIf (String.eqb (AttendanceSession.status session) "completed")
    (ResponseError 400 (Msg "Cannot modify attendance for completed session")) ;;;
  throwIf (String.eqb (AttendanceSession.status session) "cancelled")
    (ResponseError 400 (Msg "Cannot modify attendance for cancelled session")) ;;;
  Ok true.

(** [x < y] on numbers that need not be whole, as a percentage. *)
Definition Qltb (x y : Q) : bool := negb (Qle_bool y x).

Definition getAttendanceRiskLevel (attendanceRate : Q) (consecutiveAbsences : Z)
  : string :=
  if (consecutiveAbsences >=? 5) || Qltb attendanceRate 50 then "critical"
  else if (consecutiveAbsences >=? 3) || Qltb attendanceRate 70 then "high"
  else if (consecutiveAbsences >=? 2) || Qltb attendanceRate 80 then "medium"
  else "low".

(** ** Prisma reads and writes on a table *)

(** [update({ where, data })]: the row the [where] selects is replaced by
    [data] of it and returned; [None] when no row is selected (Prisma then
    throws [P2025]). *)
Fixpoint updateFirst {A} (where_ : A -> bool) (data : A -> A) (rows : list A)
  : option (list A * A) :=
  match rows with
  | [] => None
  | r :: rest =>
      if where_ r then Some (data r :: rest, data r)
      else match updateFirst where_ data rest with
           | Some (rest', updated) => Some (r :: rest', updated)
           | None => None
           end
  end.

Definition prismaUpdate {A} (where_ : A -> bool) (data : A -> A) (rows : list A)
  : Result (list A * A) :=
  orThrow (updateFirst where_ data rows) (PrismaError "P2025").

Definition findSession (sessionId : Z) (st : Store) : option AttendanceSession.t :=
  find (fun s => AttendanceSession.id s =? sessionId) (attendanceSessions st).

Definition findSchedule (scheduleId : Z) (st : Store) : option ClassSchedule.t :=
  find (fun s => ClassSchedule.id s =? scheduleId) (classSchedules st).

Definition findAttendance (attendanceId : Z) (st : Store) : option Attendance.t :=
  find (fun a => Attendance.id a =? attendanceId) (attendances st).

(** [attendance.findFirst({ where: { attendanceSessionId, studentId } })] *)
Definition findAttendanceOf (sessionId studentId : Z) (st : Store)
  : option Attendance.t :=
  find (fun a => (Attendance.attendanceSessionId a =? sessionId)
                 && (Attendance.studentId a =? studentId))
       (attendances st).

Definition withSessions (st : Store) (sessions : list AttendanceSession.t) : Store :=
  mkStore (classSchedules st) (students st) sessions (attendances st)
          (nextClassScheduleId st) (nextAttendanceSessionId st)
          (nextAttendanceId st).

Definition withAttendances (st : Store) (rows : list Attendance.t) : Store :=
  mkStore (classSchedules st) (students st) (attendanceSessions st) rows
          (nextClassScheduleId st) (nextAttendanceSessionId st)
          (nextAttendanceId st).

(** ** session.validation.js, session.helper.js and session.service.js *)

Module CreateSessionRequest.
Record t := mk {
  classScheduleId : Z;
  date : Z;
  notes : option string;
  profileId : Z
}.
End CreateSessionRequest.

Module UpdateSessionStatusRequest.
Record t := mk {
  sessionId : Z;
  status : string;
  profileId : Z
}.
End UpdateSessionStatusRequest.

Module EndSessionRequest.
Record t := mk {
  sessionId : Z;
  profileId : Z
}.
End EndSessionRequest.

Definition createSessionSchema (r : CreateSessionRequest.t) : bool :=
  positiveId (CreateSessionRequest.classScheduleId r)
  && maxLength 500 (CreateSessionRequest.notes r)
  && positiveId (CreateSessionRequest.profileId r).

(** [Joi.string().valid('ongoing', 'completed', 'cancelled')] *)
Definition validSessionStatus (s : string) : bool :=
  String.eqb s "ongoing" || String.eqb s "completed" || String.eqb s "cancelled".

Definition updateSessionStatusSchema (r : UpdateSessionStatusRequest.t) : bool :=
  positiveId (UpdateSessionStatusRequest.sessionId r)
  && validSessionStatus (UpdateSessionStatusRequest.status r)
  && positiveId (UpdateSessionStatusRequest.profileId r).

Definition endSessionSchema (r : EndSessionRequest.t) : bool :=
  positiveId (EndSessionRequest.sessionId r)
  && positiveId (EndSessionRequest.profileId r).

Definition validateSessionOwnership (session : AttendanceSession.t) (teacherId : Z)
  : Result unit :=
  throwIf (negb (AttendanceSession.createdBy session =? teacherId))
          (ResponseError 403 (Msg "Unauthorized to access this session")).

(** Modelled from the spec: the Prisma schema is not among the sources. A
    row of [attendances: { create: ... }] is given [studentId] and [status]
    only; its other columns take their defaults, [checkInTime] null and the
    marking method, marker, confidence and note unset. *)
Definition newAttendance (attendanceId sessionId studentId : Z) : Attendance.t :=
  Attendance.mk attendanceId sessionId studentId "absent"
                None None None None None None.

(** The nested [create]: one row per student, numbered from [next]. *)
Fixpoint createAttendances (sessionId next : Z) (classStudents : list Student.t)
  : list Attendance.t :=
  match classStudents with
  | [] => []
  | student :: rest =>
      newAttendance next sessionId (Student.id student)
      :: createAttendances sessionId (next + 1) rest
  end.

(** [schedule.class.students] *)
Definition studentsOfClass (classId : Z) (st : Store) : list Student.t :=
  filter (fun s => Student.classId s =? classId) (students st).

(** What [createSession] returns: the session and its rows (the source
    lists the rows by student name; here they are in insertion order). *)
Record SessionCreated := mkSessionCreated {
  session : AttendanceSession.t;
  totalStudents : nat;
  createdAttendances : list Attendance.t
}.

Definition createSession (now : Z) (request : CreateSessionRequest.t) (st : Store)
  : Result (Store * SessionCreated) :=
  validate (createSessionSchema request) "createSessionSchema" ;;;
  let classScheduleId := CreateSessionRequest.classScheduleId request in
  let profileId := CreateSessionRequest.profileId request in
  schedule <- orThrow
    (find (fun s => (ClassSchedule.id s =? classScheduleId)
                    && (ClassSchedule.teacherId s =? profileId)
                    && ClassSchedule.isActive s)
          (classSchedules st))
    (ResponseError 404 (Msg "Schedule not found or unauthorized")) ;;
  let existingSession :=
    find (fun s => (AttendanceSession.classScheduleId s =? classScheduleId)
                   && (AttendanceSession.date s =? CreateSessionRequest.date request))
         (attendanceSessions st) in
  throwIf (match existingSession with Some _ => true | None => false end)
          (ResponseError 400 (Msg "Session already exists for this date")) ;;;
  let sessionId := nextAttendanceSessionId st in
  let created :=
    AttendanceSession.mk sessionId classScheduleId
      (CreateSessionRequest.date request) "ongoing" now None
      (orNull (CreateSessionRequest.notes request)) profileId in
  let rows :=
    createAttendances sessionId (nextAttendanceId st)
      (studentsOfClass (ClassSchedule.classId schedule) st) in
  Ok (mkStore (classSchedules st) (students st)
              (attendanceSessions st ++ [created])
              (attendances st ++ rows)
              (nextClassScheduleId st)
              (sessionId + 1)
              (nextAttendanceId st + Z.of_nat (List.length rows)),
      mkSessionCreated created (List.length rows) rows).

Definition isTerminal (status : string) : bool :=
  String.eqb status "completed" || String.eqb status "cancelled".

(** The [data] of the update in [updateSessionStatus]. *)
Definition statusData (now : Z) (status : string) (s : AttendanceSession.t)
  : AttendanceSession.t :=
  AttendanceSession.mk (AttendanceSession.id s)
    (AttendanceSession.classScheduleId s) (AttendanceSession.date s)
    status (AttendanceSession.startedAt s)
    (if isTerminal status then Some now else None)
    (AttendanceSession.notes s) (AttendanceSession.createdBy s).

Definition updateSessionStatus (now : Z) (request : UpdateSessionStatusRequest.t)
                               (st : Store)
  : Result (Store * AttendanceSession.t) :=
  validate (updateSessionStatusSchema request) "updateSessionStatusSchema" ;;;
  let sessionId := UpdateSessionStatusRequest.sessionId request in
  found <- orThrow (findSession sessionId st)
                   (ResponseError 404 (Msg "Session not found")) ;;
  validateSessionOwnership found (UpdateSessionStatusRequest.profileId request) ;;;
  throwIf (String.eqb (AttendanceSession.status found) "completed")
          (ResponseError 400 (Msg "Cannot modify completed session")) ;;;
  throwIf (String.eqb (AttendanceSession.status found) "cancelled")
          (ResponseError 400 (Msg "Cannot modify cancelled session")) ;;;
  updated <- prismaUpdate (fun s => AttendanceSession.id s =? sessionId)
                          (statusData now (UpdateSessionStatusRequest.status request))
                          (attendanceSessions st) ;;
  Ok (withSessions st (fst updated), snd updated).

Definition endSession (now : Z) (request : EndSessionRequest.t) (st : Store)
  : Result (Store * AttendanceSession.t) :=
  validate (endSessionSchema request) "endSessionSchema" ;;;
  updateSessionStatus now
    (UpdateSessionStatusRequest.mk (EndSessionRequest.sessionId request)
       "completed" (EndSessionRequest.profileId request)) st.

Definition cancelSession (now : Z) (request : EndSessionRequest.t) (st : Store)
  : Result (Store * AttendanceSession.t) :=
  validate (endSessionSchema request) "endSessionSchema" ;;;
  updateSessionStatus now
    (UpdateSessionStatusRequest.mk (EndSessionRequest.sessionId request)
       "cancelled" (EndSessionRequest.profileId request)) st.

(** ** attendance.validation.js and attendance.service.js *)

Module AttendanceUpdate.
(** An item of the [attendances] array of [markAttendance]. *)
Record t := mk {
  attendanceId : Z;
  status : string;
  notes : option string
}.
End AttendanceUpdate.

Module MarkAttendanceRequest.
Record t := mk {
  sessionId : Z;
  attendances : list AttendanceUpdate.t;
  profileId : Z
}.
End MarkAttendanceRequest.

Module MarkSingleAttendanceRequest.
Record t := mk {
  attendanceId : Z;
  status : string;
  notes : option string;
  profileId : Z
}.
End MarkSingleAttendanceRequest.

Module StudentCheckInRequest.
Record t := mk {
  sessionId : Z;
  studentId : Z;
  method : option string;
  faceConfidence : option Q
}.
End StudentCheckInRequest.

(** [Joi.string().valid('present', 'absent', 'late', 'excused')] *)
Definition validAttendanceStatus (s : string) : bool :=
  String.eqb s "present" || String.eqb s "absent"
  || String.eqb s "late" || String.eqb s "excused".

Definition attendanceUpdateSchema (a : AttendanceUpdate.t) : bool :=
  positiveId (AttendanceUpdate.attendanceId a)
  && validAttendanceStatus (AttendanceUpdate.status a)
  && maxLength 255 (AttendanceUpdate.notes a).

Definition markAttendanceSchema (r : MarkAttendanceRequest.t) : bool :=
  positiveId (MarkAttendanceRequest.sessionId r)
  && forallb attendanceUpdateSchema (MarkAttendanceRequest.attendances r)
  && (1 <=? List.length (MarkAttendanceRequest.attendances r))%nat
  && positiveId (MarkAttendanceRequest.profileId r).

Definition markSingleAttendanceSchema (r : MarkSingleAttendanceRequest.t) : bool :=
  positiveId (MarkSingleAttendanceRequest.attendanceId r)
  && validAttendanceStatus (MarkSingleAttendanceRequest.status r)
  && maxLength 255 (MarkSingleAttendanceRequest.notes r)
  && positiveId (MarkSingleAttendanceRequest.profileId r).

Definition studentCheckInSchema (r : StudentCheckInRequest.t) : bool :=
  positiveId (StudentCheckInRequest.sessionId r)
  && positiveId (StudentCheckInRequest.studentId r)
  && match StudentCheckInRequest.method r with
     | Some m => String.eqb m "face_recognition" || String.eqb m "manual"
     | None => true
     end
  && match StudentCheckInRequest.faceConfidence r with
     | Some c => Qle_bool 0 c && Qle_bool c 1
     | None => true
     end.

(** The [data] a teacher's marking writes, in [markAttendance] and in
    [markSingleAttendance] alike. *)
Definition markData (now profileId : Z) (status : string) (notes : option string)
                    (a : Attendance.t) : Attendance.t :=
  Attendance.mk (Attendance.id a) (Attendance.attendanceSessionId a)
    (Attendance.studentId a)
    status
    (if negb (String.eqb status "absent") then Some now else None)
    (Some "manual")
    (Attendance.faceConfidence a)
    (Some profileId)
    (orNull notes)
    (Some now).

(** The [$transaction] of [markAttendance]: the updates run in order on the
    table; the first one that selects no row throws, and the rows the
    earlier ones wrote are dropped with it. *)
Fixpoint markAll (now sessionId profileId : Z) (updates : list AttendanceUpdate.t)
                 (rows : list Attendance.t)
  : Result (list Attendance.t * list Attendance.t) :=
  match updates with
  | [] => Ok (rows, [])
  | att :: rest =>
      one <- prismaUpdate
               (fun a => (Attendance.id a =? AttendanceUpdate.attendanceId att)
                         && (Attendance.attendanceSessionId a =? sessionId))
               (markData now profileId (AttendanceUpdate.status att)
                         (AttendanceUpdate.notes att))
               rows ;;
      others <- markAll now sessionId profileId rest (fst one) ;;
      Ok (fst others, snd one :: snd others)
  end.

Record AttendanceMarked := mkAttendanceMarked {
  markedSessionId : Z;
  updated : nat
}.

Definition markAttendance (now : Z) (request : MarkAttendanceRequest.t) (st : Store)
  : Result (Store * AttendanceMarked) :=
  validate (markAttendanceSchema request) "markAttendanceSchema" ;;;
  let sessionId := MarkAttendanceRequest.sessionId request in
  let profileId := MarkAttendanceRequest.profileId request in
  found <- orThrow (findSession sessionId st)
                   (ResponseError 404 (Msg "Session not found")) ;;
  throwIf (negb (AttendanceSession.createdBy found =? profileId))
    (ResponseError 403 (Msg "Unauthorized to mark attendance for this session")) ;;;
  validateSessionActive found ;;;
  result <- markAll now sessionId profileId
                    (MarkAttendanceRequest.attendances request) (attendances st) ;;
  Ok (withAttendances st (fst result),
      mkAttendanceMarked sessionId (List.length (snd result))).

Definition markSingleAttendance (now : Z) (request : MarkSingleAttendanceRequest.t)
                                (st : Store)
  : Result (Store * Attendance.t) :=
  validate (markSingleAttendanceSchema request) "markSingleAttendanceSchema" ;;;
  let attendanceId := MarkSingleAttendanceRequest.attendanceId request in
  let profileId := MarkSingleAttendanceRequest.profileId request in
  attendance <- orThrow (findAttendance attendanceId st)
                        (ResponseError 404 (Msg "Attendance record not found")) ;;
  attendanceSession <-
    orThrow (findSession (Attendance.attendanceSessionId attendance) st) TypeError ;;
  throwIf (negb (AttendanceSession.createdBy attendanceSession =? profileId))
    (ResponseError 403 (Msg "Unauthorized to modify this attendance")) ;;;
  validateSessionActive attendanceSession ;;;
  result <- prismaUpdate (fun a => Attendance.id a =? attendanceId)
              (markData now profileId (MarkSingleAttendanceRequest.status request)
                        (MarkSingleAttendanceRequest.notes request))
              (attendances st) ;;
  Ok (withAttendances st (fst result), snd result).

(** [faceConfidence || null]: a confidence of zero is falsy. *)
Definition confidenceOrNull (c : option Q) : option Q :=
  match c with
  | Some q => if Qeq_bool q 0 then None else Some q
  | None => None
  end.

(** [method || 'face_recognition'], after the schema's default. *)
Definition methodOrDefault (m : option string) : string :=
  match m with
  | Some s => if String.eqb s "" then "face_recognition" else s
  | None => "face_recognition"
  end.

(** The [data] a student's check-in writes. *)
Definition checkInData (now : Z) (status : string) (method : option string)
                       (faceConfidence : option Q) (a : Attendance.t)
  : Attendance.t :=
  Attendance.mk (Attendance.id a) (Attendance.attendanceSessionId a)
    (Attendance.studentId a)
    status
    (Some now)
    (Some (methodOrDefault method))
    (confidenceOrNull faceConfidence)
    (Attendance.markedBy a)
    (Attendance.notes a)
    (Some now).

Definition studentCheckIn (utcOffset now : Z) (request : StudentCheckInRequest.t)
                          (st : Store)
  : Result (Store * Attendance.t) :=
  validate (studentCheckInSchema request) "studentCheckInSchema" ;;;
  let sessionId := StudentCheckInRequest.sessionId request in
  let studentId := StudentCheckInRequest.studentId request in
  found <- orThrow (findSession sessionId st)
                   (ResponseError 404 (Msg "Session not found")) ;;
  throwIf (negb (String.eqb (AttendanceSession.status found) "ongoing"))
          (ResponseError 400 (Msg "Session is not active for check-in")) ;;;
  attendance <- orThrow (findAttendanceOf sessionId studentId st)
    (ResponseError 404 (Msg "Attendance record not found for this session")) ;;
  throwIf (negb (String.eqb (Attendance.status attendance) "absent"))
          (ResponseError 400 (Msg "Already checked in for this session")) ;;;
  classSchedule <-
    orThrow (findSchedule (AttendanceSession.classScheduleId found) st) TypeError ;;
  let status :=
    determineAttendanceStatus utcOffset now (AttendanceSession.date found)
      (ClassSchedule.startTime classSchedule) None in
  result <- prismaUpdate (fun a => Attendance.id a =? Attendance.id attendance)
              (checkInData now status (StudentCheckInRequest.method request)
                           (StudentCheckInRequest.faceConfidence request))
              (attendances st) ;;
  Ok (withAttendances st (fst result), snd result).

(** ** Calls and runs *)

(** The calls that write a session or an attendance row. *)
Inductive Op :=
| CreateSession (r : CreateSessionRequest.t)
| UpdateSessionStatus (r : UpdateSessionStatusRequest.t)
| EndSession (r : EndSessionRequest.t)
| CancelSession (r : EndSessionRequest.t)
| MarkAttendance (r : MarkAttendanceRequest.t)
| MarkSingleAttendance (r : MarkSingleAttendanceRequest.t)
| StudentCheckIn (r : StudentCheckInRequest.t).

(** A call, and the instant the clock shows while it runs. *)
Record Call := mkCall {
  instant : Z;
  op : Op
}.

Definition exec (utcOffset : Z) (c : Call) (st : Store) : Result Store :=
  match op c with
  | CreateSession r => x <- createSession (instant c) r st ;; Ok (fst x)
  | UpdateSessionStatus r => x <- updateSessionStatus (instant c) r st ;; Ok (fst x)
  | EndSession r => x <- endSession (instant c) r st ;; Ok (fst x)
  | CancelSession r => x <- cancelSession (instant c) r st ;; Ok (fst x)
  | MarkAttendance r => x <- markAttendance (instant c) r st ;; Ok (fst x)
  | MarkSingleAttendance r => x <- markSingleAttendance (instant c) r st ;; Ok (fst x)
  | StudentCheckIn r => x <- studentCheckIn utcOffset (instant c) r st ;; Ok (fst x)
  end.

(** A call that throws leaves the store as it was. *)
Definition step (utcOffset : Z) (st : Store) (c : Call) : Store :=
  match exec utcOffset c st with
  | Ok st' => st'
  | Err _ => st
  end.

Definition run (utcOffset : Z) (st : Store) (calls : list Call) : Store :=
  fold_left (step utcOffset) calls st.

(** ** Predicates on the store *)

Fixpoint distinct (ids : list Z) : bool :=
  match ids with
  | [] => true
  | x :: rest => negb (existsb (Z.eqb x) rest) && distinct rest
  end.

(** What the database guarantees of the tables: primary keys are below the
    auto-increment counter, and those of the attendance rows are distinct. *)
Definition wellKeyed (st : Store) : bool :=
  forallb (fun s => AttendanceSession.id s <? nextAttendanceSessionId st)
          (attendanceSessions st)
  && forallb (fun a => Attendance.id a <? nextAttendanceId st) (attendances st)
  && distinct (map Attendance.id (attendances st)).

(** The rows of one session. *)
Definition attendancesOf (sessionId : Z) (st : Store) : list Attendance.t :=
  filter (fun a => Attendance.attendanceSessionId a =? sessionId) (attendances st).

(** [checkInTime] is non-null only when the status is not [absent]. *)
Definition checkInTimeOk (a : Attendance.t) : Prop :=
  Attendance.checkInTime a <> None -> Attendance.status a <> "absent".

Definition checkInTimeInvariant (st : Store) : Prop :=
  Forall checkInTimeOk (attendances st).

(** The half-open intervals [[s1, e1)] and [[s2, e2)] meet. *)
Definition halfOpenOverlap (s1 e1 s2 e2 : Time) : Prop :=
  s1 < e2 /\ s2 < e1.

(** The record of a student in a session, seen by [studentCheckIn], is the
    row [attendanceId] and is not absent. *)
Definition checkedIn (sessionId studentId attendanceId : Z) (st : Store) : Prop :=
  exists r,
    findAttendanceOf sessionId studentId st = Some r
    /\ Attendance.id r = attendanceId
    /\ Attendance.status r <> "absent".

(** The tiers of the risk level as the specification words them. *)
Inductive RiskTier (rate : Q) (consecutiveAbsences : Z) : string -> Prop :=
| TierCritical :
    consecutiveAbsences >= 5 \/ (rate < 50)%Q ->
    RiskTier rate consecutiveAbsences "critical"
| TierHigh :
    ~ (consecutiveAbsences >= 5 \/ (rate < 50)%Q) ->
    consecutiveAbsences >= 3 \/ (rate < 70)%Q ->
    RiskTier rate consecutiveAbsences "high"
| TierMedium :
    ~ (consecutiveAbsences >= 5 \/ (rate < 50)%Q) ->
    ~ (consecutiveAbsences >= 3 \/ (rate < 70)%Q) ->
    consecutiveAbsences >= 2 \/ (rate < 80)%Q ->
    RiskTier rate consecutiveAbsences "medium"
| TierLow :
    ~ (consecutiveAbsences >= 5 \/ (rate < 50)%Q) ->
    ~ (consecutiveAbsences >= 3 \/ (rate < 70)%Q) ->
    ~ (consecutiveAbsences >= 2 \/ (rate < 80)%Q) ->
    RiskTier rate consecutiveAbsences "low".

(** A teacher's call that marks the row [attendanceId] absent. *)
Definition marksAbsent (attendanceId : Z) (c : Call) : bool :=
  match op c with
  | MarkAttendance r =>
      existsb (fun att => (AttendanceUpdate.attendanceId att =? attendanceId)
                          && String.eqb (AttendanceUpdate.status att) "absent")
              (MarkAttendanceRequest.attendances r)
  | MarkSingleAttendance r =>
      (MarkSingleAttendanceRequest.attendanceId r =? attendanceId)
      && String.eqb (MarkSingleAttendanceRequest.status r) "absent"
  | _ => false
  end.

(** ** A small school, for the examples *)

Definition mondayEight : ClassSchedule.t :=
  ClassSchedule.mk 1 1 1 1 1 (hms 8 0 0) (hms 9 30 0) (Some "A1") 1 true.

Definition emptySchool : Store :=
  mkStore [mondayEight]
          [Student.mk 1 1; Student.mk 2 1; Student.mk 3 1; Student.mk 4 2]
          [] [] 2 1 1.

(** Monday 15 January 2024, in days since the epoch, and 08:00 of that
    day in milliseconds, for a process that runs in UTC. *)
Definition monday : Z := 19737.

Definition eightOClock : Z := scheduledDateTime 0 monday (hms 8 0 0).

Definition minutes (n : Z) : Z := n * 60000.

(** The teacher opens the session of [mondayEight] five minutes early. *)
Definition openSession : Call :=
  mkCall (eightOClock - minutes 5)
         (CreateSession (CreateSessionRequest.mk 1 monday None 1)).

Definition openSchool : Store :=
  Eval vm_compute in step 0 emptySchool openSession.

Definition checkInOf (studentId : Z) : StudentCheckInRequest.t :=
  StudentCheckInRequest.mk 1 studentId None None.

(** The teacher ends that session at 09:30. *)
Definition closeSession : Call :=
  mkCall (eightOClock + minutes 90) (EndSession (EndSessionRequest.mk 1 1)).

Definition closedSchool : Store :=
  Eval vm_compute in step 0 openSchool closeSession.

(** Student 1 checks in at 08:10; at 08:30 the teacher marks that row
    absent again. *)
Definition firstCheckIn : Call :=
  mkCall (eightOClock + minutes 10) (StudentCheckIn (checkInOf 1)).

Definition markedAbsentAgain : Call :=
  mkCall (eightOClock + minutes 30)
         (MarkSingleAttendance (MarkSingleAttendanceRequest.mk 1 "absent" None 1)).

(** ** attendance.helper.js, the counting helpers *)

(** The loop of [calculateConsecutiveAbsences]: [count] goes up by one per
    absent record, and the first record that is not absent breaks it. *)
Fixpoint countAbsences (count : Z) (attendances : list Attendance.t) : Z :=
  match attendances with
  | [] => count
  | att :: rest =>
      if String.eqb (Attendance.status att) "absent"
      then countAbsences (count + 1) rest
      else count
  end.

Definition calculateConsecutiveAbsences (attendances : list Attendance.t) : Z :=
  countAbsences 0 attendances.

Definition needsAttendanceWarning (attendanceRate : Q) (warningThreshold : option Q)
  : bool :=
  Qltb attendanceRate (match warningThreshold with Some t => t | None => 75%Q end).

(** The [for ... of] loop of [validateAttendanceData]. *)
Fixpoint validateEach (attendances : list AttendanceUpdate.t) : Result unit :=
  match attendances with
  | [] => Ok tt
  | att :: rest =>
      throwIf (AttendanceUpdate.attendanceId att =? 0)
              (ResponseError 400 (Msg "Attendance ID is required")) ;;;
      throwIf (negb (validAttendanceStatus (AttendanceUpdate.status att)))
              (ResponseError 400 (Msg "Valid status is required")) ;;;
      validateEach rest
  end.

(** [validateAttendanceData], on an array (the type leaves out the value
    that is no array). *)
Definition validateAttendanceData (attendances : list AttendanceUpdate.t)
  : Result bool :=
  throwIf (List.length attendances =? 0)%nat
          (ResponseError 400 (Msg "At least one attendance record required")) ;;;
  validateEach attendances ;;;
  Ok true.

(** ** session.helper.js, the summary and the modifiability check *)

Module Summary.
Record t := mk {
  present : Z;
  absent : Z;
  late : Z;
  excused : Z;
  total : Z
}.
End Summary.

(** [if (summary.hasOwnProperty(status)) summary[status]++]: the object has
    the five keys of [Summary.t], [total] among them. *)
Definition bump (summary : Summary.t) (status : string) : Summary.t :=
  let '(Summary.mk present absent late excused total) := summary in
  if String.eqb status "present" then Summary.mk (present + 1) absent late excused total
  else if String.eqb status "absent" then Summary.mk present (absent + 1) late excused total
  else if String.eqb status "late" then Summary.mk present absent (late + 1) excused total
  else if String.eqb status "excused" then Summary.mk present absent late (excused + 1) total
  else if String.eqb status "total" then Summary.mk present absent late excused (total + 1)
  else summary.

(** [calculateSessionSummary]; [toLowerCase] is JavaScript's, which the
    development takes as given. *)
Definition calculateSessionSummary (toLowerCase : string -> string)
                                   (attendances : list Attendance.t) : Summary.t :=
  fold_left (fun summary attendance =>
               bump summary (toLowerCase (Attendance.status attendance)))
            attendances
            (Summary.mk 0 0 0 0 (Z.of_nat (List.length attendances))).

Definition validateSessionModifiable (session : AttendanceSession.t) : Result bool :=
  throwIf (String.eqb (AttendanceSession.status session) "completed")
          (ResponseError 400 (Msg "Cannot modify completed session")) ;;;
  throwIf (String.eqb (AttendanceSession.status session) "cancelled")
          (ResponseError 400 (Msg "Cannot modify cancelled session")) ;;;
  Ok true.

(** The summary object that [getAttendanceBySession] and the other reading
    services of attendance.service.js build with four [filter]s. *)
Definition countStatus (status : string) (attendances : list Attendance.t) : Z :=
  Z.of_nat (List.length
              (filter (fun a => String.eqb (Attendance.status a) status) attendances)).

Definition filterSummary (attendances : list Attendance.t) : Summary.t :=
  Summary.mk (countStatus "present" attendances)
             (countStatus "absent" attendances)
             (countStatus "late" attendances)
             (countStatus "excused" attendances)
             (Z.of_nat (List.length attendances)).

(** ASCII lower case, one instance of [toLowerCase] for the examples. *)
Definition lowerAscii (c : Ascii.ascii) : Ascii.ascii :=
  let n := Ascii.nat_of_ascii c in
  if ((65 <=? n) && (n <=? 90))%nat then Ascii.ascii_of_nat (n + 32) else c.

Fixpoint lowerString (s : string) : string :=
  match s with
  | EmptyString => EmptyString
  | String c rest => String (lowerAscii c) (lowerString rest)
  end.

(** ** date.helper.js and the day helpers of schedule.helper.js *)

(** A [Date] is its milliseconds since the epoch; the process runs in a
    zone [utcOffset] milliseconds ahead of UTC. [localDay] numbers the
    local calendar days from 1 January 1970, a Thursday. *)
Definition localDay (utcOffset date : Z) : Z := (date + utcOffset) / msPerDay.

(** [date.getDay()]: 0 is Sunday. *)
Definition getDay (utcOffset date : Z) : Z := (localDay utcOffset date + 4) mod 7.

(** [date.toTimeString().slice(0, 8)], as a time of day. *)
Definition timeOfDay (utcOffset date : Z) : Time :=
  ((date + utcOffset) mod msPerDay) / 1000.

(** The time zone of the process, as ECMAScript reads it: the offset of
    local time from UTC, in milliseconds, in force at an instant
    ([LocalTZA(t, true)]) and at a local time ([LocalTZA(t, false)]). The
    two differ around a change of the clock. *)
Record Zone := mkZone {
  offsetAt : Z -> Z;
  offsetOfLocal : Z -> Z
}.

(** ECMAScript's [LocalTime(t)] and [UTC(t)]. *)
Definition LocalTime (zone : Zone) (t : Z) : Z := t + offsetAt zone t.

Definition UTC (zone : Zone) (t : Z) : Z := t - offsetOfLocal zone t.

(** [d.setDate(d.getDate() + days)] on a valid date: the local time of [d]
    is moved [days] calendar days with its time within the day kept
    ([MakeDate(MakeDay(year, month, date + days), TimeWithinDay(t))]), and
    what comes out is read as a local time of the zone. Across a change of
    the clock this is not a whole number of days later. *)
Definition plusDays (zone : Zone) (date days : Z) : Z :=
  UTC zone (LocalTime zone date + days * msPerDay).

(** [d.getDay()] is the day of the week of the local time of [d], which is
    read with the offset in force at [d]. *)
Definition getStartOfWeek (zone : Zone) (date : Z) : Z :=
  let day := getDay (offsetAt zone date) date in
  plusDays zone date (- day + (if day =? 0 then -6 else 1)).

Definition getEndOfWeek (zone : Zone) (date : Z) : Z :=
  let start := getStartOfWeek zone date in
  plusDays zone start 6.

Definition convertToPrismaDay (jsDay : Z) : Z := if jsDay =? 0 then 7 else jsDay.

Definition convertToJSDay (prismaDay : Z) : Z := if prismaDay =? 7 then 0 else prismaDay.

(** [days[dayNumber] || 'Unknown'] *)
Definition getDayName (dayNumber : Z) : string :=
  if dayNumber =? 1 then "Monday"
  else if dayNumber =? 2 then "Tuesday"
  else if dayNumber =? 3 then "Wednesday"
  else if dayNumber =? 4 then "Thursday"
  else if dayNumber =? 5 then "Friday"
  else if dayNumber =? 6 then "Saturday"
  else if dayNumber =? 7 then "Sunday"
  else "Unknown".

(** [getDayOfWeekName] of date.helper.js has the same table. *)
Definition getDayOfWeekName (dayNumber : Z) (isPrisma : option bool) : string :=
  let prisma := match isPrisma with Some b => b | None => true end in
  getDayName (if negb prisma then convertToPrismaDay dayNumber else dayNumber).

Definition isDateInRange (date startDate endDate : Z) : bool :=
  (date >=? startDate) && (date <=? endDate).

(** The loop of [getWeekDates], for [i] from [i] up to 6. *)
Fixpoint weekDatesFrom (zone : Zone) (start i : Z) (steps : nat) : list Z :=
  match steps with
  | O => []
  | S n => plusDays zone start i :: weekDatesFrom zone start (i + 1) n
  end.

Definition getWeekDates (zone : Zone) (startDate : Z) : list Z :=
  weekDatesFrom zone startDate 0 7.

Definition addDays (zone : Zone) (date days : Z) : Z := plusDays zone date days.

(** A zone that never changes its clock, as Asia/Jakarta, seven hours
    ahead of UTC. *)
Definition fixedZone (utcOffset : Z) : Zone :=
  mkZone (fun _ => utcOffset) (fun _ => utcOffset).

Definition jakarta : Zone := fixedZone (7 * 3600000).

(** America/New_York around the change of 10 March 2024: five hours behind
    UTC until 07:00 UTC of that day, four hours behind from then on; the
    local times from 02:00 to 03:00 of that day, which no clock showed, are
    read with the offset from before the change. *)
Definition newYorkSpring2024 : Zone :=
  mkZone (fun t => if t <? 1710054000000 then -5 * 3600000 else -4 * 3600000)
         (fun l => if l <? 1710039600000 then -5 * 3600000 else -4 * 3600000).

(** The clock of the zone does not change from the instant [from] to the
    instant [to]: the offset is [utcOffset] at every instant between them
    and at every local time such an instant shows. *)
Definition steady (zone : Zone) (utcOffset from to : Z) : Prop :=
  (forall t, from <= t <= to -> offsetAt zone t = utcOffset)
  /\ (forall l, from + utcOffset <= l <= to + utcOffset ->
                offsetOfLocal zone l = utcOffset).

Definition isWeekend (utcOffset date : Z) : bool :=
  let day := getDay utcOffset date in
  (day =? 0) || (day =? 6).

(** [isScheduleActive(schedule, currentDate)] *)
Definition isScheduleActive (utcOffset : Z) (schedule : ClassSchedule.t)
                            (currentDate : Z) : bool :=
  let currentDay := convertToPrismaDay (getDay utcOffset currentDate) in
  let currentTime := timeOfDay utcOffset currentDate in
  (ClassSchedule.dayOfWeek schedule =? currentDay)
  && (currentTime >=? ClassSchedule.startTime schedule)
  && (currentTime <=? ClassSchedule.endTime schedule).

(** ** schedule.helper.js, the grouping helpers *)

(** A [Map], or an object used as one, with numbers for keys: the entries
    in insertion order. *)
Fixpoint mapGet {V} (key : Z) (m : list (Z * V)) : option V :=
  match m with
  | [] => None
  | (k, v) :: rest => if k =? key then Some v else mapGet key rest
  end.

Fixpoint mapSet {V} (key : Z) (value : V) (m : list (Z * V)) : list (Z * V) :=
  match m with
  | [] => [(key, value)]
  | (k, v) :: rest =>
      if k =? key then (k, value) :: rest else (k, v) :: mapSet key value rest
  end.

Definition mapHas {V} (key : Z) (m : list (Z * V)) : bool :=
  match mapGet key m with Some _ => true | None => false end.

(** The body of the [forEach] of [mergeSchedulesWithSessions]; [push] on
    the array the map holds is a [set] of the longer array. *)
Definition pushSession (sessionMap : list (Z * list AttendanceSession.t))
                       (session : AttendanceSession.t)
  : list (Z * list AttendanceSession.t) :=
  let key := AttendanceSession.classScheduleId session in
  let m := if negb (mapHas key sessionMap) then mapSet key [] sessionMap
           else sessionMap in
  match mapGet key m with
  | Some sessions => mapSet key (sessions ++ [session]) m
  | None => m
  end.

Definition mergeSchedulesWithSessions (schedules : list ClassSchedule.t)
                                      (sessions : list AttendanceSession.t)
  : list (ClassSchedule.t * list AttendanceSession.t) :=
  let sessionMap := fold_left pushSession sessions [] in
  map (fun schedule =>
         (schedule,
          match mapGet (ClassSchedule.id schedule) sessionMap with
          | Some l => l
          | None => []
          end))
      schedules.

(** [grouped[schedule.dayOfWeek].push(schedule)]: a [TypeError] when the
    object has no such key. *)
Definition pushSchedule (grouped : list (Z * list ClassSchedule.t))
                        (schedule : ClassSchedule.t)
  : Result (list (Z * list ClassSchedule.t)) :=
  match mapGet (ClassSchedule.dayOfWeek schedule) grouped with
  | Some l => Ok (mapSet (ClassSchedule.dayOfWeek schedule) (l ++ [schedule]) grouped)
  | None => Err TypeError
  end.

Fixpoint pushSchedules (grouped : list (Z * list ClassSchedule.t))
                       (schedules : list ClassSchedule.t)
  : Result (list (Z * list ClassSchedule.t)) :=
  match schedules with
  | [] => Ok grouped
  | schedule :: rest =>
      g <- pushSchedule grouped schedule ;;
      pushSchedules g rest
  end.

Definition groupSchedulesByDay (schedules : list ClassSchedule.t)
  : Result (list (Z * list ClassSchedule.t)) :=
  pushSchedules [(1, []); (2, []); (3, []); (4, []); (5, []); (6, []); (7, [])]
                schedules.

(** The sessions the map holds for a key, none when it has no such key. *)
Definition sessionsAt (key : Z) (m : list (Z * list AttendanceSession.t))
  : list AttendanceSession.t :=
  match mapGet key m with Some l => l | None => [] end.

(** ** schedule.service.js, updating and deleting *)

Module ScheduleUpdates.
(** The [updates] object of [updateSchedule]: [None] is a key left out. *)
Record t := mk {
  classId : option Z;
  subjectId : option Z;
  teacherId : option Z;
  dayOfWeek : option Z;
  startTime : option Time;
  endTime : option Time;
  room : option (option string);
  academicPeriodId : option Z;
  isActive : option bool
}.
End ScheduleUpdates.

Module UpdateScheduleRequest.
Record t := mk {
  scheduleId : Z;
  updates : ScheduleUpdates.t
}.
End UpdateScheduleRequest.

Module DeleteScheduleRequest.
Record t := mk {
  scheduleId : Z;
  softDelete : option bool
}.
End DeleteScheduleRequest.

(** A key that is [.optional()]: checked when it is there. *)
Definition optional {A} (check : A -> bool) (o : option A) : bool :=
  match o with Some a => check a | None => true end.

Definition provided {A} (o : option A) : bool :=
  match o with Some _ => true | None => false end.

(** [updateScheduleSchema]; [.min(1)] asks for one key at least. *)
Definition updateScheduleSchema (r : UpdateScheduleRequest.t) : bool :=
  let u := UpdateScheduleRequest.updates r in
  positiveId (UpdateScheduleRequest.scheduleId r)
  && optional positiveId (ScheduleUpdates.classId u)
  && optional positiveId (ScheduleUpdates.subjectId u)
  && optional positiveId (ScheduleUpdates.teacherId u)
  && optional (fun d => (1 <=? d) && (d <=? 7)) (ScheduleUpdates.dayOfWeek u)
  && optional timePattern (ScheduleUpdates.startTime u)
  && optional timePattern (ScheduleUpdates.endTime u)
  && optional (maxLength 50) (ScheduleUpdates.room u)
  && optional positiveId (ScheduleUpdates.academicPeriodId u)
  && (provided (ScheduleUpdates.classId u)
      || provided (ScheduleUpdates.subjectId u)
      || provided (ScheduleUpdates.teacherId u)
      || provided (ScheduleUpdates.dayOfWeek u)
      || provided (ScheduleUpdates.startTime u)
      || provided (ScheduleUpdates.endTime u)
      || provided (ScheduleUpdates.room u)
      || provided (ScheduleUpdates.academicPeriodId u)
      || provided (ScheduleUpdates.isActive u)).

Definition deleteScheduleSchema (r : DeleteScheduleRequest.t) : bool :=
  positiveId (DeleteScheduleRequest.scheduleId r).

(** A number is truthy when it is there and not zero. *)
Definition truthy (o : option Z) : bool :=
  match o with Some x => negb (x =? 0) | None => false end.

(** [updates.x || existingSchedule.x] on a number. *)
Definition orExisting (o : option Z) (existing : Z) : Z :=
  match o with
  | Some x => if x =? 0 then existing else x
  | None => existing
  end.

(** The same on a time: a string [HH:MM:SS] is never falsy. *)
Definition timeOrExisting (o : option Time) (existing : Time) : Time :=
  match o with Some t => t | None => existing end.

(** [if (updates.dayOfWeek || updates.startTime || updates.endTime ||
    updates.teacherId || updates.classId)] *)
Definition touchesPlacement (u : ScheduleUpdates.t) : bool :=
  truthy (ScheduleUpdates.dayOfWeek u)
  || provided (ScheduleUpdates.startTime u)
  || provided (ScheduleUpdates.endTime u)
  || truthy (ScheduleUpdates.teacherId u)
  || truthy (ScheduleUpdates.classId u).

Definition updateParams (scheduleId : Z) (u : ScheduleUpdates.t)
                        (existing : ClassSchedule.t) : Params.t :=
  Params.mk (orExisting (ScheduleUpdates.teacherId u) (ClassSchedule.teacherId existing))
            (orExisting (ScheduleUpdates.classId u) (ClassSchedule.classId existing))
            (orExisting (ScheduleUpdates.dayOfWeek u) (ClassSchedule.dayOfWeek existing))
            (timeOrExisting (ScheduleUpdates.startTime u) (ClassSchedule.startTime existing))
            (timeOrExisting (ScheduleUpdates.endTime u) (ClassSchedule.endTime existing))
            (orExisting (ScheduleUpdates.academicPeriodId u)
                        (ClassSchedule.academicPeriodId existing))
            (Some scheduleId).

Definition given {A} (o : option A) (existing : A) : A :=
  match o with Some a => a | None => existing end.

(** [data: updates]: the keys that are there are written. *)
Definition applyUpdates (u : ScheduleUpdates.t) (s : ClassSchedule.t)
  : ClassSchedule.t :=
  ClassSchedule.mk (ClassSchedule.id s)
    (given (ScheduleUpdates.classId u) (ClassSchedule.classId s))
    (given (ScheduleUpdates.subjectId u) (ClassSchedule.subjectId s))
    (given (ScheduleUpdates.teacherId u) (ClassSchedule.teacherId s))
    (given (ScheduleUpdates.dayOfWeek u) (ClassSchedule.dayOfWeek s))
    (given (ScheduleUpdates.startTime u) (ClassSchedule.startTime s))
    (given (ScheduleUpdates.endTime u) (ClassSchedule.endTime s))
    (given (ScheduleUpdates.room u) (ClassSchedule.room s))
    (given (ScheduleUpdates.academicPeriodId u) (ClassSchedule.academicPeriodId s))
    (given (ScheduleUpdates.isActive u) (ClassSchedule.isActive s)).

Definition withSchedules (st : Store) (schedules : list ClassSchedule.t) : Store :=
  mkStore schedules (students st) (attendanceSessions st) (attendances st)
          (nextClassScheduleId st) (nextAttendanceSessionId st)
          (nextAttendanceId st).

Definition updateSchedule (request : UpdateScheduleRequest.t) (st : Store)
  : Result (Store * ClassSchedule.t) :=
  validate (updateScheduleSchema request) "updateScheduleSchema" ;;;
  let scheduleId := UpdateScheduleRequest.scheduleId request in
  let updates := UpdateScheduleRequest.updates request in
  existingSchedule <- orThrow (findSchedule scheduleId st)
                              (ResponseError 404 (Msg "Schedule not found")) ;;
  (if touchesPlacement updates
   then
     let conflict :=
       checkTimeConflict (classSchedules st)
                         (updateParams scheduleId updates existingSchedule) in
     throwIf (hasConflict conflict)
             (ResponseError 400 (ConflictMsg (message conflict)))
   else Ok tt) ;;;
  updated <- prismaUpdate (fun s => ClassSchedule.id s =? scheduleId)
                          (applyUpdates updates) (classSchedules st) ;;
  Ok (withSchedules st (fst updated), snd updated).

(** [delete({ where })]: the row the [where] selects is taken out. *)
Fixpoint removeFirst {A} (where_ : A -> bool) (rows : list A) : list A :=
  match rows with
  | [] => []
  | r :: rest => if where_ r then rest else r :: removeFirst where_ rest
  end.

(** [schedule._count.attendanceSessions] *)
Definition countSessions (scheduleId : Z) (st : Store) : nat :=
  List.length (filter (fun s => AttendanceSession.classScheduleId s =? scheduleId)
                      (attendanceSessions st)).

Definition deactivate (s : ClassSchedule.t) : ClassSchedule.t :=
  ClassSchedule.mk (ClassSchedule.id s) (ClassSchedule.classId s)
    (ClassSchedule.subjectId s) (ClassSchedule.teacherId s)
    (ClassSchedule.dayOfWeek s) (ClassSchedule.startTime s)
    (ClassSchedule.endTime s) (ClassSchedule.room s)
    (ClassSchedule.academicPeriodId s) false.

Record ScheduleDeleted := mkScheduleDeleted {
  deletedScheduleId : Z;
  deleted : bool
}.

Definition deleteSchedule (request : DeleteScheduleRequest.t) (st : Store)
  : Result (Store * ScheduleDeleted) :=
  validate (deleteScheduleSchema request) "deleteScheduleSchema" ;;;
  let scheduleId := DeleteScheduleRequest.scheduleId request in
  (* [Joi.boolean().default(true)] *)
  let softDelete :=
    match DeleteScheduleRequest.softDelete request with
    | Some b => b
    | None => true
    end in
  schedule <- orThrow (findSchedule scheduleId st)
                      (ResponseError 404 (Msg "Schedule not found")) ;;
  let sessions := countSessions scheduleId st in
  throwIf ((0 <? sessions)%nat && negb softDelete)
    (ResponseError 400
       (Msg "Cannot delete schedule with existing sessions. Use soft delete instead.")) ;;;
  if softDelete || (0 <? sessions)%nat
  then
    updated <- prismaUpdate (fun s => ClassSchedule.id s =? scheduleId)
                            deactivate (classSchedules st) ;;
    Ok (withSchedules st (fst updated), mkScheduleDeleted scheduleId false)
  else
    Ok (withSchedules st
          (removeFirst (fun s => ClassSchedule.id s =? scheduleId) (classSchedules st)),
        mkScheduleDeleted scheduleId true).

(** ** attendance.controller.js and session.controller.js *)

Module User.
(** [req.user], as the authentication middleware leaves it. *)
Record t := mk {
  role : string;
  profileId : Z
}.
End User.

Module CheckInBody.
Record t := mk {
  sessionId : Z;
  method : option string;
  faceConfidence : option Q
}.
End CheckInBody.

Definition studentCheckInController (utcOffset now : Z) (user : User.t)
                                    (body : CheckInBody.t) (st : Store)
  : Result (Store * Attendance.t) :=
  throwIf (negb (String.eqb (User.role user) "student"))
          (ResponseError 403 (Msg "Only students can check in")) ;;;
  studentCheckIn utcOffset now
    (StudentCheckInRequest.mk (CheckInBody.sessionId body) (User.profileId user)
       (Some (methodOrDefault (CheckInBody.method body)))
       (CheckInBody.faceConfidence body))
    st.

(** ** Requests of every kind *)

(** A teacher's request names the teacher in [profileId]; a check-in has no
    such field. *)
Definition callerOf (o : Op) : option Z :=
  match o with
  | CreateSession r => Some (CreateSessionRequest.profileId r)
  | UpdateSessionStatus r => Some (UpdateSessionStatusRequest.profileId r)
  | EndSession r => Some (EndSessionRequest.profileId r)
  | CancelSession r => Some (EndSessionRequest.profileId r)
  | MarkAttendance r => Some (MarkAttendanceRequest.profileId r)
  | MarkSingleAttendance r => Some (MarkSingleAttendanceRequest.profileId r)
  | StudentCheckIn _ => None
  end.

(** The calls of the teachers and students, and those of the
    administrator on the schedules. *)
Inductive Request :=
| Teaching (c : Call)
| CreateSchedule (c : Candidate.t)
| BulkCreateSchedules (l : list Candidate.t)
| UpdateSchedule (r : UpdateScheduleRequest.t)
| DeleteSchedule (r : DeleteScheduleRequest.t).

Definition perform (utcOffset : Z) (r : Request) (st : Store) : Result Store :=
  match r with
  | Teaching c => exec utcOffset c st
  | CreateSchedule c => x <- createSchedule c st ;; Ok (fst x)
  | BulkCreateSchedules l => x <- bulkCreateSchedules l st ;; Ok (fst x)
  | UpdateSchedule u => x <- updateSchedule u st ;; Ok (fst x)
  | DeleteSchedule d => x <- deleteSchedule d st ;; Ok (fst x)
  end.

Definition after (utcOffset : Z) (st : Store) (r : Request) : Store :=
  match perform utcOffset r st with
  | Ok st' => st'
  | Err _ => st
  end.

Definition afterAll (utcOffset : Z) (st : Store) (requests : list Request) : Store :=
  fold_left (after utcOffset) requests st.

(** ** More predicates on the store *)

(** Every attendance row belongs to a stored session, and every session to
    a stored schedule. *)
Definition linked (st : Store) : Prop :=
  Forall (fun a => findSession (Attendance.attendanceSessionId a) st <> None)
         (attendances st)
  /\ Forall (fun s => findSchedule (AttendanceSession.classScheduleId s) st <> None)
            (attendanceSessions st).

(** The slot and the date of a session. *)
Definition occasion (s : AttendanceSession.t) : Z * Z :=
  (AttendanceSession.classScheduleId s, AttendanceSession.date s).

(** No two sessions are of one slot on one date. *)
Definition oneSessionPerOccasion (st : Store) : Prop :=
  NoDup (map occasion (attendanceSessions st)).

(** The statuses are among those the schemas list, and a session has an
    end exactly when it is not ongoing. *)
Definition statusesOk (st : Store) : Prop :=
  Forall (fun s => validSessionStatus (AttendanceSession.status s) = true
                   /\ (AttendanceSession.endedAt s = None
                       <-> AttendanceSession.status s = "ongoing"))
         (attendanceSessions st)
  /\ Forall (fun a => validAttendanceStatus (Attendance.status a) = true)
            (attendances st).

(** Two stored slots that are both active, on one day of one academic
    period, and of one teacher or one class. *)
Definition rivals (a b : ClassSchedule.t) : Prop :=
  ClassSchedule.isActive a = true
  /\ ClassSchedule.isActive b = true
  /\ ClassSchedule.dayOfWeek a = ClassSchedule.dayOfWeek b
  /\ ClassSchedule.academicPeriodId a = ClassSchedule.academicPeriodId b
  /\ (ClassSchedule.teacherId a = ClassSchedule.teacherId b
      \/ ClassSchedule.classId a = ClassSchedule.classId b).

Definition disjointSlots (a b : ClassSchedule.t) : Prop :=
  ~ halfOpenOverlap (ClassSchedule.startTime a) (ClassSchedule.endTime a)
                    (ClassSchedule.startTime b) (ClassSchedule.endTime b).

(** No two rival slots, at different places of the table, overlap. *)
Definition conflictFree (schedules : list ClassSchedule.t) : Prop :=
  forall i j a b,
    i <> j ->
    nth_error schedules i = Some a ->
    nth_error schedules j = Some b ->
    rivals a b ->
    disjointSlots a b.

Definition properSlots (schedules : list ClassSchedule.t) : Prop :=
  Forall (fun s => ClassSchedule.startTime s < ClassSchedule.endTime s) schedules.

(** Teacher 1's Monday slot 08:00-09:30, and a second slot of the same
    teacher, 09:00-10:00, that was deactivated. *)
Definition mondayNine : ClassSchedule.t :=
  ClassSchedule.mk 2 2 1 1 1 (hms 9 0 0) (hms 10 0 0) None 1 false.

Definition dormantSchool : Store :=
  mkStore [mondayEight; mondayNine]
          [Student.mk 1 1; Student.mk 2 1; Student.mk 3 1; Student.mk 4 2]
          [] [] 3 1 1.

Definition noUpdates : ScheduleUpdates.t :=
  ScheduleUpdates.mk None None None None None None None None None.


(** The administrator moves the second slot to 09:30-11:00. *)
Definition moveLater : UpdateScheduleRequest.t :=
  UpdateScheduleRequest.mk 2
    (ScheduleUpdates.mk None None None None (Some (hms 9 30 0)) (Some (hms 11 0 0))
                        None None (Some true)).

(** What no update changes of an attendance row. *)
Definition rowKey (a : Attendance.t) : Z * Z * Z :=
  (Attendance.id a, Attendance.attendanceSessionId a, Attendance.studentId a).

(** The three ways a call of a teacher or a student writes: a session and
    its rows are added; the status of one session is written; statuses and
    check-in times of attendance rows are written. *)
Inductive Written (st st' : Store) : Prop :=
| SessionAdded (request : CreateSessionRequest.t) (now : Z)
    (schedule : ClassSchedule.t) (created : AttendanceSession.t)
    (rows : list Attendance.t) :
    In schedule (classSchedules st) ->
    ClassSchedule.id schedule = CreateSessionRequest.classScheduleId request ->
    (forall s, In s (attendanceSessions st) ->
               occasion s <> (CreateSessionRequest.classScheduleId request,
                              CreateSessionRequest.date request)) ->
    created = AttendanceSession.mk (nextAttendanceSessionId st)
                (CreateSessionRequest.classScheduleId request)
                (CreateSessionRequest.date request) "ongoing" now None
                (orNull (CreateSessionRequest.notes request))
                (CreateSessionRequest.profileId request) ->
    rows = createAttendances (nextAttendanceSessionId st) (nextAttendanceId st)
             (studentsOfClass (ClassSchedule.classId schedule) st) ->
    attendanceSessions st' = attendanceSessions st ++ [created] ->
    attendances st' = attendances st ++ rows ->
    nextAttendanceSessionId st' = nextAttendanceSessionId st + 1 ->
    nextAttendanceId st' = nextAttendanceId st + Z.of_nat (List.length rows) ->
    Written st st'
| StatusWritten (sessionId now : Z) (status : string) (res : AttendanceSession.t) :
    validSessionStatus status = true ->
    updateFirst (fun s => AttendanceSession.id s =? sessionId)
                (statusData now status) (attendanceSessions st)
    = Some (attendanceSessions st', res) ->
    attendances st' = attendances st ->
    nextAttendanceSessionId st' = nextAttendanceSessionId st ->
    nextAttendanceId st' = nextAttendanceId st ->
    Written st st'
| RowsWritten :
    attendanceSessions st' = attendanceSessions st ->
    nextAttendanceSessionId st' = nextAttendanceSessionId st ->
    nextAttendanceId st' = nextAttendanceId st ->
    map rowKey (attendances st') = map rowKey (attendances st) ->
    (forall P : Attendance.t -> Prop,
        (forall now profileId status notes a,
            validAttendanceStatus status = true ->
            P (markData now profileId status notes a)) ->
        (forall now status method confidence a,
            status = "present" \/ status = "late" ->
            P (checkInData now status method confidence a)) ->
        Forall P (attendances st) -> Forall P (attendances st')) ->
    Written st st'.


(** A morning at the small school: student 1 checks in, the administrator
    deletes the Monday slot and adds one for another class, and the teacher
    ends the session. *)
Definition tuesdayTen : Candidate.t :=
  Candidate.mk 2 1 1 2 (hms 10 0 0) (hms 11 0 0) None 1.

Definition schoolMorning : list Request :=
  [Teaching firstCheckIn;
   DeleteSchedule (DeleteScheduleRequest.mk 1 None);
   CreateSchedule tuesdayTen;
   Teaching closeSession].

(** The rows of a session as the roster has them: which row is of which
    student. *)
Definition roster (sessionId : Z) (st : Store) : list (Z * Z) :=
  map (fun a => (Attendance.id a, Attendance.studentId a)) (attendancesOf sessionId st).


(** A request that is not a teacher's call in the name of [owner]: one of
    the administrator on the schedules, or a call that names another
    profile as the caller. *)
Definition otherThan (owner : Z) (r : Request) : Prop :=
  match r with
  | Teaching c => exists p, callerOf (op c) = Some p /\ p <> owner
  | _ => True
  end.

(** Teacher 2 tries everything on teacher 1's session. *)
Definition intrusion : list Request :=
  [Teaching (mkCall (eightOClock + minutes 1)
               (MarkAttendance
                  (MarkAttendanceRequest.mk 1 [AttendanceUpdate.mk 1 "present" None] 2)));
   Teaching (mkCall (eightOClock + minutes 2)
               (MarkSingleAttendance (MarkSingleAttendanceRequest.mk 2 "excused" None 2)));
   Teaching (mkCall (eightOClock + minutes 3)
               (CancelSession (EndSessionRequest.mk 1 2)));
   Teaching (mkCall (eightOClock + minutes 4)
               (UpdateSessionStatus (UpdateSessionStatusRequest.mk 1 "completed" 2)));
   DeleteSchedule (DeleteScheduleRequest.mk 1 None)].


(** ** session.service.js, getActiveSessions *)

Module ActiveForStudent.
(** An item of the answer to a student. The names of the subject and of
    the teacher are of tables that are not among the four of the store, and
    are left out. *)
Record t := mk {
  attendanceId : Z;
  sessionId : Z;
  status : string;
  room : option string;
  startTime : Time;
  endTime : Time;
  date : Z
}.
End ActiveForStudent.

Module ActiveForTeacher.
(** An item of the answer to a teacher, without the names of the class and
    of the subject. *)
Record t := mk {
  sessionId : Z;
  date : Z;
  startedAt : Z;
  startTime : Time;
  endTime : Time;
  room : option string;
  totalStudents : nat
}.
End ActiveForTeacher.

Inductive ActiveSessions :=
| ForStudent (sessions : list ActiveForStudent.t)
| ForTeacher (sessions : list ActiveForTeacher.t).

(** [rows.map(f)] for an [f] that can throw. *)
Fixpoint mapThrowing {A B} (f : A -> Result B) (l : list A) : Result (list B) :=
  match l with
  | [] => Ok []
  | x :: rest =>
      y <- f x ;;
      ys <- mapThrowing f rest ;;
      Ok (y :: ys)
  end.

(** [where: { studentId, status: 'absent', attendanceSession: { status:
    'ongoing' } }] *)
Definition absentInOngoing (profileId : Z) (st : Store) (a : Attendance.t) : bool :=
  (Attendance.studentId a =? profileId)
  && String.eqb (Attendance.status a) "absent"
  && match findSession (Attendance.attendanceSessionId a) st with
     | Some s => String.eqb (AttendanceSession.status s) "ongoing"
     | None => false
     end.

Definition activeForStudent (st : Store) (a : Attendance.t)
  : Result ActiveForStudent.t :=
  attendanceSession <-
    orThrow (findSession (Attendance.attendanceSessionId a) st) TypeError ;;
  classSchedule <-
    orThrow (findSchedule (AttendanceSession.classScheduleId attendanceSession) st)
            TypeError ;;
  Ok (ActiveForStudent.mk (Attendance.id a) (Attendance.attendanceSessionId a)
        (Attendance.status a) (ClassSchedule.room classSchedule)
        (ClassSchedule.startTime classSchedule) (ClassSchedule.endTime classSchedule)
        (AttendanceSession.date attendanceSession)).

(** [orderBy: { startedAt: 'desc' }]; sessions that started at the same
    instant are kept in the order of the table. *)
Fixpoint insertByStart (s : AttendanceSession.t) (l : list AttendanceSession.t)
  : list AttendanceSession.t :=
  match l with
  | [] => [s]
  | x :: rest =>
      if AttendanceSession.startedAt x <=? AttendanceSession.startedAt s
      then s :: l
      else x :: insertByStart s rest
  end.

Definition newestFirst (l : list AttendanceSession.t) : list AttendanceSession.t :=
  fold_right insertByStart [] l.

Definition activeForTeacher (st : Store) (s : AttendanceSession.t)
  : Result ActiveForTeacher.t :=
  classSchedule <-
    orThrow (findSchedule (AttendanceSession.classScheduleId s) st) TypeError ;;
  Ok (ActiveForTeacher.mk (AttendanceSession.id s) (AttendanceSession.date s)
        (AttendanceSession.startedAt s)
        (ClassSchedule.startTime classSchedule) (ClassSchedule.endTime classSchedule)
        (ClassSchedule.room classSchedule)
        (List.length (attendancesOf (AttendanceSession.id s) st))).

Definition getActiveSessions (role : string) (profileId : Z) (st : Store)
  : Result ActiveSessions :=
  if String.eqb role "student" then
    sessions <- mapThrowing (activeForStudent st)
                  (filter (absentInOngoing profileId st) (attendances st)) ;;
    Ok (ForStudent sessions)
  else if String.eqb role "teacher" then
    sessions <- mapThrowing (activeForTeacher st)
                  (newestFirst
                     (filter (fun s => (AttendanceSession.createdBy s =? profileId)
                                       && String.eqb (AttendanceSession.status s) "ongoing")
                             (attendanceSessions st))) ;;
    Ok (ForTeacher sessions)
  else Err (ResponseError 403 (Msg "Invalid role")).

(** The session and the student of an attendance row. *)
Definition seat (a : Attendance.t) : Z * Z :=
  (Attendance.attendanceSessionId a, Attendance.studentId a).

(** What the keys of the database give: a session per id, a row per session
    and student. *)
Definition uniqueKeys (st : Store) : Prop :=
  NoDup (map AttendanceSession.id (attendanceSessions st))
  /\ NoDup (map seat (attendances st)).

(** * Properties *)

(** ** The result monad *)

Lemma bind_Ok {A B} (c : Result A) (k : A -> Result B) (b : B) :
  bind c k = Ok b -> exists a, c = Ok a /\ k a = Ok b.
Proof.
  destruct c as [a | e]; simpl; intros H; [eauto | discriminate].
Qed.

Lemma throwIf_Ok (cond : bool) (e : Error) (u : unit) :
  throwIf cond e = Ok u -> cond = false.
Proof.
  destruct cond; simpl; [discriminate | reflexivity].
Qed.

Lemma validate_Ok (schemaHolds : bool) (text : string) (u : unit) :
  validate schemaHolds text = Ok u -> schemaHolds = true.
Proof.
  unfold validate. intros H. apply throwIf_Ok in H.
  now destruct schemaHolds.
Qed.

Lemma orThrow_Ok {A} (o : option A) (e : Error) (a : A) :
  orThrow o e = Ok a -> o = Some a.
Proof.
  destruct o; simpl; intros H; [now inversion H | discriminate].
Qed.

(** Splits a successful run of a service into its steps. *)
Ltac open_ok H :=
  repeat match type of H with
  | bind _ _ = Ok _ =>
      let a := fresh "x" in
      let Ha := fresh "Hx" in
      apply bind_Ok in H; destruct H as [a [Ha H]]
  end.

(** ** Conflict detection *)

Lemma timeOverlap_spec (startTime endTime : Time) (s : ClassSchedule.t) :
  timeOverlap startTime endTime s = true <->
  (ClassSchedule.startTime s <= startTime /\ startTime < ClassSchedule.endTime s)
  \/ (ClassSchedule.startTime s < endTime /\ endTime <= ClassSchedule.endTime s)
  \/ (startTime <= ClassSchedule.startTime s /\ ClassSchedule.endTime s <= endTime).
Proof.
  unfold timeOverlap.
  rewrite !orb_true_iff, !andb_true_iff.
  rewrite !Z.leb_le, !Z.ltb_lt, Z.gtb_lt, !Z.geb_le.
  tauto.
Qed.

(** On intervals that end after they start, the three cases are the
    half-open overlap. *)
Lemma timeOverlap_half_open (startTime endTime : Time) (s : ClassSchedule.t) :
  startTime < endTime ->
  ClassSchedule.startTime s < ClassSchedule.endTime s ->
  (timeOverlap startTime endTime s = true <->
   halfOpenOverlap startTime endTime
                   (ClassSchedule.startTime s) (ClassSchedule.endTime s)).
Proof.
  intros Hc Hs. rewrite timeOverlap_spec. unfold halfOpenOverlap. lia.
Qed.

Lemma find_none_iff {A} (f : A -> bool) (l : list A) :
  find f l = None <-> forall x, In x l -> f x = false.
Proof.
  split.
  - apply find_none.
  - induction l as [| a l IH]; simpl; intros H; [reflexivity |].
    rewrite (H a (or_introl eq_refl)). apply IH. intros x Hx. apply H. now right.
Qed.

Lemma hasConflict_iff (schedules : list ClassSchedule.t) (p : Params.t) :
  hasConflict (checkTimeConflict schedules p) = true <->
  exists s, In s schedules /\ (teacherWhere p s = true \/ classWhere p s = true).
Proof.
  unfold checkTimeConflict.
  destruct (find (teacherWhere p) schedules) as [t |] eqn:Ht.
  - simpl. split; [intros _ | reflexivity].
    apply find_some in Ht. exists t. tauto.
  - destruct (find (classWhere p) schedules) as [c |] eqn:Hc.
    + simpl. split; [intros _ | reflexivity].
      apply find_some in Hc. exists c. tauto.
    + simpl. split; [discriminate |].
      intros [s [Hin [H | H]]].
      * rewrite (find_none _ _ Ht s Hin) in H. discriminate.
      * rewrite (find_none _ _ Hc s Hin) in H. discriminate.
Qed.

(** The teacher-side scan comes first: its message is the one reported
    whenever it finds a row. *)
Lemma checkTimeConflict_teacher_first (schedules : list ClassSchedule.t)
      (p : Params.t) (t : ClassSchedule.t) :
  find (teacherWhere p) schedules = Some t ->
  message (checkTimeConflict schedules p)
  = Some (TeacherHasConflict (ClassSchedule.startTime t) (ClassSchedule.endTime t)).
Proof.
  intros H. unfold checkTimeConflict. now rewrite H.
Qed.

(** C1, amended: for a candidate and stored slots that all end after they
    start, [checkTimeConflict] reports a conflict exactly when some stored
    slot in scope (same day, same academic period, active, not the excluded
    one) of the same teacher or the same class overlaps the candidate as a
    half-open interval: candidate.start < existing.end and existing.start <
    candidate.end. The three OR'd range conditions agree with that predicate
    on every such pair, and a stored slot whose end is the candidate's start
    is not a conflict. *)
Theorem checkTimeConflict_half_open :
  forall (schedules : list ClassSchedule.t) (p : Params.t),
    Params.startTime p < Params.endTime p ->
    Forall (fun s => ClassSchedule.startTime s < ClassSchedule.endTime s) schedules ->
    (forall s, In s schedules ->
       (timeOverlap (Params.startTime p) (Params.endTime p) s = true <->
        halfOpenOverlap (Params.startTime p) (Params.endTime p)
                        (ClassSchedule.startTime s) (ClassSchedule.endTime s)))
    /\ (hasConflict (checkTimeConflict schedules p) = true <->
        exists s, In s schedules
                  /\ whereClause p s = true
                  /\ (ClassSchedule.teacherId s = Params.teacherId p
                      \/ ClassSchedule.classId s = Params.classId p)
                  /\ halfOpenOverlap (Params.startTime p) (Params.endTime p)
                       (ClassSchedule.startTime s) (ClassSchedule.endTime s))
    /\ (forall s, In s schedules ->
          ClassSchedule.endTime s = Params.startTime p ->
          timeOverlap (Params.startTime p) (Params.endTime p) s = false).
Proof.
  intros schedules p Hp Hall.
  rewrite Forall_forall in Hall.
  assert (Hpair : forall s, In s schedules ->
            (timeOverlap (Params.startTime p) (Params.endTime p) s = true <->
             halfOpenOverlap (Params.startTime p) (Params.endTime p)
               (ClassSchedule.startTime s) (ClassSchedule.endTime s))).
  { intros s Hin. apply timeOverlap_half_open; auto. }
  split; [exact Hpair | split].
  - rewrite hasConflict_iff. unfold teacherWhere, classWhere.
    split.
    + intros [s [Hin H]]. exists s. split; [exact Hin |].
      rewrite !andb_true_iff, !Z.eqb_eq in H.
      rewrite (Hpair s Hin) in H. tauto.
    + intros [s [Hin [Hw [Hside Hov]]]]. exists s. split; [exact Hin |].
      rewrite !andb_true_iff, !Z.eqb_eq.
      rewrite (Hpair s Hin). tauto.
  - intros s Hin Hend.
    destruct (timeOverlap (Params.startTime p) (Params.endTime p) s) eqn:E;
      [| reflexivity].
    apply (Hpair s Hin) in E. unfold halfOpenOverlap in E. lia.
Qed.

Lemma checkTimeConflict_half_open_witness :
  let p := Params.mk 1 7 1 (hms 9 30 0) (hms 10 0 0) 1 None in
  Params.startTime p < Params.endTime p
  /\ Forall (fun s => ClassSchedule.startTime s < ClassSchedule.endTime s)
            [mondayEight]
  /\ timeOverlap (Params.startTime p) (Params.endTime p) mondayEight = false.
Proof.
  intros p.
  assert (Hp : Params.startTime p < Params.endTime p) by (vm_compute; reflexivity).
  assert (Hall : Forall (fun s => ClassSchedule.startTime s < ClassSchedule.endTime s)
                        [mondayEight])
    by (repeat constructor).
  split; [exact Hp | split; [exact Hall |]].
  apply (proj2 (proj2 (checkTimeConflict_half_open [mondayEight] p Hp Hall))).
  - simpl. left. reflexivity.
  - reflexivity.
Defined.

(** C1 as stated fails: the schema of [createSchedule] accepts a candidate
    whose end is its start, no service calls [validateTimeRange], and on
    such a candidate the first of the three conditions reports a conflict
    with a slot that the half-open predicate does not overlap. *)
Lemma checkTimeConflict_degenerate_candidate :
  let c := Candidate.mk 7 1 1 1 (hms 8 0 0) (hms 8 0 0) None 1 in
  createScheduleSchema c = true
  /\ In mondayEight (classSchedules emptySchool)
  /\ whereClause (paramsOf c) mondayEight = true
  /\ ClassSchedule.teacherId mondayEight = Params.teacherId (paramsOf c)
  /\ hasConflict (checkTimeConflict (classSchedules emptySchool) (paramsOf c)) = true
  /\ createSchedule c emptySchool
     = Err (ResponseError 400
              (ConflictMsg (Some (TeacherHasConflict (hms 8 0 0) (hms 9 30 0)))))
  /\ ~ halfOpenOverlap (Candidate.startTime c) (Candidate.endTime c)
         (ClassSchedule.startTime mondayEight) (ClassSchedule.endTime mondayEight).
Proof.
  intros c. repeat split; try reflexivity.
  - simpl. left. reflexivity.
  - unfold halfOpenOverlap. vm_compute. intros [_ H]. discriminate H.
Qed.

(** ** Bulk creation of schedules *)

(** The loop of [bulkCreateSchedules] looks at the stored table only: it
    passes as soon as no candidate conflicts with a stored slot, whatever
    the candidates are to one another. *)
Lemma checkAll_persisted_only (persisted : list ClassSchedule.t)
      (request : list Candidate.t) :
  Forall (fun c => hasConflict (checkTimeConflict persisted (paramsOf c)) = false)
         request ->
  checkAll persisted request = Ok tt.
Proof.
  induction 1 as [| c rest Hc _ IH]; simpl.
  - reflexivity.
  - rewrite Hc. exact IH.
Qed.

Lemma createAll_appends (request : list Candidate.t) (st : Store) :
  List.length (snd (createAll request st)) = List.length request
  /\ List.length (classSchedules (fst (createAll request st)))
     = (List.length (classSchedules st) + List.length request)%nat.
Proof.
  revert st. induction request as [| c rest IH]; intros st; simpl.
  - split; [reflexivity | lia].
  - specialize (IH (fst (insertSchedule c st))).
    unfold insertSchedule in *. simpl in IH.
    destruct (createAll rest _) as [st2 rows]. simpl in *.
    rewrite length_app in IH. simpl in IH. lia.
Qed.

(** C8: there is a bulk call with two candidates of one teacher, on one day
    of one academic period, whose times overlap, and neither of which
    conflicts with a stored slot; [bulkCreateSchedules] accepts the call and
    stores both as active slots, although [checkTimeConflict] on the
    resulting table reports each of them as a conflict for the other. *)
Theorem bulkCreateSchedules_accepts_mutual_conflict :
  exists (st st' : Store) (c1 c2 : Candidate.t) (r1 r2 : ClassSchedule.t)
         (created : BulkCreated),
    Candidate.teacherId c1 = Candidate.teacherId c2
    /\ Candidate.dayOfWeek c1 = Candidate.dayOfWeek c2
    /\ Candidate.academicPeriodId c1 = Candidate.academicPeriodId c2
    /\ Candidate.startTime c1 < Candidate.endTime c1
    /\ Candidate.startTime c2 < Candidate.endTime c2
    /\ halfOpenOverlap (Candidate.startTime c1) (Candidate.endTime c1)
                       (Candidate.startTime c2) (Candidate.endTime c2)
    /\ hasConflict (checkTimeConflict (classSchedules st) (paramsOf c1)) = false
    /\ hasConflict (checkTimeConflict (classSchedules st) (paramsOf c2)) = false
    /\ bulkCreateSchedules [c1; c2] st = Ok (st', created)
    /\ count created = 2%nat
    /\ classSchedules st' = classSchedules st ++ [r1; r2]
    /\ ClassSchedule.isActive r1 = true /\ ClassSchedule.isActive r2 = true
    /\ paramsOf c1
       = Params.mk (ClassSchedule.teacherId r1) (ClassSchedule.classId r1)
                   (ClassSchedule.dayOfWeek r1) (ClassSchedule.startTime r1)
                   (ClassSchedule.endTime r1) (ClassSchedule.academicPeriodId r1) None
    /\ paramsOf c2
       = Params.mk (ClassSchedule.teacherId r2) (ClassSchedule.classId r2)
                   (ClassSchedule.dayOfWeek r2) (ClassSchedule.startTime r2)
                   (ClassSchedule.endTime r2) (ClassSchedule.academicPeriodId r2) None
    /\ teacherWhere (paramsOf c2) r1 = true
    /\ teacherWhere (paramsOf c1) r2 = true
    /\ createSchedule c2 (fst (insertSchedule c1 st))
       = Err (ResponseError 400
                (ConflictMsg (Some (TeacherHasConflict (Candidate.startTime c1)
                                                       (Candidate.endTime c1))))).
Proof.
  exists emptySchool.
  eexists.
  exists (Candidate.mk 1 1 1 2 (hms 10 0 0) (hms 11 30 0) None 1).
  exists (Candidate.mk 2 1 1 2 (hms 11 0 0) (hms 12 0 0) None 1).
  eexists. eexists. eexists.
  unfold halfOpenOverlap.
  repeat split; try reflexivity.
Qed.

(** ** Risk level *)

Lemma Qltb_lt (x y : Q) : Qltb x y = true <-> (x < y)%Q.
Proof.
  unfold Qltb. rewrite negb_true_iff. split.
  - intros H. apply Qnot_le_lt. intros Hle.
    apply Qle_bool_iff in Hle. congruence.
  - intros H. destruct (Qle_bool y x) eqn:E; [| reflexivity].
    apply Qle_bool_iff in E. exfalso. exact (Qlt_not_le _ _ H E).
Qed.

Lemma Qltb_ge (x y : Q) : Qltb x y = false <-> ~ (x < y)%Q.
Proof.
  rewrite <- Qltb_lt. destruct (Qltb x y); split; congruence.
Qed.

Lemma RiskTier_functional (rate : Q) (consecutiveAbsences : Z) (a b : string) :
  RiskTier rate consecutiveAbsences a ->
  RiskTier rate consecutiveAbsences b ->
  a = b.
Proof.
  intros Ha Hb. destruct Ha, Hb; try reflexivity; tauto.
Qed.

(** C9: [getAttendanceRiskLevel] returns the first tier, in the order
    critical, high, medium, low, one of whose two conditions holds
    (consecutiveAbsences >= 5 or rate < 50; >= 3 or < 70; >= 2 or < 80),
    so it is critical whenever consecutiveAbsences >= 5, whatever the
    rate. *)
Theorem getAttendanceRiskLevel_tiers :
  forall (rate : Q) (consecutiveAbsences : Z),
    RiskTier rate consecutiveAbsences
             (getAttendanceRiskLevel rate consecutiveAbsences)
    /\ (forall anyRate : Q,
          consecutiveAbsences >= 5 ->
          getAttendanceRiskLevel anyRate consecutiveAbsences = "critical").
Proof.
  intros rate n. split.
  - unfold getAttendanceRiskLevel.
    destruct ((n >=? 5) || Qltb rate 50) eqn:E1.
    { apply TierCritical.
      apply orb_true_iff in E1. rewrite Z.geb_le, Qltb_lt in E1.
      destruct E1; [left; lia | now right]. }
    apply orb_false_iff in E1. rewrite Z.geb_leb, Z.leb_gt, Qltb_ge in E1.
    destruct E1 as [N1 R1].
    assert (T1 : ~ (n >= 5 \/ (rate < 50)%Q)) by (intros [H | H]; [lia | tauto]).
    destruct ((n >=? 3) || Qltb rate 70) eqn:E2.
    { apply TierHigh; [exact T1 |].
      apply orb_true_iff in E2. rewrite Z.geb_le, Qltb_lt in E2.
      destruct E2; [left; lia | now right]. }
    apply orb_false_iff in E2. rewrite Z.geb_leb, Z.leb_gt, Qltb_ge in E2.
    destruct E2 as [N2 R2].
    assert (T2 : ~ (n >= 3 \/ (rate < 70)%Q)) by (intros [H | H]; [lia | tauto]).
    destruct ((n >=? 2) || Qltb rate 80) eqn:E3.
    { apply TierMedium; [exact T1 | exact T2 |].
      apply orb_true_iff in E3. rewrite Z.geb_le, Qltb_lt in E3.
      destruct E3; [left; lia | now right]. }
    apply orb_false_iff in E3. rewrite Z.geb_leb, Z.leb_gt, Qltb_ge in E3.
    destruct E3 as [N3 R3].
    apply TierLow; [exact T1 | exact T2 |].
    intros [H | H]; [lia | tauto].
  - intros anyRate H. unfold getAttendanceRiskLevel.
    replace (n >=? 5) with true; [reflexivity |].
    symmetry. rewrite Z.geb_le. lia.
Qed.

Lemma getAttendanceRiskLevel_tiers_witness :
  5 >= 5 /\ getAttendanceRiskLevel 100%Q 5 = "critical".
Proof.
  split; [lia |].
  apply (proj2 (getAttendanceRiskLevel_tiers 0%Q 5) 100%Q). lia.
Defined.

(** ** Updates of one row *)

Lemma updateFirst_Some {A} (where_ : A -> bool) (data : A -> A)
      (rows rows' : list A) (u : A) :
  updateFirst where_ data rows = Some (rows', u) ->
  exists pre r post,
    rows = pre ++ r :: post
    /\ (forall x, In x pre -> where_ x = false)
    /\ where_ r = true
    /\ rows' = pre ++ data r :: post
    /\ u = data r.
Proof.
  revert rows'. induction rows as [| a rest IH]; simpl; intros rows' H.
  - discriminate.
  - destruct (where_ a) eqn:Ea.
    + inversion H; subst. exists [], a, rest. simpl. intuition.
    + destruct (updateFirst where_ data rest) as [[rest' v] |]; [| discriminate].
      inversion H; subst.
      destruct (IH rest' eq_refl) as [pre [r [post [E1 [E2 [E3 [E4 E5]]]]]]].
      exists (a :: pre), r, post. simpl. subst.
      repeat split; try reflexivity; auto.
      intros x [Hx | Hx]; [now subst | auto].
Qed.

Lemma updateFirst_None {A} (where_ : A -> bool) (data : A -> A) (rows : list A) :
  updateFirst where_ data rows = None <-> find where_ rows = None.
Proof.
  induction rows as [| a rest IH]; simpl.
  - tauto.
  - destruct (where_ a).
    + split; discriminate.
    + destruct (updateFirst where_ data rest) as [[rest' v] |].
      * split; [discriminate |]. intros H. apply IH in H. discriminate.
      * split; [intros _; now apply IH | reflexivity].
Qed.

Lemma find_app_first {A} (f : A -> bool) (pre post : list A) (r : A) :
  (forall x, In x pre -> f x = false) ->
  f r = true ->
  find f (pre ++ r :: post) = Some r.
Proof.
  intros Hpre Hr. induction pre as [| a pre IH]; simpl.
  - now rewrite Hr.
  - rewrite (Hpre a (or_introl eq_refl)). apply IH.
    intros x Hx. apply Hpre. now right.
Qed.

Lemma updateFirst_find {A} (where_ : A -> bool) (data : A -> A)
      (rows rows' : list A) (u : A) :
  updateFirst where_ data rows = Some (rows', u) ->
  exists r, find where_ rows = Some r /\ u = data r.
Proof.
  intros H. apply updateFirst_Some in H.
  destruct H as [pre [r [post [E1 [E2 [E3 [E4 E5]]]]]]].
  exists r. split; [| exact E5]. subst rows. now apply find_app_first.
Qed.

Lemma prismaUpdate_Ok {A} (where_ : A -> bool) (data : A -> A)
      (rows : list A) (res : list A * A) :
  prismaUpdate where_ data rows = Ok res ->
  updateFirst where_ data rows = Some (fst res, snd res).
Proof.
  unfold prismaUpdate. intros H. apply orThrow_Ok in H.
  rewrite H. now destruct res.
Qed.

(** Opens a successful run of a service, step by step, and reads off what
    each step that did not throw tells. *)
Ltac clean_ok :=
  repeat match goal with
  | H : throwIf _ _ = Ok _ |- _ => apply throwIf_Ok in H
  | H : validate _ _ = Ok _ |- _ => apply validate_Ok in H
  | H : orThrow _ _ = Ok _ |- _ => apply orThrow_Ok in H
  | H : prismaUpdate _ _ _ = Ok _ |- _ => apply prismaUpdate_Ok in H
  | H : negb _ = false |- _ => apply negb_false_iff in H
  | H : negb _ = true |- _ => apply negb_true_iff in H
  | H : String.eqb _ _ = true |- _ => apply String.eqb_eq in H
  | H : String.eqb _ _ = false |- _ => apply String.eqb_neq in H
  | H : Ok _ = Ok _ |- _ => inversion H; subst; clear H
  end.

(** ** Present or late *)


(** What a successful check-in wrote. *)
Lemma studentCheckIn_Ok (utcOffset now : Z) (request : StudentCheckInRequest.t)
      (st st' : Store) (row : Attendance.t) :
  studentCheckIn utcOffset now request st = Ok (st', row) ->
  exists found attendance classSchedule,
    studentCheckInSchema request = true
    /\ findSession (StudentCheckInRequest.sessionId request) st = Some found
    /\ AttendanceSession.status found = "ongoing"
    /\ findAttendanceOf (StudentCheckInRequest.sessionId request)
                        (StudentCheckInRequest.studentId request) st
       = Some attendance
    /\ Attendance.status attendance = "absent"
    /\ findSchedule (AttendanceSession.classScheduleId found) st = Some classSchedule
    /\ updateFirst (fun a => Attendance.id a =? Attendance.id attendance)
         (checkInData now
            (determineAttendanceStatus utcOffset now (AttendanceSession.date found)
               (ClassSchedule.startTime classSchedule) None)
            (StudentCheckInRequest.method request)
            (StudentCheckInRequest.faceConfidence request))
         (attendances st)
       = Some (attendances st', row)
    /\ st' = withAttendances st (attendances st').
Proof.
  unfold studentCheckIn. intros H. open_ok H. clean_ok.
  match goal with
  | Hs : findSession _ _ = Some ?s, Ha : findAttendanceOf _ _ _ = Some ?a,
    Hc : findSchedule _ _ = Some ?c |- _ => exists s, a, c
  end.
  simpl. repeat split; assumption.
Qed.



(** ** Creating a session *)

Lemma createAttendances_spec (sessionId next : Z) (classStudents : list Student.t) :
  map Attendance.studentId (createAttendances sessionId next classStudents)
  = map Student.id classStudents
  /\ List.length (createAttendances sessionId next classStudents)
     = List.length classStudents
  /\ Forall (fun a => Attendance.attendanceSessionId a = sessionId
                      /\ Attendance.status a = "absent"
                      /\ Attendance.checkInTime a = None
                      /\ next <= Attendance.id a
                         < next + Z.of_nat (List.length classStudents))
            (createAttendances sessionId next classStudents).
Proof.
  revert next. induction classStudents as [| s rest IH]; intros next.
  - simpl. repeat split. constructor.
  - destruct (IH (next + 1)) as [Hmap [Hlen Hall]].
    cbn [createAttendances map List.length].
    rewrite Hmap, Hlen. repeat split.
    constructor.
    + cbn. repeat split; lia.
    + eapply Forall_impl; [| exact Hall].
      cbn beta. intros a [H1 [H2 [H3 H4]]]. repeat split; try assumption; lia.
Qed.

Lemma createAttendances_distinct (sessionId next : Z) (classStudents : list Student.t) :
  distinct (map Attendance.id (createAttendances sessionId next classStudents)) = true.
Proof.
  revert next. induction classStudents as [| s rest IH]; intros next.
  - reflexivity.
  - cbn [createAttendances map distinct]. rewrite IH, andb_true_r.
    apply negb_true_iff.
    destruct (existsb _ _) eqn:E; [| reflexivity].
    apply existsb_exists in E. destruct E as [x [Hin Hx]].
    apply in_map_iff in Hin. destruct Hin as [a [Ha Hin]].
    destruct (createAttendances_spec sessionId (next + 1) rest) as [_ [_ Hall]].
    rewrite Forall_forall in Hall. specialize (Hall a Hin).
    cbn in Hx. apply Z.eqb_eq in Hx. lia.
Qed.

(** What a successful [createSession] wrote. *)
Lemma createSession_Ok (now : Z) (request : CreateSessionRequest.t)
      (st st' : Store) (res : SessionCreated) :
  createSession now request st = Ok (st', res) ->
  exists schedule,
    find (fun s => (ClassSchedule.id s =? CreateSessionRequest.classScheduleId request)
                   && (ClassSchedule.teacherId s =? CreateSessionRequest.profileId request)
                   && ClassSchedule.isActive s)
         (classSchedules st) = Some schedule
    /\ find (fun s => (AttendanceSession.classScheduleId s
                       =? CreateSessionRequest.classScheduleId request)
                      && (AttendanceSession.date s =? CreateSessionRequest.date request))
            (attendanceSessions st) = None
    /\ session res
       = AttendanceSession.mk (nextAttendanceSessionId st)
           (CreateSessionRequest.classScheduleId request)
           (CreateSessionRequest.date request) "ongoing" now None
           (orNull (CreateSessionRequest.notes request))
           (CreateSessionRequest.profileId request)
    /\ createdAttendances res
       = createAttendances (nextAttendanceSessionId st) (nextAttendanceId st)
           (studentsOfClass (ClassSchedule.classId schedule) st)
    /\ totalStudents res = List.length (createdAttendances res)
    /\ st' = mkStore (classSchedules st) (students st)
               (attendanceSessions st ++ [session res])
               (attendances st ++ createdAttendances res)
               (nextClassScheduleId st)
               (nextAttendanceSessionId st + 1)
               (nextAttendanceId st
                + Z.of_nat (List.length (createdAttendances res))).
Proof.
  unfold createSession. intros H. open_ok H. clean_ok.
  match goal with
  | Hs : find _ (classSchedules st) = Some ?s |- _ => exists s
  end.
  simpl. repeat split; try assumption; try reflexivity.
  match goal with
  | Hn : match ?o with Some _ => true | None => false end = false |- ?o' = None =>
      change o' with o; destruct o; [discriminate | reflexivity]
  end.
Qed.

(** C6: a successful [createSession] adds exactly one attendance row per
    student enrolled, at that instant, in the class of the slot (thirty rows
    for thirty students), each with status absent and no check-in time, and
    adds the session with status ongoing and its start stamped with the
    clock. *)
Theorem createSession_provisions_roster :
  forall (now : Z) (request : CreateSessionRequest.t) (st st' : Store)
         (res : SessionCreated),
    createSession now request st = Ok (st', res) ->
    exists schedule,
      In schedule (classSchedules st)
      /\ ClassSchedule.id schedule = CreateSessionRequest.classScheduleId request
      /\ ClassSchedule.teacherId schedule = CreateSessionRequest.profileId request
      /\ ClassSchedule.isActive schedule = true
      /\ let enrolled := studentsOfClass (ClassSchedule.classId schedule) st in
         attendances st' = attendances st ++ createdAttendances res
         /\ map Attendance.studentId (createdAttendances res)
            = map Student.id enrolled
         /\ List.length (createdAttendances res) = List.length enrolled
         /\ (List.length enrolled = 30%nat ->
             List.length (createdAttendances res) = 30%nat)
         /\ Forall (fun a => Attendance.attendanceSessionId a
                             = AttendanceSession.id (session res)
                             /\ Attendance.status a = "absent"
                             /\ Attendance.checkInTime a = None)
                   (createdAttendances res)
         /\ attendanceSessions st' = attendanceSessions st ++ [session res]
         /\ AttendanceSession.classScheduleId (session res)
            = CreateSessionRequest.classScheduleId request
         /\ AttendanceSession.date (session res) = CreateSessionRequest.date request
         /\ AttendanceSession.status (session res) = "ongoing"
         /\ AttendanceSession.startedAt (session res) = now
         /\ AttendanceSession.endedAt (session res) = None.
Proof.
  intros now request st st' res H.
  apply createSession_Ok in H.
  destruct H as [schedule [Hs [_ [Hsess [Hrows [_ Hst]]]]]].
  exists schedule.
  apply find_some in Hs. destruct Hs as [Hin Hs].
  rewrite !andb_true_iff, !Z.eqb_eq in Hs.
  destruct Hs as [[Hid Hteacher] Hactive].
  destruct (createAttendances_spec (nextAttendanceSessionId st)
              (nextAttendanceId st)
              (studentsOfClass (ClassSchedule.classId schedule) st))
    as [Hmap [Hlen Hall]].
  rewrite <- Hrows in Hmap, Hlen, Hall.
  split; [exact Hin |]. split; [exact Hid |].
  split; [exact Hteacher |]. split; [exact Hactive |].
  cbn zeta. rewrite Hst, Hsess. simpl.
  repeat split; try assumption; try reflexivity.
  - intros H30. now rewrite Hlen.
  - eapply Forall_impl; [| exact Hall].
    cbn beta. tauto.
Qed.

Lemma createSession_provisions_roster_witness :
  exists st' res,
    createSession (instant openSession) (CreateSessionRequest.mk 1 monday None 1)
                  emptySchool = Ok (st', res)
    /\ map Attendance.studentId (createdAttendances res) = [1; 2; 3]
    /\ Forall (fun a => Attendance.status a = "absent"
                        /\ Attendance.checkInTime a = None)
              (createdAttendances res).
Proof.
  destruct (createSession (instant openSession) (CreateSessionRequest.mk 1 monday None 1)
                          emptySchool) as [[st' res] | e] eqn:E;
    [| vm_compute in E; discriminate E].
  exists st', res. split; [reflexivity |].
  destruct (createSession_provisions_roster _ _ _ _ _ E)
    as [schedule [Hin [_ [_ [_ H]]]]].
  cbn zeta in H.
  destruct H as [_ [Hmap [_ [_ [Hall _]]]]].
  destruct Hin as [Hin | []]. subst schedule.
  split.
  - rewrite Hmap. reflexivity.
  - eapply Forall_impl; [| exact Hall]. cbn beta. tauto.
Defined.

(** ** What the successful services wrote *)

Lemma updateSessionStatus_Ok (now : Z) (request : UpdateSessionStatusRequest.t)
      (st st' : Store) (res : AttendanceSession.t) :
  updateSessionStatus now request st = Ok (st', res) ->
  exists found,
    updateSessionStatusSchema request = true
    /\ findSession (UpdateSessionStatusRequest.sessionId request) st = Some found
    /\ AttendanceSession.createdBy found = UpdateSessionStatusRequest.profileId request
    /\ AttendanceSession.status found <> "completed"
    /\ AttendanceSession.status found <> "cancelled"
    /\ updateFirst
         (fun s => AttendanceSession.id s =? UpdateSessionStatusRequest.sessionId request)
         (statusData now (UpdateSessionStatusRequest.status request))
         (attendanceSessions st)
       = Some (attendanceSessions st', res)
    /\ st' = withSessions st (attendanceSessions st').
Proof.
  unfold updateSessionStatus, validateSessionOwnership.
  intros H. open_ok H. clean_ok.
  match goal with
  | Hs : findSession _ _ = Some ?s |- _ => exists s
  end.
  match goal with
  | Ho : (_ =? _) = true |- _ => apply Z.eqb_eq in Ho
  end.
  simpl. repeat split; assumption.
Qed.

Lemma endSession_Ok (now : Z) (request : EndSessionRequest.t)
      (st st' : Store) (res : AttendanceSession.t) :
  endSession now request st = Ok (st', res) ->
  updateSessionStatus now
    (UpdateSessionStatusRequest.mk (EndSessionRequest.sessionId request)
       "completed" (EndSessionRequest.profileId request)) st = Ok (st', res).
Proof.
  unfold endSession. intros H. open_ok H. exact H.
Qed.

Lemma cancelSession_Ok (now : Z) (request : EndSessionRequest.t)
      (st st' : Store) (res : AttendanceSession.t) :
  cancelSession now request st = Ok (st', res) ->
  updateSessionStatus now
    (UpdateSessionStatusRequest.mk (EndSessionRequest.sessionId request)
       "cancelled" (EndSessionRequest.profileId request)) st = Ok (st', res).
Proof.
  unfold cancelSession. intros H. open_ok H. exact H.
Qed.

Lemma validateSessionActive_Ok (s : AttendanceSession.t) (b : bool) :
  validateSessionActive s = Ok b ->
  AttendanceSession.status s <> "completed"
  /\ AttendanceSession.status s <> "cancelled".
Proof.
  unfold validateSessionActive. intros H. open_ok H. clean_ok. tauto.
Qed.

Lemma validateSessionActive_terminal (s : AttendanceSession.t) :
  isTerminal (AttendanceSession.status s) = true ->
  exists e, validateSessionActive s = Err e.
Proof.
  unfold isTerminal, validateSessionActive. intros H.
  destruct (String.eqb (AttendanceSession.status s) "completed") eqn:E1.
  - simpl. eauto.
  - simpl in H. rewrite H. simpl. eauto.
Qed.

Lemma markAttendance_Ok (now : Z) (request : MarkAttendanceRequest.t)
      (st st' : Store) (res : AttendanceMarked) :
  markAttendance now request st = Ok (st', res) ->
  exists found results,
    markAttendanceSchema request = true
    /\ findSession (MarkAttendanceRequest.sessionId request) st = Some found
    /\ AttendanceSession.createdBy found = MarkAttendanceRequest.profileId request
    /\ AttendanceSession.status found <> "completed"
    /\ AttendanceSession.status found <> "cancelled"
    /\ markAll now (MarkAttendanceRequest.sessionId request)
               (MarkAttendanceRequest.profileId request)
               (MarkAttendanceRequest.attendances request) (attendances st)
       = Ok (attendances st', results)
    /\ updated res = List.length results
    /\ st' = withAttendances st (attendances st').
Proof.
  unfold markAttendance. intros H. open_ok H.
  match goal with
  | Hv : validateSessionActive _ = Ok _ |- _ => apply validateSessionActive_Ok in Hv
  end.
  clean_ok.
  match goal with
  | Hs : findSession _ _ = Some ?s,
    Hm : markAll _ _ _ _ _ = Ok ?r |- _ => exists s, (snd r); destruct r
  end.
  match goal with
  | Ho : (_ =? _) = true |- _ => apply Z.eqb_eq in Ho
  end.
  simpl in *. repeat split; tauto.
Qed.

Lemma markSingleAttendance_Ok (now : Z) (request : MarkSingleAttendanceRequest.t)
      (st st' : Store) (res : Attendance.t) :
  markSingleAttendance now request st = Ok (st', res) ->
  exists attendance attendanceSession,
    markSingleAttendanceSchema request = true
    /\ findAttendance (MarkSingleAttendanceRequest.attendanceId request) st
       = Some attendance
    /\ findSession (Attendance.attendanceSessionId attendance) st
       = Some attendanceSession
    /\ AttendanceSession.createdBy attendanceSession
       = MarkSingleAttendanceRequest.profileId request
    /\ AttendanceSession.status attendanceSession <> "completed"
    /\ AttendanceSession.status attendanceSession <> "cancelled"
    /\ updateFirst
         (fun a => Attendance.id a =? MarkSingleAttendanceRequest.attendanceId request)
         (markData now (MarkSingleAttendanceRequest.profileId request)
                   (MarkSingleAttendanceRequest.status request)
                   (MarkSingleAttendanceRequest.notes request))
         (attendances st)
       = Some (attendances st', res)
    /\ st' = withAttendances st (attendances st').
Proof.
  unfold markSingleAttendance. intros H. open_ok H.
  match goal with
  | Hv : validateSessionActive _ = Ok _ |- _ => apply validateSessionActive_Ok in Hv
  end.
  clean_ok.
  match goal with
  | Ha : findAttendance _ _ = Some ?a,
    Hs : findSession _ _ = Some ?s |- _ => exists a, s
  end.
  match goal with
  | Ho : (_ =? _) = true |- _ => apply Z.eqb_eq in Ho
  end.
  simpl in *. repeat split; tauto.
Qed.

(** One step of the transaction of [markAttendance]. *)
Lemma markAll_cons (now sessionId profileId : Z) (att : AttendanceUpdate.t)
      (rest : list AttendanceUpdate.t) (rows rows' results : list Attendance.t) :
  markAll now sessionId profileId (att :: rest) rows = Ok (rows', results) ->
  exists rows1 one others,
    updateFirst
      (fun a => (Attendance.id a =? AttendanceUpdate.attendanceId att)
                && (Attendance.attendanceSessionId a =? sessionId))
      (markData now profileId (AttendanceUpdate.status att)
                (AttendanceUpdate.notes att))
      rows = Some (rows1, one)
    /\ markAll now sessionId profileId rest rows1 = Ok (rows', others)
    /\ results = one :: others.
Proof.
  cbn [markAll]. intros H. open_ok H. clean_ok.
  match goal with
  | Hu : updateFirst _ _ _ = Some (fst ?a, snd ?a),
    Hm : markAll _ _ _ _ _ = Ok ?b |- _ =>
      exists (fst a), (snd a), (snd b); destruct b
  end.
  simpl. repeat split; assumption.
Qed.

(** ** The check-in time of an absent student *)

Lemma updateFirst_Forall {A} (P : A -> Prop) (where_ : A -> bool) (data : A -> A)
      (rows rows' : list A) (u : A) :
  (forall r, P (data r)) ->
  Forall P rows ->
  updateFirst where_ data rows = Some (rows', u) ->
  Forall P rows'.
Proof.
  intros Hd Hrows H. apply updateFirst_Some in H.
  destruct H as [pre [r [post [E1 [_ [_ [E2 _]]]]]]]. subst.
  apply Forall_app in Hrows. destruct Hrows as [Hpre Hpost].
  apply Forall_app. split; [exact Hpre |].
  inversion Hpost; subst. constructor; auto.
Qed.

Lemma markAll_Forall (P : Attendance.t -> Prop) (now sessionId profileId : Z)
      (updates : list AttendanceUpdate.t) :
  (forall status notes a, P (markData now profileId status notes a)) ->
  forall rows rows' results,
    Forall P rows ->
    markAll now sessionId profileId updates rows = Ok (rows', results) ->
    Forall P rows'.
Proof.
  intros Hd. induction updates as [| att rest IH]; intros rows rows' results Hrows H.
  - simpl in H. inversion H; subst. exact Hrows.
  - apply markAll_cons in H. destruct H as [rows1 [one [others [H1 [H2 _]]]]].
    eapply IH; [| exact H2].
    eapply updateFirst_Forall; [| exact Hrows | exact H1].
    intros r. apply Hd.
Qed.

Lemma markData_checkInTime (now profileId : Z) (status : string)
      (notes : option string) (a : Attendance.t) :
  (status <> "absent" ->
   Attendance.checkInTime (markData now profileId status notes a) = Some now)
  /\ (status = "absent" ->
      Attendance.checkInTime (markData now profileId status notes a) = None)
  /\ Attendance.status (markData now profileId status notes a) = status.
Proof.
  simpl. repeat split.
  - intros H. apply String.eqb_neq in H. now rewrite H.
  - intros H. apply String.eqb_eq in H. now rewrite H.
Qed.

Lemma checkInTimeOk_markData (now profileId : Z) (status : string)
      (notes : option string) (a : Attendance.t) :
  checkInTimeOk (markData now profileId status notes a).
Proof.
  unfold checkInTimeOk. simpl.
  destruct (String.eqb status "absent") eqn:E; simpl.
  - intros H. now contradiction H.
  - intros _. now apply String.eqb_neq.
Qed.

Lemma determineAttendanceStatus_values (utcOffset now sessionDate : Z)
      (startTime : Time) (threshold : option Z) :
  determineAttendanceStatus utcOffset now sessionDate startTime threshold = "present"
  \/ determineAttendanceStatus utcOffset now sessionDate startTime threshold = "late".
Proof.
  unfold determineAttendanceStatus.
  destruct (now <=? _); [left | right]; reflexivity.
Qed.

Lemma checkInTimeOk_checkInData (utcOffset now sessionDate : Z) (startTime : Time)
      (method : option string) (confidence : option Q) (a : Attendance.t) :
  checkInTimeOk
    (checkInData now
       (determineAttendanceStatus utcOffset now sessionDate startTime None)
       method confidence a).
Proof.
  unfold checkInTimeOk. cbn [checkInData Attendance.status]. intros _.
  destruct (determineAttendanceStatus_values utcOffset now sessionDate startTime None)
    as [E | E]; rewrite E; discriminate.
Qed.

Lemma checkInTimeOk_created (sessionId next : Z) (classStudents : list Student.t) :
  Forall checkInTimeOk (createAttendances sessionId next classStudents).
Proof.
  destruct (createAttendances_spec sessionId next classStudents) as [_ [_ H]].
  eapply Forall_impl; [| exact H].
  cbn beta. intros a [_ [_ [Hnone _]]]. unfold checkInTimeOk.
  intros Hsome. contradiction.
Qed.

(** Every call keeps the invariant. *)
Lemma checkInTimeInvariant_exec (utcOffset : Z) (c : Call) (st st' : Store) :
  checkInTimeInvariant st ->
  exec utcOffset c st = Ok st' ->
  checkInTimeInvariant st'.
Proof.
  unfold checkInTimeInvariant, exec. intros Hinv H.
  destruct (op c) as [r | r | r | r | r | r | r];
    open_ok H; clean_ok;
    match goal with
    | Hx : _ = Ok ?x |- _ => destruct x as [st1 res]; cbn [fst] in *
    end.
  - apply createSession_Ok in Hx.
    destruct Hx as [schedule [_ [_ [_ [Hrows [_ Hst]]]]]].
    subst st1. simpl. apply Forall_app. split; [exact Hinv |].
    rewrite Hrows. apply checkInTimeOk_created.
  - apply updateSessionStatus_Ok in Hx.
    destruct Hx as [found [_ [_ [_ [_ [_ [_ Hst]]]]]]].
    rewrite Hst. exact Hinv.
  - apply endSession_Ok, updateSessionStatus_Ok in Hx.
    destruct Hx as [found [_ [_ [_ [_ [_ [_ Hst]]]]]]].
    rewrite Hst. exact Hinv.
  - apply cancelSession_Ok, updateSessionStatus_Ok in Hx.
    destruct Hx as [found [_ [_ [_ [_ [_ [_ Hst]]]]]]].
    rewrite Hst. exact Hinv.
  - apply markAttendance_Ok in Hx.
    destruct Hx as [found [results [_ [_ [_ [_ [_ [Hm _]]]]]]]].
    eapply markAll_Forall; [| exact Hinv | exact Hm].
    intros. apply checkInTimeOk_markData.
  - apply markSingleAttendance_Ok in Hx.
    destruct Hx as [a [s [_ [_ [_ [_ [_ [_ [Hu _]]]]]]]]].
    eapply updateFirst_Forall; [| exact Hinv | exact Hu].
    intros. apply checkInTimeOk_markData.
  - apply studentCheckIn_Ok in Hx.
    destruct Hx as [found [a [s [_ [_ [_ [_ [_ [_ [Hu _]]]]]]]]]].
    eapply updateFirst_Forall; [| exact Hinv | exact Hu].
    intros. apply checkInTimeOk_checkInData.
Qed.

Lemma checkInTimeInvariant_step (utcOffset : Z) (st : Store) (c : Call) :
  checkInTimeInvariant st ->
  checkInTimeInvariant (step utcOffset st c).
Proof.
  intros Hinv. unfold step.
  destruct (exec utcOffset c st) as [st' | e] eqn:E; [| exact Hinv].
  eapply checkInTimeInvariant_exec; eauto.
Qed.

(** C7: every call that writes attendance rows ([createSession],
    [markAttendance], [markSingleAttendance], [studentCheckIn], and the
    status changes, which write none) keeps the invariant that a row has a
    check-in time only when its status is not absent, along any run. A
    teacher's marking sets the check-in time to the clock exactly when the
    new status is not absent and to null when it is absent; a check-in
    sets it to the clock together with status present or late; a created
    row is absent with no check-in time. *)
Theorem checkInTime_only_when_not_absent :
  forall (utcOffset : Z) (st : Store) (calls : list Call),
    checkInTimeInvariant st ->
    checkInTimeInvariant (run utcOffset st calls)
    /\ (forall now profileId status notes a,
          Attendance.status (markData now profileId status notes a) = status
          /\ (Attendance.checkInTime (markData now profileId status notes a)
              = Some now <-> status <> "absent")
          /\ (Attendance.checkInTime (markData now profileId status notes a)
              = None <-> status = "absent"))
    /\ (forall now request st0 st1 row,
          studentCheckIn utcOffset now request st0 = Ok (st1, row) ->
          Attendance.checkInTime row = Some now
          /\ (Attendance.status row = "present" \/ Attendance.status row = "late"))
    /\ (forall attendanceId sessionId studentId,
          Attendance.status (newAttendance attendanceId sessionId studentId) = "absent"
          /\ Attendance.checkInTime (newAttendance attendanceId sessionId studentId)
             = None).
Proof.
  intros utcOffset st calls Hinv. split; [| split; [| split]].
  - unfold run. revert st Hinv.
    induction calls as [| c rest IH]; intros st Hinv; simpl.
    + exact Hinv.
    + apply IH. now apply checkInTimeInvariant_step.
  - intros now profileId status notes a.
    destruct (markData_checkInTime now profileId status notes a) as [H1 [H2 H3]].
    split; [exact H3 |]. split; split.
    + intros Hsome Habs. rewrite (H2 Habs) in Hsome. discriminate.
    + exact H1.
    + intros Hnone. destruct (String.eqb_spec status "absent") as [E | E];
        [exact E |]. rewrite (H1 E) in Hnone. discriminate.
    + exact H2.
  - intros now request st0 st1 row H.
    apply studentCheckIn_Ok in H.
    destruct H as [found [a [s [_ [_ [_ [_ [_ [_ [Hu _]]]]]]]]]].
    apply updateFirst_find in Hu. destruct Hu as [r [_ Hrow]]. subst row.
    split; [reflexivity |]. cbn [checkInData Attendance.status].
    apply determineAttendanceStatus_values.
  - intros. split; reflexivity.
Qed.

Lemma checkInTime_only_when_not_absent_witness :
  checkInTimeInvariant emptySchool
  /\ checkInTimeInvariant
       (run 0 emptySchool
            [openSession;
             mkCall (eightOClock + minutes 10) (StudentCheckIn (checkInOf 1));
             mkCall (eightOClock + minutes 30)
                    (MarkSingleAttendance
                       (MarkSingleAttendanceRequest.mk 1 "absent" None 1))]).
Proof.
  assert (H : checkInTimeInvariant emptySchool) by constructor.
  split; [exact H |].
  exact (proj1 (checkInTime_only_when_not_absent 0 emptySchool _ H)).
Defined.

(** ** Keys *)

Lemma distinct_NoDup (ids : list Z) : distinct ids = true <-> NoDup ids.
Proof.
  induction ids as [| x rest IH]; simpl.
  - split; [constructor | reflexivity].
  - rewrite andb_true_iff, negb_true_iff, IH. split.
    + intros [Hx Hrest]. constructor; [| exact Hrest].
      intros Hin. assert (E : existsb (Z.eqb x) rest = true).
      { apply existsb_exists. exists x. split; [exact Hin | apply Z.eqb_refl]. }
      congruence.
    + intros H. inversion H as [| y l Hx Hrest]; subst. split; [| exact Hrest].
      destruct (existsb (Z.eqb x) rest) eqn:E; [| reflexivity].
      apply existsb_exists in E. destruct E as [y [Hin Hy]].
      apply Z.eqb_eq in Hy. subst y. contradiction.
Qed.

Lemma NoDup_key_inj {A} (key : A -> Z) (rows : list A) (a b : A) :
  NoDup (map key rows) -> In a rows -> In b rows -> key a = key b -> a = b.
Proof.
  induction rows as [| r rest IH]; simpl; intros Hnd Ha Hb E; [contradiction |].
  inversion Hnd as [| k l Hr Hrest]; subst.
  destruct Ha as [Ha | Ha], Hb as [Hb | Hb]; subst.
  - reflexivity.
  - exfalso. apply Hr. rewrite E. now apply in_map.
  - exfalso. apply Hr. rewrite <- E. now apply in_map.
  - now apply IH.
Qed.

Lemma find_app {A} (f : A -> bool) (l l' : list A) :
  find f (l ++ l')
  = match find f l with Some x => Some x | None => find f l' end.
Proof.
  induction l as [| a l IH]; simpl; [reflexivity |].
  destruct (f a); [reflexivity | exact IH].
Qed.

Lemma updateFirst_map {A B} (key : A -> B) (where_ : A -> bool) (data : A -> A)
      (rows rows' : list A) (u : A) :
  (forall r, key (data r) = key r) ->
  updateFirst where_ data rows = Some (rows', u) ->
  map key rows' = map key rows.
Proof.
  intros Hk H. apply updateFirst_Some in H.
  destruct H as [pre [r [post [E1 [_ [_ [E2 _]]]]]]]. subst.
  rewrite !map_app. simpl. now rewrite Hk.
Qed.

(** An update of the row [x] leaves alone what a filter that rejects [x],
    before and after, selects. *)
Lemma updateFirst_filter {A} (f where_ : A -> bool) (data : A -> A)
      (rows rows' : list A) (u x : A) :
  updateFirst where_ data rows = Some (rows', u) ->
  find where_ rows = Some x ->
  f x = false -> f (data x) = false ->
  filter f rows' = filter f rows.
Proof.
  intros H Hfind Hx Hdx. apply updateFirst_Some in H.
  destruct H as [pre [r [post [E1 [Hpre [Hr [E2 _]]]]]]]. subst.
  rewrite (find_app_first where_ pre post r Hpre Hr) in Hfind.
  inversion Hfind; subst x.
  rewrite !filter_app. simpl. now rewrite Hx, Hdx.
Qed.

(** It leaves alone, too, what a search that rejects [x], before and
    after, finds. *)
Lemma updateFirst_find_other {A} (f where_ : A -> bool) (data : A -> A)
      (rows rows' : list A) (u x : A) :
  updateFirst where_ data rows = Some (rows', u) ->
  find where_ rows = Some x ->
  f x = false -> f (data x) = false ->
  find f rows' = find f rows.
Proof.
  intros H Hfind Hx Hdx. apply updateFirst_Some in H.
  destruct H as [pre [r [post [E1 [Hpre [Hr [E2 _]]]]]]]. subst.
  rewrite (find_app_first where_ pre post r Hpre Hr) in Hfind.
  inversion Hfind; subst x.
  rewrite !find_app. simpl. now rewrite Hx, Hdx.
Qed.

Lemma markAll_map {B} (key : Attendance.t -> B) (now sessionId profileId : Z)
      (updates : list AttendanceUpdate.t) :
  (forall status notes a, key (markData now profileId status notes a) = key a) ->
  forall rows rows' results,
    markAll now sessionId profileId updates rows = Ok (rows', results) ->
    map key rows' = map key rows.
Proof.
  intros Hk. induction updates as [| att rest IH]; intros rows rows' results H.
  - simpl in H. now inversion H.
  - apply markAll_cons in H. destruct H as [rows1 [one [others [H1 [H2 _]]]]].
    rewrite (IH _ _ _ H2).
    eapply updateFirst_map; [| exact H1]. intros r. apply Hk.
Qed.

(** The transaction of [markAttendance] on session [sessionId] leaves the
    rows of every other session as they were. *)
Lemma markAll_filter_other (f : Attendance.t -> bool) (now sessionId profileId : Z)
      (updates : list AttendanceUpdate.t) :
  (forall a, Attendance.attendanceSessionId a = sessionId -> f a = false) ->
  forall rows rows' results,
    markAll now sessionId profileId updates rows = Ok (rows', results) ->
    filter f rows' = filter f rows.
Proof.
  intros Hf. induction updates as [| att rest IH]; intros rows rows' results H.
  - simpl in H. now inversion H.
  - apply markAll_cons in H. destruct H as [rows1 [one [others [H1 [H2 _]]]]].
    rewrite (IH _ _ _ H2).
    destruct (updateFirst_find _ _ _ _ _ H1) as [x [Hx _]].
    pose proof (find_some _ _ Hx) as [_ Hw].
    apply andb_true_iff in Hw. destruct Hw as [_ Hs]. apply Z.eqb_eq in Hs.
    eapply updateFirst_filter; [exact H1 | exact Hx | |]; apply Hf; assumption.
Qed.

Lemma wellKeyed_spec (st : Store) :
  wellKeyed st = true <->
  Forall (fun s => AttendanceSession.id s < nextAttendanceSessionId st)
         (attendanceSessions st)
  /\ Forall (fun a => Attendance.id a < nextAttendanceId st) (attendances st)
  /\ NoDup (map Attendance.id (attendances st)).
Proof.
  unfold wellKeyed.
  rewrite !andb_true_iff, !forallb_forall, !Forall_forall, distinct_NoDup.
  split.
  - intros [[H1 H2] H3]. repeat split; try assumption.
    + intros x Hx. apply Z.ltb_lt, H1, Hx.
    + intros x Hx. apply Z.ltb_lt, H2, Hx.
  - intros [H1 [H2 H3]]. repeat split; try assumption.
    + intros x Hx. apply Z.ltb_lt, H1, Hx.
    + intros x Hx. apply Z.ltb_lt, H2, Hx.
Qed.

Lemma Forall_map_eq {A B} (key : A -> B) (P : B -> Prop) (l l' : list A) :
  map key l' = map key l ->
  Forall (fun a => P (key a)) l ->
  Forall (fun a => P (key a)) l'.
Proof.
  intros E H. rewrite <- Forall_map in *. now rewrite E.
Qed.

Lemma wellKeyed_sessions (st : Store) (sessions : list AttendanceSession.t) :
  map AttendanceSession.id sessions = map AttendanceSession.id (attendanceSessions st) ->
  wellKeyed st = true ->
  wellKeyed (withSessions st sessions) = true.
Proof.
  rewrite !wellKeyed_spec. simpl. intros E [H1 [H2 H3]].
  repeat split; try assumption.
  now apply (Forall_map_eq AttendanceSession.id
               (fun k => k < nextAttendanceSessionId st) _ _ E).
Qed.

Lemma wellKeyed_attendances (st : Store) (rows : list Attendance.t) :
  map Attendance.id rows = map Attendance.id (attendances st) ->
  wellKeyed st = true ->
  wellKeyed (withAttendances st rows) = true.
Proof.
  rewrite !wellKeyed_spec. simpl. intros E [H1 [H2 H3]].
  repeat split; try assumption.
  - now apply (Forall_map_eq Attendance.id
                 (fun k => k < nextAttendanceId st) _ _ E).
  - now rewrite E.
Qed.

(** Every call keeps the keys as the database guarantees them. *)
Lemma wellKeyed_exec (utcOffset : Z) (c : Call) (st st' : Store) :
  wellKeyed st = true ->
  exec utcOffset c st = Ok st' ->
  wellKeyed st' = true.
Proof.
  unfold exec. intros Hwf H.
  destruct (op c) as [r | r | r | r | r | r | r];
    open_ok H; clean_ok;
    match goal with
    | Hx : _ = Ok ?x |- _ => destruct x as [st1 res]; cbn [fst] in *
    end.
  - apply createSession_Ok in Hx.
    destruct Hx as [schedule [_ [_ [Hsess [Hrows [_ Hst]]]]]].
    apply wellKeyed_spec in Hwf. destruct Hwf as [H1 [H2 H3]].
    destruct (createAttendances_spec (nextAttendanceSessionId st)
                (nextAttendanceId st)
                (studentsOfClass (ClassSchedule.classId schedule) st))
      as [_ [Hlen Hall]].
    pose proof (createAttendances_distinct (nextAttendanceSessionId st)
                  (nextAttendanceId st)
                  (studentsOfClass (ClassSchedule.classId schedule) st)) as Hd.
    rewrite <- Hrows in Hlen, Hall, Hd.
    rewrite <- Hlen in Hall.
    apply distinct_NoDup in Hd.
    rewrite Forall_forall in H1, H2, Hall.
    subst st1. apply wellKeyed_spec. simpl. repeat split.
    + apply Forall_app. split.
      * apply Forall_forall. intros x Hx. specialize (H1 x Hx). lia.
      * constructor; [| constructor]. rewrite Hsess. simpl. lia.
    + apply Forall_app. split; apply Forall_forall; intros x Hx.
      * specialize (H2 x Hx). lia.
      * specialize (Hall x Hx). lia.
    + rewrite map_app. apply NoDup_app; try assumption.
      intros k Hk Hk'.
      apply in_map_iff in Hk. destruct Hk as [a [Ea Ha]].
      apply in_map_iff in Hk'. destruct Hk' as [b [Eb Hb]].
      specialize (H2 a Ha). specialize (Hall b Hb). lia.
  - apply updateSessionStatus_Ok in Hx.
    destruct Hx as [found [_ [_ [_ [_ [_ [Hu Hst]]]]]]].
    rewrite Hst. apply wellKeyed_sessions; [| exact Hwf].
    eapply updateFirst_map; [| exact Hu]. reflexivity.
  - apply endSession_Ok, updateSessionStatus_Ok in Hx.
    destruct Hx as [found [_ [_ [_ [_ [_ [Hu Hst]]]]]]].
    rewrite Hst. apply wellKeyed_sessions; [| exact Hwf].
    eapply updateFirst_map; [| exact Hu]. reflexivity.
  - apply cancelSession_Ok, updateSessionStatus_Ok in Hx.
    destruct Hx as [found [_ [_ [_ [_ [_ [Hu Hst]]]]]]].
    rewrite Hst. apply wellKeyed_sessions; [| exact Hwf].
    eapply updateFirst_map; [| exact Hu]. reflexivity.
  - apply markAttendance_Ok in Hx.
    destruct Hx as [found [results [_ [_ [_ [_ [_ [Hm [_ Hst]]]]]]]]].
    rewrite Hst. apply wellKeyed_attendances; [| exact Hwf].
    eapply markAll_map; [| exact Hm]. reflexivity.
  - apply markSingleAttendance_Ok in Hx.
    destruct Hx as [a [s [_ [_ [_ [_ [_ [_ [Hu Hst]]]]]]]]].
    rewrite Hst. apply wellKeyed_attendances; [| exact Hwf].
    eapply updateFirst_map; [| exact Hu]. reflexivity.
  - apply studentCheckIn_Ok in Hx.
    destruct Hx as [found [a [s [_ [_ [_ [_ [_ [_ [Hu Hst]]]]]]]]]].
    rewrite Hst. apply wellKeyed_attendances; [| exact Hwf].
    eapply updateFirst_map; [| exact Hu]. reflexivity.
Qed.

Lemma wellKeyed_step (utcOffset : Z) (st : Store) (c : Call) :
  wellKeyed st = true -> wellKeyed (step utcOffset st c) = true.
Proof.
  intros Hwf. unfold step.
  destruct (exec utcOffset c st) as [st' | e] eqn:E; [| exact Hwf].
  eapply wellKeyed_exec; eauto.
Qed.

Lemma wellKeyed_run (utcOffset : Z) (calls : list Call) (st : Store) :
  wellKeyed st = true -> wellKeyed (run utcOffset st calls) = true.
Proof.
  unfold run. revert st. induction calls as [| c rest IH]; intros st Hwf; simpl.
  - exact Hwf.
  - apply IH. now apply wellKeyed_step.
Qed.

(** ** Terminal sessions *)

Lemma isTerminal_iff (status : string) :
  isTerminal status = true <-> status = "completed" \/ status = "cancelled".
Proof.
  unfold isTerminal. rewrite orb_true_iff, !String.eqb_eq. tauto.
Qed.

Lemma not_Ok_Err {A} (r : Result A) :
  (forall a, r <> Ok a) -> exists e, r = Err e.
Proof.
  destruct r as [a | e]; intros H; [now contradiction (H a) | eauto].
Qed.

Lemma findSession_id (sessionId : Z) (st : Store) (s : AttendanceSession.t) :
  findSession sessionId st = Some s ->
  In s (attendanceSessions st) /\ AttendanceSession.id s = sessionId.
Proof.
  unfold findSession. intros H. apply find_some in H.
  destruct H as [Hin Hid]. apply Z.eqb_eq in Hid. auto.
Qed.

Lemma filter_nil {A} (f : A -> bool) (l : list A) :
  Forall (fun a => f a = false) l -> filter f l = [].
Proof.
  induction 1 as [| a l Ha _ IH]; simpl; [reflexivity |]. now rewrite Ha.
Qed.

Section Terminal.

Variable utcOffset : Z.
Variable st : Store.
Variable sessionId : Z.
Variable terminated : AttendanceSession.t.

Hypothesis Hfound : findSession sessionId st = Some terminated.
Hypothesis Hterminal : isTerminal (AttendanceSession.status terminated) = true.

Lemma terminal_not_active :
  ~ (AttendanceSession.status terminated <> "completed"
     /\ AttendanceSession.status terminated <> "cancelled").
Proof.
  apply isTerminal_iff in Hterminal. tauto.
Qed.

Lemma terminal_not_ongoing : AttendanceSession.status terminated <> "ongoing".
Proof.
  apply isTerminal_iff in Hterminal.
  destruct Hterminal as [E | E]; rewrite E; discriminate.
Qed.

Lemma updateSessionStatus_terminal (now : Z) (request : UpdateSessionStatusRequest.t) :
  UpdateSessionStatusRequest.sessionId request = sessionId ->
  exists e, updateSessionStatus now request st = Err e.
Proof.
  intros Hid. apply not_Ok_Err. intros [st' res] H.
  apply updateSessionStatus_Ok in H.
  destruct H as [found [_ [Hf [_ [H1 [H2 _]]]]]].
  rewrite Hid, Hfound in Hf. inversion Hf; subst found.
  apply terminal_not_active. auto.
Qed.

Lemma endSession_terminal (now : Z) (request : EndSessionRequest.t) :
  EndSessionRequest.sessionId request = sessionId ->
  exists e, endSession now request st = Err e.
Proof.
  intros Hid. apply not_Ok_Err. intros [st' res] H.
  apply endSession_Ok in H.
  destruct (updateSessionStatus_terminal now
              (UpdateSessionStatusRequest.mk (EndSessionRequest.sessionId request)
                 "completed" (EndSessionRequest.profileId request)) Hid)
    as [e He].
  congruence.
Qed.

Lemma cancelSession_terminal (now : Z) (request : EndSessionRequest.t) :
  EndSessionRequest.sessionId request = sessionId ->
  exists e, cancelSession now request st = Err e.
Proof.
  intros Hid. apply not_Ok_Err. intros [st' res] H.
  apply cancelSession_Ok in H.
  destruct (updateSessionStatus_terminal now
              (UpdateSessionStatusRequest.mk (EndSessionRequest.sessionId request)
                 "cancelled" (EndSessionRequest.profileId request)) Hid)
    as [e He].
  congruence.
Qed.

Lemma markAttendance_terminal (now : Z) (request : MarkAttendanceRequest.t) :
  MarkAttendanceRequest.sessionId request = sessionId ->
  exists e, markAttendance now request st = Err e.
Proof.
  intros Hid. apply not_Ok_Err. intros [st' res] H.
  apply markAttendance_Ok in H.
  destruct H as [found [results [_ [Hf [_ [H1 [H2 _]]]]]]].
  rewrite Hid, Hfound in Hf. inversion Hf; subst found.
  apply terminal_not_active. auto.
Qed.

Lemma markSingleAttendance_terminal (now : Z)
      (request : MarkSingleAttendanceRequest.t) (attendance : Attendance.t) :
  findAttendance (MarkSingleAttendanceRequest.attendanceId request) st
  = Some attendance ->
  Attendance.attendanceSessionId attendance = sessionId ->
  exists e, markSingleAttendance now request st = Err e.
Proof.
  intros Ha Hid. apply not_Ok_Err. intros [st' res] H.
  apply markSingleAttendance_Ok in H.
  destruct H as [a [s [_ [Ha' [Hs [_ [H1 [H2 _]]]]]]]].
  rewrite Ha in Ha'. inversion Ha'; subst a.
  rewrite Hid, Hfound in Hs. inversion Hs; subst s.
  apply terminal_not_active. auto.
Qed.

Lemma studentCheckIn_terminal (now : Z) (request : StudentCheckInRequest.t) :
  StudentCheckInRequest.sessionId request = sessionId ->
  exists e, studentCheckIn utcOffset now request st = Err e.
Proof.
  intros Hid. apply not_Ok_Err. intros [st' res] H.
  apply studentCheckIn_Ok in H.
  destruct H as [found [a [s [_ [Hf [Hon _]]]]]].
  rewrite Hid, Hfound in Hf. inversion Hf; subst found.
  now apply terminal_not_ongoing.
Qed.

Hypothesis Hkeys : wellKeyed st = true.

(** No call changes the terminal session or its rows. *)
Lemma terminal_frame_exec (c : Call) (st' : Store) :
  exec utcOffset c st = Ok st' ->
  findSession sessionId st' = Some terminated
  /\ attendancesOf sessionId st' = attendancesOf sessionId st.
Proof.
  pose proof Hkeys as Hwf. apply wellKeyed_spec in Hwf.
  destruct Hwf as [Hk1 [Hk2 Hk3]].
  assert (Hstatus :
            forall now request st1 res,
              updateSessionStatus now request st = Ok (st1, res) ->
              findSession sessionId st1 = Some terminated
              /\ attendancesOf sessionId st1 = attendancesOf sessionId st).
  { intros now request st1 res Hx.
    apply updateSessionStatus_Ok in Hx.
    destruct Hx as [found [_ [Hf [_ [H1 [H2 [Hu Hst]]]]]]].
    assert (Hne : UpdateSessionStatusRequest.sessionId request <> sessionId).
    { intros E. rewrite E, Hfound in Hf. inversion Hf; subst found.
      apply terminal_not_active. auto. }
    pose proof (findSession_id _ _ _ Hf) as [_ Hfid].
    rewrite Hst. split; [| reflexivity].
    unfold findSession. cbn [attendanceSessions withSessions].
    rewrite <- Hfound. unfold findSession.
    eapply updateFirst_find_other; [exact Hu | exact Hf | |];
      cbn; apply Z.eqb_neq; congruence. }
  unfold exec. intros H.
  destruct (op c) as [r | r | r | r | r | r | r];
    open_ok H; clean_ok;
    match goal with
    | Hx : _ = Ok ?x |- _ => destruct x as [st1 res]; cbn [fst] in *
    end.
  - apply createSession_Ok in Hx.
    destruct Hx as [schedule [_ [_ [Hsess [Hrows [_ Hst]]]]]].
    subst st1. unfold findSession, attendancesOf. simpl.
    split.
    + rewrite find_app. unfold findSession in Hfound. now rewrite Hfound.
    + rewrite filter_app, (filter_nil _ (createdAttendances res));
        [apply app_nil_r |].
      rewrite Hrows.
      destruct (createAttendances_spec (nextAttendanceSessionId st)
                  (nextAttendanceId st)
                  (studentsOfClass (ClassSchedule.classId schedule) st))
        as [_ [_ Hall]].
      eapply Forall_impl; [| exact Hall].
      cbn beta. intros a [Ha _]. apply Z.eqb_neq.
      pose proof (findSession_id _ _ _ Hfound) as [Hin Hsid].
      rewrite Forall_forall in Hk1. specialize (Hk1 _ Hin). lia.
  - eapply Hstatus; exact Hx.
  - apply endSession_Ok in Hx. eapply Hstatus; exact Hx.
  - apply cancelSession_Ok in Hx. eapply Hstatus; exact Hx.
  - apply markAttendance_Ok in Hx.
    destruct Hx as [found [results [_ [Hf [_ [H1 [H2 [Hm [_ Hst]]]]]]]]].
    assert (Hne : MarkAttendanceRequest.sessionId r <> sessionId).
    { intros E. rewrite E, Hfound in Hf. inversion Hf; subst found.
      apply terminal_not_active. auto. }
    rewrite Hst. split; [exact Hfound |].
    unfold attendancesOf. cbn [attendances withAttendances].
    eapply markAll_filter_other; [| exact Hm].
    intros a Ha. apply Z.eqb_neq. congruence.
  - apply markSingleAttendance_Ok in Hx.
    destruct Hx as [a [s [_ [Ha [Hs [_ [H1 [H2 [Hu Hst]]]]]]]]].
    assert (Hne : Attendance.attendanceSessionId a <> sessionId).
    { intros E. rewrite E, Hfound in Hs. inversion Hs; subst s.
      apply terminal_not_active. auto. }
    rewrite Hst. split; [exact Hfound |].
    unfold attendancesOf. cbn [attendances withAttendances].
    eapply updateFirst_filter; [exact Hu | exact Ha | |];
      cbn; apply Z.eqb_neq; exact Hne.
  - apply studentCheckIn_Ok in Hx.
    destruct Hx as [found [a [s [_ [Hf [Hon [Ha [_ [_ [Hu Hst]]]]]]]]]].
    assert (Hne : StudentCheckInRequest.sessionId r <> sessionId).
    { intros E. rewrite E, Hfound in Hf. inversion Hf; subst found.
      now apply terminal_not_ongoing. }
    unfold findAttendanceOf in Ha. apply find_some in Ha.
    destruct Ha as [Hain Ha]. apply andb_true_iff in Ha.
    destruct Ha as [Has _]. apply Z.eqb_eq in Has.
    destruct (updateFirst_find _ _ _ _ _ Hu) as [x [Hx _]].
    pose proof (find_some _ _ Hx) as [Hxin Hxid]. apply Z.eqb_eq in Hxid.
    assert (x = a) by (eapply NoDup_key_inj; eauto). subst x.
    rewrite Hst. split; [exact Hfound |].
    unfold attendancesOf. cbn [attendances withAttendances].
    eapply updateFirst_filter; [exact Hu | exact Hx | |];
      cbn; apply Z.eqb_neq; congruence.
Qed.

End Terminal.

Lemma terminal_frame_run (utcOffset sessionId : Z) (terminated : AttendanceSession.t)
      (calls : list Call) (st : Store) :
  wellKeyed st = true ->
  findSession sessionId st = Some terminated ->
  isTerminal (AttendanceSession.status terminated) = true ->
  findSession sessionId (run utcOffset st calls) = Some terminated
  /\ attendancesOf sessionId (run utcOffset st calls) = attendancesOf sessionId st.
Proof.
  unfold run. revert st.
  induction calls as [| c rest IH]; intros st Hkeys Hfound Hterminal; simpl.
  - auto.
  - pose proof (wellKeyed_step utcOffset st c Hkeys) as Hkeys'.
    unfold step in *.
    destruct (exec utcOffset c st) as [st' | e] eqn:E.
    + destruct (terminal_frame_exec utcOffset st sessionId terminated
                  Hfound Hterminal Hkeys c st' E) as [Hf Ha].
      destruct (IH st' Hkeys' Hf Hterminal) as [Hf' Ha'].
      split; [exact Hf' | congruence].
    + now apply IH.
Qed.

(** C2: once a session is completed or cancelled, every later mutating
    call on it fails with an error ([updateSessionStatus] and its wrappers
    [endSession] and [cancelSession], [markAttendance],
    [markSingleAttendance] on a row of the session, [studentCheckIn]), and
    along any run of calls the session and its attendance rows stay as they
    were when it reached the terminal status. *)
Theorem terminal_session_is_frozen :
  forall (utcOffset : Z) (st : Store) (sessionId : Z)
         (terminated : AttendanceSession.t),
    wellKeyed st = true ->
    findSession sessionId st = Some terminated ->
    AttendanceSession.status terminated = "completed"
    \/ AttendanceSession.status terminated = "cancelled" ->
    (forall now request,
       UpdateSessionStatusRequest.sessionId request = sessionId ->
       exists e, updateSessionStatus now request st = Err e)
    /\ (forall now request,
          EndSessionRequest.sessionId request = sessionId ->
          (exists e, endSession now request st = Err e)
          /\ (exists e, cancelSession now request st = Err e))
    /\ (forall now request,
          MarkAttendanceRequest.sessionId request = sessionId ->
          exists e, markAttendance now request st = Err e)
    /\ (forall now request attendance,
          findAttendance (MarkSingleAttendanceRequest.attendanceId request) st
          = Some attendance ->
          Attendance.attendanceSessionId attendance = sessionId ->
          exists e, markSingleAttendance now request st = Err e)
    /\ (forall now request,
          StudentCheckInRequest.sessionId request = sessionId ->
          exists e, studentCheckIn utcOffset now request st = Err e)
    /\ (forall calls,
          findSession sessionId (run utcOffset st calls) = Some terminated
          /\ attendancesOf sessionId (run utcOffset st calls)
             = attendancesOf sessionId st).
Proof.
  intros utcOffset st sessionId terminated Hkeys Hfound Hstatus.
  apply isTerminal_iff in Hstatus.
  split; [| split; [| split; [| split; [| split]]]].
  - intros now request. now apply updateSessionStatus_terminal with terminated.
  - intros now request Hid. split.
    + now apply endSession_terminal with sessionId terminated.
    + now apply cancelSession_terminal with sessionId terminated.
  - intros now request. now apply markAttendance_terminal with terminated.
  - intros now request attendance.
    now apply markSingleAttendance_terminal with terminated.
  - intros now request. now apply studentCheckIn_terminal with terminated.
  - intros calls. now apply terminal_frame_run.
Qed.

Lemma terminal_session_is_frozen_witness :
  wellKeyed closedSchool = true
  /\ option_map AttendanceSession.status (findSession 1 closedSchool)
     = Some "completed"
  /\ (exists e,
        markAttendance (eightOClock + minutes 95)
          (MarkAttendanceRequest.mk 1 [AttendanceUpdate.mk 1 "present" None] 1)
          closedSchool = Err e)
  /\ attendancesOf 1
       (run 0 closedSchool
            [mkCall (eightOClock + minutes 95) (StudentCheckIn (checkInOf 1));
             mkCall (eightOClock + minutes 96)
                    (UpdateSessionStatus
                       (UpdateSessionStatusRequest.mk 1 "ongoing" 1))])
     = attendancesOf 1 closedSchool.
Proof.
  split; [reflexivity |]. split; [reflexivity |].
  destruct (findSession 1 closedSchool) as [terminated |] eqn:E;
    [| vm_compute in E; discriminate E].
  assert (Hstatus : AttendanceSession.status terminated = "completed"
                    \/ AttendanceSession.status terminated = "cancelled").
  { vm_compute in E. inversion E. left. reflexivity. }
  destruct (terminal_session_is_frozen 0 closedSchool 1 terminated
              eq_refl E Hstatus) as [_ [_ [Hmark [_ [_ Hrun]]]]].
  split.
  - apply Hmark. reflexivity.
  - apply Hrun.
Defined.

(** ** Status transitions *)

Lemma validSessionStatus_iff (status : string) :
  validSessionStatus status = true <->
  status = "ongoing" \/ status = "completed" \/ status = "cancelled".
Proof.
  unfold validSessionStatus. rewrite !orb_true_iff, !String.eqb_eq. tauto.
Qed.

(** The status an accepted [updateSessionStatus] wrote. *)
Lemma updateSessionStatus_result (now : Z) (request : UpdateSessionStatusRequest.t)
      (st st' : Store) (res : AttendanceSession.t) :
  updateSessionStatus now request st = Ok (st', res) ->
  validSessionStatus (UpdateSessionStatusRequest.status request) = true
  /\ findSession (UpdateSessionStatusRequest.sessionId request) st' = Some res
  /\ AttendanceSession.status res = UpdateSessionStatusRequest.status request
  /\ AttendanceSession.endedAt res
     = (if isTerminal (UpdateSessionStatusRequest.status request)
        then Some now else None)
  /\ attendances st' = attendances st.
Proof.
  intros H. apply updateSessionStatus_Ok in H.
  destruct H as [found [Hschema [Hf [_ [_ [_ [Hu Hst]]]]]]].
  unfold updateSessionStatusSchema in Hschema.
  rewrite !andb_true_iff in Hschema. destruct Hschema as [[_ Hvalid] _].
  split; [exact Hvalid |].
  apply updateFirst_Some in Hu.
  destruct Hu as [pre [r [post [E1 [Hpre [Hr [E2 E3]]]]]]].
  split; [| subst res; rewrite Hst; repeat split; reflexivity].
  unfold findSession. rewrite E2, E3.
  apply find_app_first; [exact Hpre | exact Hr].
Qed.

(** An ongoing session of the caller, and a request the schema accepts:
    the update goes through. *)
Lemma updateSessionStatus_accepts (now : Z) (request : UpdateSessionStatusRequest.t)
      (st : Store) (found : AttendanceSession.t) :
  findSession (UpdateSessionStatusRequest.sessionId request) st = Some found ->
  AttendanceSession.status found = "ongoing" ->
  AttendanceSession.createdBy found = UpdateSessionStatusRequest.profileId request ->
  updateSessionStatusSchema request = true ->
  exists st' res, updateSessionStatus now request st = Ok (st', res).
Proof.
  intros Hf Hon Hown Hschema.
  unfold updateSessionStatus, validate, validateSessionOwnership.
  rewrite Hschema, Hf. cbn [negb throwIf bind orThrow].
  rewrite Hown, Z.eqb_refl, Hon. cbn [negb throwIf bind String.eqb].
  unfold prismaUpdate.
  destruct (updateFirst _ _ (attendanceSessions st)) as [[sessions' u] |] eqn:E.
  - cbn. eauto.
  - apply updateFirst_None in E. unfold findSession in Hf. congruence.
Qed.

(** C3, amended: on an ongoing session, [updateSessionStatus] succeeds only
    when the requested status is one of the three the schema lists,
    ongoing, completed or cancelled; any other requested value is rejected
    with the Validation error and nothing is written. A request by the
    session's creator with positive ids and one of the three values is
    applied: the session takes the requested status, and its end is stamped
    with the clock for completed and cancelled and set to null for
    ongoing. *)
Theorem updateSessionStatus_from_ongoing :
  forall (now : Z) (request : UpdateSessionStatusRequest.t) (st : Store)
         (found : AttendanceSession.t),
    findSession (UpdateSessionStatusRequest.sessionId request) st = Some found ->
    AttendanceSession.status found = "ongoing" ->
    (forall st' res,
       updateSessionStatus now request st = Ok (st', res) ->
       (UpdateSessionStatusRequest.status request = "ongoing"
        \/ UpdateSessionStatusRequest.status request = "completed"
        \/ UpdateSessionStatusRequest.status request = "cancelled")
       /\ findSession (UpdateSessionStatusRequest.sessionId request) st' = Some res
       /\ AttendanceSession.status res = UpdateSessionStatusRequest.status request
       /\ AttendanceSession.endedAt res
          = (if isTerminal (UpdateSessionStatusRequest.status request)
             then Some now else None))
    /\ (UpdateSessionStatusRequest.status request <> "ongoing" ->
        UpdateSessionStatusRequest.status request <> "completed" ->
        UpdateSessionStatusRequest.status request <> "cancelled" ->
        updateSessionStatus now request st
        = Err (validationError "updateSessionStatusSchema"))
    /\ (AttendanceSession.createdBy found
        = UpdateSessionStatusRequest.profileId request ->
        0 < UpdateSessionStatusRequest.sessionId request ->
        0 < UpdateSessionStatusRequest.profileId request ->
        UpdateSessionStatusRequest.status request = "ongoing"
        \/ UpdateSessionStatusRequest.status request = "completed"
        \/ UpdateSessionStatusRequest.status request = "cancelled" ->
        exists st' res, updateSessionStatus now request st = Ok (st', res)).
Proof.
  intros now request st found Hf Hon. split; [| split].
  - intros st' res H. apply updateSessionStatus_result in H.
    destruct H as [Hvalid [Hf' [Hs [He _]]]].
    apply validSessionStatus_iff in Hvalid. auto.
  - intros H1 H2 H3.
    assert (Hvalid : validSessionStatus (UpdateSessionStatusRequest.status request)
                     = false).
    { destruct (validSessionStatus _) eqn:E; [| reflexivity].
      apply validSessionStatus_iff in E. tauto. }
    unfold updateSessionStatus, updateSessionStatusSchema.
    rewrite Hvalid, andb_false_r. reflexivity.
  - intros Hown Hsid Hpid Hvalid.
    apply updateSessionStatus_accepts with found; try assumption.
    unfold updateSessionStatusSchema, positiveId.
    apply validSessionStatus_iff in Hvalid.
    rewrite Hvalid, andb_true_r. apply andb_true_iff.
    split; now apply Z.ltb_lt.
Qed.

Lemma updateSessionStatus_from_ongoing_witness :
  option_map AttendanceSession.status (findSession 1 openSchool) = Some "ongoing"
  /\ updateSessionStatus (eightOClock + minutes 90)
       (UpdateSessionStatusRequest.mk 1 "paused" 1) openSchool
     = Err (validationError "updateSessionStatusSchema")
  /\ exists st' res,
       updateSessionStatus (eightOClock + minutes 90)
         (UpdateSessionStatusRequest.mk 1 "cancelled" 1) openSchool
       = Ok (st', res).
Proof.
  split; [reflexivity |].
  destruct (findSession 1 openSchool) as [found |] eqn:E;
    [| vm_compute in E; discriminate E].
  assert (Hon : AttendanceSession.status found = "ongoing").
  { vm_compute in E. inversion E. reflexivity. }
  assert (Hown : AttendanceSession.createdBy found = 1).
  { vm_compute in E. inversion E. reflexivity. }
  split.
  - apply (proj1 (proj2 (updateSessionStatus_from_ongoing
                           (eightOClock + minutes 90)
                           (UpdateSessionStatusRequest.mk 1 "paused" 1)
                           openSchool found E Hon))); discriminate.
  - apply (proj2 (proj2 (updateSessionStatus_from_ongoing
                           (eightOClock + minutes 90)
                           (UpdateSessionStatusRequest.mk 1 "cancelled" 1)
                           openSchool found E Hon))).
    + exact Hown.
    + reflexivity.
    + reflexivity.
    + right. right. reflexivity.
Defined.

(** C3 as stated fails: the schema lists ongoing among the valid values,
    and a request for ongoing on an ongoing session is applied, not
    rejected. *)
Lemma updateSessionStatus_ongoing_again :
  let request := UpdateSessionStatusRequest.mk 1 "ongoing" 1 in
  option_map AttendanceSession.status (findSession 1 openSchool) = Some "ongoing"
  /\ UpdateSessionStatusRequest.status request <> "completed"
  /\ UpdateSessionStatusRequest.status request <> "cancelled"
  /\ exists st' res,
       updateSessionStatus (eightOClock + minutes 90) request openSchool
       = Ok (st', res)
       /\ AttendanceSession.status res = "ongoing"
       /\ AttendanceSession.endedAt res = None.
Proof.
  intros request. split; [reflexivity |].
  split; [discriminate |]. split; [discriminate |].
  eexists. eexists. split; [reflexivity |]. split; reflexivity.
Qed.

(** ** One check-in *)

(** An update that keeps what [g] looks at moves the first row [g] finds
    only by updating it. *)
Lemma updateFirst_find_keyed {A} (g where_ : A -> bool) (data : A -> A)
      (rows rows' : list A) (u r : A) :
  find g rows = Some r ->
  updateFirst where_ data rows = Some (rows', u) ->
  (forall x, g (data x) = g x) ->
  find g rows' = Some r \/ (where_ r = true /\ find g rows' = Some (data r)).
Proof.
  intros Hfind H Hg. apply updateFirst_Some in H.
  destruct H as [pre [x [post [E1 [Hpre [Hx [E2 _]]]]]]]. subst.
  rewrite find_app in *. destruct (find g pre) as [y |]; [now left |].
  simpl in *. rewrite Hg. destruct (g x).
  - inversion Hfind; subst. now right.
  - now left.
Qed.

(** When the row updated is the very row [g] finds, [g] then finds it
    updated. *)
Lemma updateFirst_find_same {A} (g where_ : A -> bool) (data : A -> A)
      (rows rows' : list A) (u r : A) :
  (forall x, g (data x) = g x) ->
  find g rows = Some r ->
  find where_ rows = Some r ->
  updateFirst where_ data rows = Some (rows', u) ->
  find g rows' = Some (data r).
Proof.
  intros Hg Hfind Hwhere H. apply updateFirst_Some in H.
  destruct H as [pre [x [post [E1 [Hpre [Hx [E2 _]]]]]]]. subst.
  rewrite (find_app_first where_ pre post x Hpre Hx) in Hwhere.
  inversion Hwhere; subst x.
  pose proof (find_some _ _ Hfind) as [_ Hgr].
  rewrite find_app in *.
  destruct (find g pre) as [y |] eqn:Ey.
  - inversion Hfind; subst y. apply find_some in Ey. destruct Ey as [Hin _].
    rewrite (Hpre r Hin) in Hx. discriminate.
  - simpl. now rewrite Hg, Hgr.
Qed.

Lemma checkedIn_rejects (utcOffset now : Z) (request : StudentCheckInRequest.t)
      (attendanceId : Z) (st : Store) :
  checkedIn (StudentCheckInRequest.sessionId request)
            (StudentCheckInRequest.studentId request) attendanceId st ->
  exists e, studentCheckIn utcOffset now request st = Err e.
Proof.
  intros [r [Hr [_ Hstatus]]]. apply not_Ok_Err. intros [st' row] H.
  apply studentCheckIn_Ok in H.
  destruct H as [found [a [s [_ [_ [_ [Ha [Habs _]]]]]]]].
  rewrite Hr in Ha. inversion Ha; subst a. contradiction.
Qed.

Lemma markAll_checkedIn (now sessionId profileId attendanceId : Z)
      (g : Attendance.t -> bool) (updates : list AttendanceUpdate.t) :
  (forall status notes a, g (markData now profileId status notes a) = g a) ->
  existsb (fun att => (AttendanceUpdate.attendanceId att =? attendanceId)
                      && String.eqb (AttendanceUpdate.status att) "absent")
          updates = false ->
  forall rows rows' results r,
    find g rows = Some r ->
    Attendance.id r = attendanceId ->
    Attendance.status r <> "absent" ->
    markAll now sessionId profileId updates rows = Ok (rows', results) ->
    exists r', find g rows' = Some r'
               /\ Attendance.id r' = attendanceId
               /\ Attendance.status r' <> "absent".
Proof.
  intros Hg. induction updates as [| att rest IH];
    intros Hno rows rows' results r Hfind Hid Hstatus H.
  - simpl in H. inversion H; subst. eauto.
  - apply markAll_cons in H. destruct H as [rows1 [one [others [H1 [H2 _]]]]].
    simpl in Hno. apply orb_false_iff in Hno. destruct Hno as [Hatt Hrest].
    destruct (updateFirst_find_keyed g _ _ _ _ _ r Hfind H1 (Hg _ _))
      as [Hsame | [Hw Hnew]].
    + eapply IH; eauto.
    + eapply IH; [exact Hrest | exact Hnew | exact Hid | | exact H2].
      cbn [markData Attendance.status].
      apply andb_true_iff in Hw. destruct Hw as [Hw _]. apply Z.eqb_eq in Hw.
      rewrite <- Hw, Hid, Z.eqb_refl in Hatt. simpl in Hatt.
      now apply String.eqb_neq.
Qed.

(** Any call that is not a teacher's marking of the row as absent leaves
    the student checked in. *)
Lemma checkedIn_exec (utcOffset sessionId studentId attendanceId : Z)
      (c : Call) (st st' : Store) :
  checkedIn sessionId studentId attendanceId st ->
  marksAbsent attendanceId c = false ->
  exec utcOffset c st = Ok st' ->
  checkedIn sessionId studentId attendanceId st'.
Proof.
  unfold checkedIn, marksAbsent, exec, findAttendanceOf.
  intros [r0 [Hfind [Hid Hstatus]]] Hno H.
  set (g := fun a => (Attendance.attendanceSessionId a =? sessionId)
                     && (Attendance.studentId a =? studentId)) in *.
  assert (Hstatus' :
            forall now request st1 res,
              updateSessionStatus now request st = Ok (st1, res) ->
              exists r, find g (attendances st1) = Some r
                        /\ Attendance.id r = attendanceId
                        /\ Attendance.status r <> "absent").
  { intros now request st1 res Hx. apply updateSessionStatus_result in Hx.
    destruct Hx as [_ [_ [_ [_ Hrows]]]]. rewrite Hrows. eauto. }
  destruct (op c) as [r | r | r | r | r | r | r];
    open_ok H;
    match goal with
    | Hx : _ = Ok ?x |- _ =>
        match type of x with
        | (_ * _)%type => destruct x as [st1 res]; cbn [fst] in *
        end
    end;
    injection H as <-.
  - apply createSession_Ok in Hx.
    destruct Hx as [schedule [_ [_ [_ [_ [_ Hst]]]]]].
    rewrite Hst. simpl. rewrite find_app, Hfind. eauto.
  - eapply Hstatus'; exact Hx.
  - apply endSession_Ok in Hx. eapply Hstatus'; exact Hx.
  - apply cancelSession_Ok in Hx. eapply Hstatus'; exact Hx.
  - apply markAttendance_Ok in Hx.
    destruct Hx as [found [results [_ [_ [_ [_ [_ [Hm _]]]]]]]].
    eapply markAll_checkedIn; [| exact Hno | exact Hfind | exact Hid
                               | exact Hstatus | exact Hm].
    reflexivity.
  - apply markSingleAttendance_Ok in Hx.
    destruct Hx as [a [s [_ [_ [_ [_ [_ [_ [Hu _]]]]]]]]].
    destruct (updateFirst_find_keyed g _ _ _ _ _ r0 Hfind Hu (fun _ => eq_refl))
      as [Hsame | [Hw Hnew]]; [eauto |].
    exists (markData (instant c) (MarkSingleAttendanceRequest.profileId r)
                     (MarkSingleAttendanceRequest.status r)
                     (MarkSingleAttendanceRequest.notes r) r0).
    split; [exact Hnew |]. split; [exact Hid |].
    cbn [markData Attendance.status].
    apply Z.eqb_eq in Hw. rewrite <- Hw, Hid, Z.eqb_refl in Hno. simpl in Hno.
    now apply String.eqb_neq.
  - apply studentCheckIn_Ok in Hx.
    destruct Hx as [found [a [s [_ [_ [_ [_ [_ [_ [Hu _]]]]]]]]]].
    destruct (updateFirst_find_keyed g _ _ _ _ _ r0 Hfind Hu (fun _ => eq_refl))
      as [Hsame | [Hw Hnew]]; [eauto |].
    eexists. split; [exact Hnew |]. split; [exact Hid |].
    cbn [checkInData Attendance.status].
    destruct (determineAttendanceStatus_values utcOffset (instant c)
                (AttendanceSession.date found) (ClassSchedule.startTime s) None)
      as [E | E]; rewrite E; discriminate.
Qed.

Lemma checkedIn_run (utcOffset sessionId studentId attendanceId : Z)
      (calls : list Call) (st : Store) :
  checkedIn sessionId studentId attendanceId st ->
  Forall (fun c => marksAbsent attendanceId c = false) calls ->
  checkedIn sessionId studentId attendanceId (run utcOffset st calls).
Proof.
  unfold run. intros Hin Hcalls. revert st Hin.
  induction Hcalls as [| c rest Hc _ IH]; intros st Hin; simpl.
  - exact Hin.
  - apply IH. unfold step.
    destruct (exec utcOffset c st) as [st' | e] eqn:E; [| exact Hin].
    eapply checkedIn_exec; eauto.
Qed.

(** After a successful check-in the student is checked in, on the row the
    call returned. *)
Lemma studentCheckIn_checkedIn (utcOffset now : Z) (request : StudentCheckInRequest.t)
      (st st' : Store) (row : Attendance.t) :
  wellKeyed st = true ->
  studentCheckIn utcOffset now request st = Ok (st', row) ->
  checkedIn (StudentCheckInRequest.sessionId request)
            (StudentCheckInRequest.studentId request) (Attendance.id row) st'
  /\ attendanceSessions st' = attendanceSessions st.
Proof.
  intros Hkeys H. apply studentCheckIn_Ok in H.
  destruct H as [found [a [s [_ [_ [_ [Ha [_ [_ [Hu Hst]]]]]]]]]].
  apply wellKeyed_spec in Hkeys. destruct Hkeys as [_ [_ Hnd]].
  destruct (updateFirst_find _ _ _ _ _ Hu) as [x [Hx Hrow]].
  pose proof (find_some _ _ Hx) as [Hxin Hxid]. apply Z.eqb_eq in Hxid.
  pose proof Ha as Ha'. unfold findAttendanceOf in Ha'.
  apply find_some in Ha'. destruct Ha' as [Hain _].
  assert (x = a) by (eapply NoDup_key_inj; eauto). subst x.
  split; [| rewrite Hst; reflexivity].
  exists row. unfold findAttendanceOf. split; [| split].
  - rewrite Hrow.
    eapply updateFirst_find_same; [| exact Ha | exact Hx | exact Hu].
    reflexivity.
  - reflexivity.
  - rewrite Hrow. cbn [checkInData Attendance.status].
    destruct (determineAttendanceStatus_values utcOffset now
                (AttendanceSession.date found) (ClassSchedule.startTime s) None)
      as [E | E]; rewrite E; discriminate.
Qed.

Lemma studentCheckIn_already (utcOffset now attendanceId : Z)
      (request : StudentCheckInRequest.t) (st : Store)
      (found : AttendanceSession.t) :
  studentCheckInSchema request = true ->
  findSession (StudentCheckInRequest.sessionId request) st = Some found ->
  AttendanceSession.status found = "ongoing" ->
  checkedIn (StudentCheckInRequest.sessionId request)
            (StudentCheckInRequest.studentId request) attendanceId st ->
  studentCheckIn utcOffset now request st
  = Err (ResponseError 400 (Msg "Already checked in for this session")).
Proof.
  intros Hschema Hf Hon [r [Hr [_ Hstatus]]].
  unfold studentCheckIn, validate.
  rewrite Hschema, Hf. cbn [negb throwIf bind orThrow].
  rewrite Hon, Hr. cbn [negb throwIf bind orThrow String.eqb].
  apply String.eqb_neq in Hstatus. rewrite Hstatus. reflexivity.
Qed.

(** C4, amended: [studentCheckIn] succeeds only when the session exists and
    is ongoing and the student's record for it exists and is absent. A
    second check-in right after a successful one is rejected as already
    checked in, and so is every later one in a run of calls in which no
    teacher marks that record absent again: the check looks at the
    record's current status, and a record a teacher has reset to absent
    can be checked in once more. *)
Theorem studentCheckIn_one_shot :
  forall (utcOffset now : Z) (request : StudentCheckInRequest.t)
         (st st' : Store) (row : Attendance.t),
    studentCheckIn utcOffset now request st = Ok (st', row) ->
    (exists found attendance,
        findSession (StudentCheckInRequest.sessionId request) st = Some found
        /\ AttendanceSession.status found = "ongoing"
        /\ findAttendanceOf (StudentCheckInRequest.sessionId request)
                            (StudentCheckInRequest.studentId request) st
           = Some attendance
        /\ Attendance.status attendance = "absent")
    /\ (wellKeyed st = true ->
        (forall now' request',
           studentCheckInSchema request' = true ->
           StudentCheckInRequest.sessionId request'
           = StudentCheckInRequest.sessionId request ->
           StudentCheckInRequest.studentId request'
           = StudentCheckInRequest.studentId request ->
           studentCheckIn utcOffset now' request' st'
           = Err (ResponseError 400 (Msg "Already checked in for this session")))
        /\ (forall calls now' request',
              Forall (fun c => marksAbsent (Attendance.id row) c = false) calls ->
              StudentCheckInRequest.sessionId request'
              = StudentCheckInRequest.sessionId request ->
              StudentCheckInRequest.studentId request'
              = StudentCheckInRequest.studentId request ->
              exists e,
                studentCheckIn utcOffset now' request' (run utcOffset st' calls)
                = Err e)).
Proof.
  intros utcOffset now request st st' row H. split.
  - apply studentCheckIn_Ok in H.
    destruct H as [found [a [s [_ [Hf [Hon [Ha [Habs _]]]]]]]].
    exists found, a. auto.
  - intros Hkeys.
    destruct (studentCheckIn_checkedIn _ _ _ _ _ _ Hkeys H) as [Hin Hsessions].
    apply studentCheckIn_Ok in H.
    destruct H as [found [a [s [_ [Hf [Hon _]]]]]].
    split.
    + intros now' request' Hschema Hsid Hstu.
      apply studentCheckIn_already with (Attendance.id row) found.
      * exact Hschema.
      * unfold findSession in *. now rewrite Hsid, Hsessions.
      * exact Hon.
      * now rewrite Hsid, Hstu.
    + intros calls now' request' Hcalls Hsid Hstu.
      apply checkedIn_rejects with (Attendance.id row).
      rewrite Hsid, Hstu. now apply checkedIn_run.
Qed.

Lemma studentCheckIn_one_shot_witness :
  wellKeyed openSchool = true
  /\ exists st' row,
       studentCheckIn 0 (instant firstCheckIn) (checkInOf 1) openSchool = Ok (st', row)
       /\ studentCheckIn 0 (eightOClock + minutes 12) (checkInOf 1) st'
          = Err (ResponseError 400 (Msg "Already checked in for this session")).
Proof.
  split; [reflexivity |].
  destruct (studentCheckIn 0 (instant firstCheckIn) (checkInOf 1) openSchool)
    as [[st' row] | e] eqn:E; [| vm_compute in E; discriminate E].
  exists st', row. split; [reflexivity |].
  destruct (studentCheckIn_one_shot _ _ _ _ _ _ E) as [_ H].
  destruct (H eq_refl) as [Himmediate _].
  apply Himmediate; reflexivity.
Defined.

(** C4 as stated fails: student 1 checks in, the teacher marks the record
    absent again, and the same student checks in a second time; both
    check-ins of the one (session, student) pair succeed. *)
Lemma studentCheckIn_twice_after_remark :
  let st1 := step 0 openSchool firstCheckIn in
  let st2 := step 0 st1 markedAbsentAgain in
  isOk (studentCheckIn 0 (instant firstCheckIn) (checkInOf 1) openSchool) = true
  /\ isOk (exec 0 markedAbsentAgain st1) = true
  /\ isOk (studentCheckIn 0 (eightOClock + minutes 40) (checkInOf 1) st2) = true
  /\ option_map Attendance.status (findAttendanceOf 1 1 st1) = Some "present"
  /\ option_map Attendance.status (findAttendanceOf 1 1 st2) = Some "absent"
  /\ option_map Attendance.status
       (findAttendanceOf 1 1
          (step 0 st2 (mkCall (eightOClock + minutes 40)
                              (StudentCheckIn (checkInOf 1)))))
     = Some "late".
Proof.
  vm_compute. repeat split; reflexivity.
Qed.

(** ** The rows of the other sessions *)

Lemma find_keyed_none {A K} (key : A -> K) (w : K -> bool) (l l' : list A) :
  map key l = map key l' ->
  find (fun a => w (key a)) l = None ->
  find (fun a => w (key a)) l' = None.
Proof.
  intros E H. rewrite find_none_iff in *.
  intros x Hx.
  assert (Hk : In (key x) (map key l)) by (rewrite E; now apply in_map).
  apply in_map_iff in Hk. destruct Hk as [y [Ey Hy]].
  rewrite <- Ey. now apply H.
Qed.

(** A transaction that went through found a row for each of its
    updates. *)
Lemma markAll_found (now sessionId profileId : Z) (updates : list AttendanceUpdate.t) :
  forall rows rows' results att,
    markAll now sessionId profileId updates rows = Ok (rows', results) ->
    In att updates ->
    find (fun a => (Attendance.id a =? AttendanceUpdate.attendanceId att)
                   && (Attendance.attendanceSessionId a =? sessionId))
         rows <> None.
Proof.
  induction updates as [| att0 rest IH]; intros rows rows' results att H Hin.
  - contradiction.
  - apply markAll_cons in H. destruct H as [rows1 [one [others [H1 [H2 _]]]]].
    destruct Hin as [E | Hin].
    + subst att0. destruct (updateFirst_find _ _ _ _ _ H1) as [x [Hx _]].
      congruence.
    + intros Hnone. apply (IH _ _ _ att H2 Hin).
      apply (find_keyed_none
               (fun a => (Attendance.id a, Attendance.attendanceSessionId a))
               (fun k => (fst k =? AttendanceUpdate.attendanceId att)
                         && (snd k =? sessionId))
               rows rows1); [| exact Hnone].
      symmetry. eapply updateFirst_map; [| exact H1]. reflexivity.
Qed.

(** C10: a [markAttendance] call on session S never changes a row of
    another session, whether it goes through or throws. Each update selects
    by the attendance id and by attendanceSessionId = S together, so an
    entry that selects no row of S, as one whose id is that of a row of
    another session, makes the call throw, and then no row at all is
    changed, those of S included. *)
Theorem markAttendance_frame :
  forall (utcOffset now : Z) (request : MarkAttendanceRequest.t) (st : Store),
    let call := mkCall now (MarkAttendance request) in
    (forall other,
       other <> MarkAttendanceRequest.sessionId request ->
       attendancesOf other (step utcOffset st call) = attendancesOf other st)
    /\ (forall att,
          In att (MarkAttendanceRequest.attendances request) ->
          find (fun a => (Attendance.id a =? AttendanceUpdate.attendanceId att)
                         && (Attendance.attendanceSessionId a
                             =? MarkAttendanceRequest.sessionId request))
               (attendances st) = None ->
          (exists e, markAttendance now request st = Err e)
          /\ step utcOffset st call = st)
    /\ (wellKeyed st = true ->
        forall att row,
          In att (MarkAttendanceRequest.attendances request) ->
          In row (attendances st) ->
          Attendance.id row = AttendanceUpdate.attendanceId att ->
          Attendance.attendanceSessionId row
          <> MarkAttendanceRequest.sessionId request ->
          (exists e, markAttendance now request st = Err e)
          /\ step utcOffset st call = st).
Proof.
  intros utcOffset now request st call.
  assert (Hfail : forall att,
            In att (MarkAttendanceRequest.attendances request) ->
            find (fun a => (Attendance.id a =? AttendanceUpdate.attendanceId att)
                           && (Attendance.attendanceSessionId a
                               =? MarkAttendanceRequest.sessionId request))
                 (attendances st) = None ->
            (exists e, markAttendance now request st = Err e)
            /\ step utcOffset st call = st).
  { intros att Hin Hnone.
    assert (He : exists e, markAttendance now request st = Err e).
    { apply not_Ok_Err. intros [st' res] H. apply markAttendance_Ok in H.
      destruct H as [found [results [_ [_ [_ [_ [_ [Hm _]]]]]]]].
      exact (markAll_found _ _ _ _ _ _ _ att Hm Hin Hnone). }
    split; [exact He |].
    destruct He as [e He]. unfold step, exec, call. cbn [op instant].
    now rewrite He. }
  split; [| split; [exact Hfail |]].
  - intros other Hother. unfold step, exec, call. cbn [op instant].
    destruct (markAttendance now request st) as [[st' res] | e] eqn:E;
      [| reflexivity].
    cbn [bind fst]. apply markAttendance_Ok in E.
    destruct E as [found [results [_ [_ [_ [_ [_ [Hm [_ Hst]]]]]]]]].
    rewrite Hst. unfold attendancesOf. cbn [attendances withAttendances].
    eapply markAll_filter_other; [| exact Hm].
    intros a Ha. apply Z.eqb_neq. congruence.
  - intros Hkeys att row Hin Hrow Hid Hsession.
    apply (Hfail att Hin).
    apply wellKeyed_spec in Hkeys. destruct Hkeys as [_ [_ Hnd]].
    destruct (find _ (attendances st)) as [x |] eqn:E; [| reflexivity].
    apply find_some in E. destruct E as [Hx Hw].
    apply andb_true_iff in Hw. destruct Hw as [Hxid Hxs].
    apply Z.eqb_eq in Hxid, Hxs.
    assert (x = row) by (eapply NoDup_key_inj; eauto; congruence).
    subst x. contradiction.
Qed.

Lemma markAttendance_frame_witness :
  let st := step 0 openSchool
                 (mkCall (eightOClock + minutes 60)
                         (CreateSession (CreateSessionRequest.mk 1 (monday + 7) None 1))) in
  let request :=
    MarkAttendanceRequest.mk 1 [AttendanceUpdate.mk 1 "present" None;
                                AttendanceUpdate.mk 4 "late" None] 1 in
  wellKeyed st = true
  /\ option_map Attendance.attendanceSessionId (findAttendance 4 st) = Some 2
  /\ (exists e, markAttendance (eightOClock + minutes 61) request st = Err e)
  /\ step 0 st (mkCall (eightOClock + minutes 61) (MarkAttendance request)) = st.
Proof.
  intros st request.
  split; [reflexivity |]. split; [reflexivity |].
  destruct (markAttendance_frame 0 (eightOClock + minutes 61) request st)
    as [_ [_ H]].
  apply (H eq_refl (AttendanceUpdate.mk 4 "late" None)
           (Attendance.mk 4 2 1 "absent" None None None None None None)).
  - right. left. reflexivity.
  - vm_compute. tauto.
  - reflexivity.
  - discriminate.
Defined.

(** * Further properties of the helpers *)

(** ** Consecutive absences *)

Lemma countAbsences_shift (count : Z) (attendances : list Attendance.t) :
  countAbsences count attendances = count + countAbsences 0 attendances.
Proof.
  revert count. induction attendances as [| att rest IH]; intros count; simpl.
  - lia.
  - destruct (String.eqb (Attendance.status att) "absent"); [| lia].
    rewrite (IH (count + 1)), (IH 1). lia.
Qed.

Lemma calculateConsecutiveAbsences_cons (att : Attendance.t)
      (rest : list Attendance.t) :
  calculateConsecutiveAbsences (att :: rest)
  = if String.eqb (Attendance.status att) "absent"
    then 1 + calculateConsecutiveAbsences rest
    else 0.
Proof.
  unfold calculateConsecutiveAbsences. simpl.
  destruct (String.eqb (Attendance.status att) "absent"); [| reflexivity].
  apply countAbsences_shift.
Qed.

Lemma calculateConsecutiveAbsences_nonneg (attendances : list Attendance.t) :
  0 <= calculateConsecutiveAbsences attendances.
Proof.
  revert attendances. intros records. induction records as [| att rest IH].
  - unfold calculateConsecutiveAbsences. simpl. lia.
  - rewrite calculateConsecutiveAbsences_cons.
    destruct (String.eqb (Attendance.status att) "absent"); lia.
Qed.

(** X1: [calculateConsecutiveAbsences] is the length of the longest prefix of
    absent records: it lies between 0 and the number of records, that many
    leading records are all absent, and the record that follows them, if
    there is one, is not absent. *)
Theorem calculateConsecutiveAbsences_prefix :
  forall (attendances : list Attendance.t),
    let n := calculateConsecutiveAbsences attendances in
    0 <= n <= Z.of_nat (List.length attendances)
    /\ Forall (fun a => Attendance.status a = "absent")
              (firstn (Z.to_nat n) attendances)
    /\ match nth_error attendances (Z.to_nat n) with
       | Some a => Attendance.status a <> "absent"
       | None => n = Z.of_nat (List.length attendances)
       end.
Proof.
  intros records. induction records as [| att rest IH]; cbn zeta.
  - unfold calculateConsecutiveAbsences. simpl.
    split; [lia | split; [constructor | reflexivity]].
  - rewrite calculateConsecutiveAbsences_cons.
    cbn zeta in IH. destruct IH as [Hrange [Hall Hnext]].
    destruct (String.eqb_spec (Attendance.status att) "absent") as [E | E].
    + replace (Z.to_nat (1 + calculateConsecutiveAbsences rest))
        with (S (Z.to_nat (calculateConsecutiveAbsences rest))) by lia.
      cbn [List.length firstn nth_error].
      split; [lia | split].
      * constructor; assumption.
      * destruct (nth_error rest _); [exact Hnext | lia].
    + simpl. split; [lia | split; [constructor | exact E]].
Qed.

Lemma calculateConsecutiveAbsences_at_least (n : nat)
      (attendances : list Attendance.t) :
  (n <= List.length attendances)%nat ->
  Forall (fun a => Attendance.status a = "absent") (firstn n attendances) ->
  Z.of_nat n <= calculateConsecutiveAbsences attendances.
Proof.
  revert attendances. induction n as [| n IH]; intros attendances Hlen Hall.
  - pose proof (calculateConsecutiveAbsences_nonneg attendances) as H.
    simpl. lia.
  - destruct attendances as [| att rest]; [simpl in Hlen; lia |].
    simpl in Hlen, Hall. inversion Hall as [| a l Ha Hrest]; subst.
    rewrite calculateConsecutiveAbsences_cons.
    apply String.eqb_eq in Ha. rewrite Ha.
    specialize (IH rest ltac:(lia) Hrest). lia.
Qed.

(** X2: A student whose five most recent records are all absent is rated
    critical, whatever the attendance rate: [getAttendanceRiskLevel] on the
    count [calculateConsecutiveAbsences] gives for records listed newest
    first. *)
Theorem five_recent_absences_critical :
  forall (rate : Q) (attendances : list Attendance.t),
    (5 <= List.length attendances)%nat ->
    Forall (fun a => Attendance.status a = "absent") (firstn 5 attendances) ->
    getAttendanceRiskLevel rate (calculateConsecutiveAbsences attendances)
    = "critical".
Proof.
  intros rate attendances Hlen Hall.
  pose proof (calculateConsecutiveAbsences_at_least 5 attendances Hlen Hall) as H.
  unfold getAttendanceRiskLevel.
  replace (calculateConsecutiveAbsences attendances >=? 5) with true;
    [reflexivity |].
  symmetry. apply Z.geb_le. simpl in H. lia.
Qed.

Lemma five_recent_absences_critical_witness :
  let absent id := Attendance.mk id id 1 "absent" None None None None None None in
  let records := [absent 9; absent 8; absent 7; absent 6; absent 5;
                  Attendance.mk 4 4 1 "present" None None None None None None] in
  getAttendanceRiskLevel 100%Q (calculateConsecutiveAbsences records) = "critical".
Proof.
  intros absent records.
  apply five_recent_absences_critical.
  - simpl. lia.
  - simpl. repeat constructor.
Defined.

(** ** The warning and the risk level *)

(** X3: A rate that calls for a warning at the default threshold of 75 is never
    rated low: the risk level is then medium, high or critical, whatever
    the number of consecutive absences; and a rate rated low needs no
    warning. *)
Theorem warning_is_never_low_risk :
  forall (rate : Q) (consecutiveAbsences : Z),
    (needsAttendanceWarning rate None = true ->
     getAttendanceRiskLevel rate consecutiveAbsences = "medium"
     \/ getAttendanceRiskLevel rate consecutiveAbsences = "high"
     \/ getAttendanceRiskLevel rate consecutiveAbsences = "critical")
    /\ (getAttendanceRiskLevel rate consecutiveAbsences = "low" ->
        needsAttendanceWarning rate None = false).
Proof.
  intros rate n.
  assert (H80 : needsAttendanceWarning rate None = true -> Qltb rate 80 = true).
  { unfold needsAttendanceWarning. rewrite !Qltb_lt. intros H.
    eapply Qlt_trans; [exact H | reflexivity]. }
  unfold getAttendanceRiskLevel. split.
  - intros Hw. rewrite (H80 Hw), orb_true_r.
    destruct ((n >=? 5) || Qltb rate 50); [auto |].
    destruct ((n >=? 3) || Qltb rate 70); auto.
  - destruct ((n >=? 5) || Qltb rate 50); [discriminate |].
    destruct ((n >=? 3) || Qltb rate 70); [discriminate |].
    destruct ((n >=? 2) || Qltb rate 80) eqn:E; [discriminate |].
    intros _. apply orb_false_iff in E. destruct E as [_ E].
    destruct (needsAttendanceWarning rate None) eqn:Ew; [| reflexivity].
    rewrite (H80 eq_refl) in E. discriminate.
Qed.

Lemma warning_is_never_low_risk_witness :
  needsAttendanceWarning 74%Q None = true
  /\ getAttendanceRiskLevel 74%Q 0 = "medium".
Proof.
  split; [reflexivity |].
  destruct (proj1 (warning_is_never_low_risk 74%Q 0) eq_refl) as [H | [H | H]].
  - exact H.
  - vm_compute in H. discriminate H.
  - vm_compute in H. discriminate H.
Defined.

(** ** Validation of the marking data *)

Lemma validateEach_Ok (attendances : list AttendanceUpdate.t) :
  validateEach attendances = Ok tt <->
  Forall (fun att => AttendanceUpdate.attendanceId att <> 0
                     /\ validAttendanceStatus (AttendanceUpdate.status att) = true)
         attendances.
Proof.
  induction attendances as [| att rest IH]; simpl.
  - split; [constructor | reflexivity].
  - destruct (Z.eqb_spec (AttendanceUpdate.attendanceId att) 0) as [E | E]; simpl.
    + split; [discriminate |]. intros H. inversion H; subst. tauto.
    + destruct (validAttendanceStatus (AttendanceUpdate.status att)) eqn:Ev; simpl.
      * rewrite IH. split.
        -- intros H. constructor; auto.
        -- intros H. now inversion H.
      * split; [discriminate |]. intros H. inversion H; subst.
        destruct H2 as [_ H2]. congruence.
Qed.

(** X4: [validateAttendanceData] accepts exactly the non-empty arrays whose
    entries all have a non-zero attendance id and one of the four statuses,
    and rejects every other array with a 400; every request that
    [markAttendanceSchema] accepts passes it. *)
Theorem validateAttendanceData_accepts :
  forall (attendances : list AttendanceUpdate.t),
    (validateAttendanceData attendances = Ok true <->
     attendances <> []
     /\ Forall (fun att => AttendanceUpdate.attendanceId att <> 0
                           /\ validAttendanceStatus (AttendanceUpdate.status att)
                              = true)
               attendances)
    /\ (validateAttendanceData attendances = Ok true
        \/ exists text, validateAttendanceData attendances
                        = Err (ResponseError 400 (Msg text)))
    /\ (forall sessionId profileId,
          markAttendanceSchema
            (MarkAttendanceRequest.mk sessionId attendances profileId) = true ->
          validateAttendanceData attendances = Ok true).
Proof.
  intros attendances.
  assert (Hiff : validateAttendanceData attendances = Ok true <->
                 attendances <> []
                 /\ Forall (fun att => AttendanceUpdate.attendanceId att <> 0
                                       /\ validAttendanceStatus
                                            (AttendanceUpdate.status att) = true)
                           attendances).
  { unfold validateAttendanceData. rewrite <- validateEach_Ok.
    destruct attendances as [| att rest].
    - simpl. split; [discriminate | intros [H _]; now contradiction H].
    - cbn [List.length Nat.eqb throwIf bind].
      destruct (validateEach (att :: rest)) as [[] | e]; simpl.
      + split; [intros _; split; [discriminate | reflexivity] | reflexivity].
      + split; [discriminate | intros [_ H]; discriminate]. }
  split; [exact Hiff | split].
  - unfold validateAttendanceData.
    destruct attendances as [| att rest]; [right; simpl; eauto |].
    cbn [List.length Nat.eqb throwIf bind].
    generalize (att :: rest). intros l.
    induction l as [| a l IH]; simpl; [now left |].
    destruct (AttendanceUpdate.attendanceId a =? 0); simpl; [right; eauto |].
    destruct (validAttendanceStatus (AttendanceUpdate.status a)); simpl;
      [exact IH | right; eauto].
  - intros sessionId profileId Hschema. apply Hiff.
    unfold markAttendanceSchema in Hschema. simpl in Hschema.
    rewrite !andb_true_iff in Hschema.
    destruct Hschema as [[[_ Hall] Hlen] _].
    split.
    + destruct attendances; [discriminate | discriminate].
    + rewrite forallb_forall in Hall. apply Forall_forall. intros att Hin.
      specialize (Hall att Hin). unfold attendanceUpdateSchema, positiveId in Hall.
      rewrite !andb_true_iff in Hall. destruct Hall as [[Hid Hv] _].
      apply Z.ltb_lt in Hid. split; [lia | exact Hv].
Qed.

Lemma validateAttendanceData_accepts_witness :
  markAttendanceSchema
    (MarkAttendanceRequest.mk 1 [AttendanceUpdate.mk 3 "late" (Some "bus")] 1) = true
  /\ validateAttendanceData [AttendanceUpdate.mk 3 "late" (Some "bus")] = Ok true.
Proof.
  split; [reflexivity |].
  apply (proj2 (proj2 (validateAttendanceData_accepts
                         [AttendanceUpdate.mk 3 "late" (Some "bus")])) 1 1).
  reflexivity.
Defined.

(** ** Session summaries *)

(** How many records have the lower-cased status [key]. *)
Lemma bump_fields (summary : Summary.t) (status : string) :
  let hit key := if String.eqb status key then 1 else 0 in
  Summary.present (bump summary status) = Summary.present summary + hit "present"
  /\ Summary.absent (bump summary status) = Summary.absent summary + hit "absent"
  /\ Summary.late (bump summary status) = Summary.late summary + hit "late"
  /\ Summary.excused (bump summary status) = Summary.excused summary + hit "excused"
  /\ Summary.total (bump summary status) = Summary.total summary + hit "total".
Proof.
  destruct summary as [p a l e t]. unfold bump. cbn zeta.
  destruct (String.eqb_spec status "present") as [E | _];
    [subst; simpl; repeat split; lia |].
  destruct (String.eqb_spec status "absent") as [E | _];
    [subst; simpl; repeat split; lia |].
  destruct (String.eqb_spec status "late") as [E | _];
    [subst; simpl; repeat split; lia |].
  destruct (String.eqb_spec status "excused") as [E | _];
    [subst; simpl; repeat split; lia |].
  destruct (String.eqb_spec status "total") as [E | _];
    simpl; repeat split; lia.
Qed.

Lemma fold_bump_fields (toLowerCase : string -> string)
      (records : list Attendance.t) (summary : Summary.t) :
  let lowered key :=
    Z.of_nat (List.length
                (filter (fun a => String.eqb (toLowerCase (Attendance.status a)) key)
                        records)) in
  let result :=
    fold_left (fun s a => bump s (toLowerCase (Attendance.status a))) records summary in
  Summary.present result = Summary.present summary + lowered "present"
  /\ Summary.absent result = Summary.absent summary + lowered "absent"
  /\ Summary.late result = Summary.late summary + lowered "late"
  /\ Summary.excused result = Summary.excused summary + lowered "excused"
  /\ Summary.total result = Summary.total summary + lowered "total".
Proof.
  revert summary. induction records as [| a rest IH]; intros summary; cbn zeta.
  - simpl. repeat split; lia.
  - cbn [fold_left filter].
    specialize (IH (bump summary (toLowerCase (Attendance.status a)))).
    cbn zeta in IH. destruct IH as [H1 [H2 [H3 [H4 H5]]]].
    pose proof (bump_fields summary (toLowerCase (Attendance.status a))) as Hb.
    cbn zeta in Hb. destruct Hb as [B1 [B2 [B3 [B4 B5]]]].
    rewrite H1, H2, H3, H4, H5, B1, B2, B3, B4, B5.
    repeat split;
      match goal with
      | |- context [String.eqb ?s ?k] =>
          destruct (String.eqb s k); cbn [List.length]; lia
      end.
Qed.

Lemma calculateSessionSummary_fields :
  forall (toLowerCase : string -> string) (records : list Attendance.t),
    let lowered key :=
      Z.of_nat (List.length
                  (filter (fun a => String.eqb (toLowerCase (Attendance.status a)) key)
                          records)) in
    let summary := calculateSessionSummary toLowerCase records in
    Summary.present summary = lowered "present"
    /\ Summary.absent summary = lowered "absent"
    /\ Summary.late summary = lowered "late"
    /\ Summary.excused summary = lowered "excused"
    /\ Summary.total summary = Z.of_nat (List.length records) + lowered "total".
Proof.
  intros toLowerCase records. cbn zeta. unfold calculateSessionSummary.
  pose proof (fold_bump_fields toLowerCase records
                (Summary.mk 0 0 0 0 (Z.of_nat (List.length records)))) as H.
  cbn zeta in H. simpl in H. destruct H as [H1 [H2 [H3 [H4 H5]]]].
  rewrite H1, H2, H3, H4, H5.
  repeat split; reflexivity.
Qed.

(** X5: [calculateSessionSummary] counts, for each of present, absent, late and
    excused, the records whose lower-cased status is that word; the four
    counts never add up to more than the number of records. Its [total]
    starts at the number of records and is itself a key of the object: every
    record whose lower-cased status is the word total raises it by one. *)
Theorem calculateSessionSummary_counts :
  forall (toLowerCase : string -> string) (records : list Attendance.t),
    let lowered key :=
      Z.of_nat (List.length
                  (filter (fun a => String.eqb (toLowerCase (Attendance.status a)) key)
                          records)) in
    let summary := calculateSessionSummary toLowerCase records in
    Summary.present summary = lowered "present"
    /\ Summary.absent summary = lowered "absent"
    /\ Summary.late summary = lowered "late"
    /\ Summary.excused summary = lowered "excused"
    /\ Summary.total summary = Z.of_nat (List.length records) + lowered "total"
    /\ Summary.present summary + Summary.absent summary
       + Summary.late summary + Summary.excused summary
       <= Z.of_nat (List.length records).
Proof.
  intros toLowerCase records. cbn zeta.
  pose proof (calculateSessionSummary_fields toLowerCase records) as H.
  cbn zeta in H. destruct H as [H1 [H2 [H3 [H4 H5]]]].
  rewrite H1, H2, H3, H4, H5.
  repeat split; try reflexivity.
  clear. induction records as [| a rest IH]; [simpl; lia |].
  cbn [filter List.length].
  destruct (String.eqb_spec (toLowerCase (Attendance.status a)) "present") as [E | E].
  { rewrite E. cbn [String.eqb Ascii.eqb Bool.eqb List.length]. lia. }
  destruct (String.eqb_spec (toLowerCase (Attendance.status a)) "absent") as [E1 | E1].
  { rewrite E1. cbn [String.eqb Ascii.eqb Bool.eqb List.length]. lia. }
  destruct (String.eqb_spec (toLowerCase (Attendance.status a)) "late") as [E2 | E2].
  { rewrite E2. cbn [String.eqb Ascii.eqb Bool.eqb List.length]. lia. }
  destruct (String.eqb (toLowerCase (Attendance.status a)) "excused");
    cbn [List.length]; lia.
Qed.

Lemma countStatus_partition (records : list Attendance.t) :
  Forall (fun a => validAttendanceStatus (Attendance.status a) = true) records ->
  countStatus "present" records + countStatus "absent" records
  + countStatus "late" records + countStatus "excused" records
  = Z.of_nat (List.length records).
Proof.
  unfold countStatus. induction 1 as [| a rest Ha _ IH]; [reflexivity |].
  cbn [filter List.length].
  unfold validAttendanceStatus in Ha. rewrite !orb_true_iff, !String.eqb_eq in Ha.
  destruct Ha as [[[E | E] | E] | E]; rewrite E;
    cbn [String.eqb Ascii.eqb Bool.eqb List.length]; lia.
Qed.

(** X6: On records whose statuses are all among present, absent, late and
    excused, spelled as the services write them, [calculateSessionSummary]
    gives the summary that [getAttendanceBySession] builds with its four
    filters, and in both the four counts add up to the total. *)
Theorem summaries_agree :
  forall (toLowerCase : string -> string) (records : list Attendance.t),
    (forall s, validAttendanceStatus s = true -> toLowerCase s = s) ->
    Forall (fun a => validAttendanceStatus (Attendance.status a) = true) records ->
    calculateSessionSummary toLowerCase records = filterSummary records
    /\ Summary.present (filterSummary records) + Summary.absent (filterSummary records)
       + Summary.late (filterSummary records) + Summary.excused (filterSummary records)
       = Summary.total (filterSummary records).
Proof.
  intros toLowerCase records Hlower Hvalid.
  split; [| simpl; now apply countStatus_partition].
  pose proof (calculateSessionSummary_fields toLowerCase records) as H.
  cbn zeta in H. destruct H as [H1 [H2 [H3 [H4 H5]]]].
  assert (Hsame : forall key,
            filter (fun a => String.eqb (toLowerCase (Attendance.status a)) key) records
            = filter (fun a => String.eqb (Attendance.status a) key) records).
  { intros key. clear - Hlower Hvalid.
    induction Hvalid as [| a rest Ha _ IH]; [reflexivity |].
    cbn [filter]. now rewrite (Hlower _ Ha), IH. }
  assert (Htotal : filter (fun a => String.eqb (Attendance.status a) "total") records
                   = []).
  { clear - Hvalid. induction Hvalid as [| a rest Ha _ IH]; [reflexivity |].
    cbn [filter]. rewrite IH.
    unfold validAttendanceStatus in Ha. rewrite !orb_true_iff, !String.eqb_eq in Ha.
    destruct Ha as [[[E | E] | E] | E]; rewrite E; reflexivity. }
  rewrite !Hsame in *. rewrite Htotal in H5. simpl in H5.
  destruct (calculateSessionSummary toLowerCase records) as [p a l e t].
  simpl in *. unfold filterSummary, countStatus. f_equal; lia.
Qed.

Lemma lowerString_valid (s : string) :
  validAttendanceStatus s = true -> lowerString s = s.
Proof.
  unfold validAttendanceStatus. rewrite !orb_true_iff, !String.eqb_eq.
  intros [[[E | E] | E] | E]; subst; reflexivity.
Qed.

Lemma summaries_agree_witness :
  calculateSessionSummary lowerString (attendances openSchool)
  = filterSummary (attendances openSchool).
Proof.
  apply (summaries_agree lowerString (attendances openSchool) lowerString_valid).
  repeat constructor.
Defined.

(** ** Days of the week *)

(** X7: The two day conversions are inverse to each other between JavaScript's
    days 0..6 (0 is Sunday) and the stored days 1..7 (7 is Sunday): each
    maps its range onto the other's, and converting there and back gives
    the day one started from. *)
Theorem day_conversions_round_trip :
  forall (day : Z),
    (0 <= day <= 6 ->
     1 <= convertToPrismaDay day <= 7
     /\ convertToJSDay (convertToPrismaDay day) = day)
    /\ (1 <= day <= 7 ->
        0 <= convertToJSDay day <= 6
        /\ convertToPrismaDay (convertToJSDay day) = day).
Proof.
  intros day. unfold convertToPrismaDay, convertToJSDay. split; intros H.
  - destruct (Z.eqb_spec day 0) as [E | E].
    + subst. simpl. lia.
    + destruct (Z.eqb_spec day 7) as [E7 | E7]; lia.
  - destruct (Z.eqb_spec day 7) as [E | E].
    + subst. simpl. lia.
    + destruct (Z.eqb_spec day 0) as [E0 | E0]; lia.
Qed.

Lemma day_conversions_round_trip_witness :
  0 <= 0 <= 6 /\ convertToJSDay (convertToPrismaDay 0) = 0.
Proof.
  split; [lia |].
  apply (proj1 (day_conversions_round_trip 0)). lia.
Defined.

Lemma getDayName_cases (day : Z) :
  (day = 1 /\ getDayName day = "Monday")
  \/ (day = 2 /\ getDayName day = "Tuesday")
  \/ (day = 3 /\ getDayName day = "Wednesday")
  \/ (day = 4 /\ getDayName day = "Thursday")
  \/ (day = 5 /\ getDayName day = "Friday")
  \/ (day = 6 /\ getDayName day = "Saturday")
  \/ (day = 7 /\ getDayName day = "Sunday")
  \/ ((day < 1 \/ 7 < day) /\ getDayName day = "Unknown").
Proof.
  unfold getDayName.
  destruct (Z.eqb_spec day 1); [tauto |].
  destruct (Z.eqb_spec day 2); [tauto |].
  destruct (Z.eqb_spec day 3); [tauto |].
  destruct (Z.eqb_spec day 4); [tauto |].
  destruct (Z.eqb_spec day 5); [tauto |].
  destruct (Z.eqb_spec day 6); [tauto |].
  destruct (Z.eqb_spec day 7); [tauto |].
  repeat right. split; [lia | reflexivity].
Qed.

(** X8: [getDayName] answers Unknown exactly for the numbers outside 1..7 and
    gives different names to different days of 1..7; [getDayOfWeekName]
    in JavaScript mode names every day 0..6, with the name [getDayName]
    gives the converted day. *)
Theorem getDayName_names_the_week :
  forall (day other : Z),
    (getDayName day = "Unknown" <-> day < 1 \/ 7 < day)
    /\ (1 <= day <= 7 -> getDayName day = getDayName other -> day = other)
    /\ (0 <= day <= 6 ->
        getDayOfWeekName day (Some false) = getDayName (convertToPrismaDay day)
        /\ getDayOfWeekName day (Some false) <> "Unknown")
    /\ getDayOfWeekName day None = getDayName day.
Proof.
  intros day other. split; [| split; [| split]].
  - destruct (getDayName_cases day)
      as [[E H] | [[E H] | [[E H] | [[E H] | [[E H] | [[E H] | [[E H] | [E H]]]]]]]];
      rewrite H; split; try discriminate; try lia; auto.
  - intros Hday.
    destruct (getDayName_cases day)
      as [[E H] | [[E H] | [[E H] | [[E H] | [[E H] | [[E H] | [[E H] | [E H]]]]]]]];
      try lia;
      destruct (getDayName_cases other)
        as [[E' H'] | [[E' H'] | [[E' H'] | [[E' H'] | [[E' H'] | [[E' H']
            | [[E' H'] | [E' H']]]]]]]];
      rewrite H, H'; intros Hn; try discriminate Hn; lia.
  - intros Hday. split; [reflexivity |].
    unfold getDayOfWeekName. cbn [negb].
    assert (Hp : 1 <= convertToPrismaDay day <= 7).
    { unfold convertToPrismaDay. destruct (Z.eqb_spec day 0); lia. }
    destruct (getDayName_cases (convertToPrismaDay day))
      as [[E H] | [[E H] | [[E H] | [[E H] | [[E H] | [[E H] | [[E H] | [E H]]]]]]]];
      rewrite H; try discriminate; lia.
  - reflexivity.
Qed.

Lemma getDayName_names_the_week_witness :
  0 <= 0 <= 6 /\ getDayOfWeekName 0 (Some false) = "Sunday".
Proof.
  split; [lia |].
  rewrite (proj1 (proj1 (proj2 (proj2 (getDayName_names_the_week 0 0)))
                        ltac:(lia))).
  reflexivity.
Defined.

(** ** Weeks *)

Lemma msPerDay_pos : 0 < msPerDay.
Proof. reflexivity. Qed.

Lemma getDay_range (utcOffset date : Z) : 0 <= getDay utcOffset date < 7.
Proof. unfold getDay. apply Z.mod_pos_bound. lia. Qed.

Lemma getDay_shift (utcOffset date days : Z) :
  getDay utcOffset (date + days * msPerDay) = (getDay utcOffset date + days) mod 7.
Proof.
  unfold getDay, localDay.
  replace (date + days * msPerDay + utcOffset)
    with (date + utcOffset + days * msPerDay) by lia.
  rewrite Z.div_add by (pose proof msPerDay_pos; lia).
  rewrite Z.add_mod_idemp_l by lia. f_equal. lia.
Qed.

Lemma timeOfDay_shift (utcOffset date days : Z) :
  timeOfDay utcOffset (date + days * msPerDay) = timeOfDay utcOffset date.
Proof.
  unfold timeOfDay.
  replace (date + days * msPerDay + utcOffset)
    with (date + utcOffset + days * msPerDay) by lia.
  rewrite Z.mod_add by (pose proof msPerDay_pos; lia). reflexivity.
Qed.

(** While the clock of the zone does not change, [setDate] moves a date by
    whole days. *)
Lemma plusDays_steady (zone : Zone) (utcOffset from to date days : Z) :
  steady zone utcOffset from to ->
  from <= date <= to ->
  from <= date + days * msPerDay <= to ->
  plusDays zone date days = date + days * msPerDay.
Proof.
  intros [Hat Hlocal] Hdate Hmoved. unfold plusDays, LocalTime, UTC.
  rewrite (Hat date Hdate), Hlocal; lia.
Qed.

Lemma getStartOfWeek_back (zone : Zone) (utcOffset from to date : Z) :
  steady zone utcOffset from to ->
  from <= date - 6 * msPerDay ->
  date <= to ->
  exists back, 0 <= back <= 6
               /\ getStartOfWeek zone date = date - back * msPerDay
               /\ (getDay utcOffset date - back) mod 7 = 1.
Proof.
  intros Hsteady Hfrom Hto. pose proof msPerDay_pos as Hpos.
  assert (Hat : offsetAt zone date = utcOffset)
    by (apply (proj1 Hsteady); lia).
  unfold getStartOfWeek. cbn zeta. rewrite Hat.
  pose proof (getDay_range utcOffset date) as Hr.
  destruct (Z.eqb_spec (getDay utcOffset date) 0) as [E | E].
  - exists 6. rewrite E. split; [lia |]. split; [| reflexivity].
    rewrite (plusDays_steady zone utcOffset from to _ _ Hsteady); lia.
  - exists (getDay utcOffset date - 1). split; [lia |]. split.
    + rewrite (plusDays_steady zone utcOffset from to _ _ Hsteady); nia.
    + replace (getDay utcOffset date - (getDay utcOffset date - 1)) with 1 by lia.
      reflexivity.
Qed.

(** The model follows the clock where it changes. In New York, from Sunday
    10 March 2024, 16:00 UTC (noon, daylight time), [getStartOfWeek] goes
    to Monday 4 March, 17:00 UTC (noon, standard time): six days less one
    hour back. *)
Lemma getStartOfWeek_across_a_clock_change :
  getStartOfWeek newYorkSpring2024 1710086400000 = 1709571600000
  /\ 1710086400000 - 1709571600000 = 6 * msPerDay - 3600000.
Proof.
  split; reflexivity.
Qed.

(** X9: In a zone whose clock does not change within seven days of the date
    (one without daylight saving, as Asia/Jakarta, or any zone away from its
    changes), [getStartOfWeek] gives the Monday of the week of the date, at
    the same local time of day and at most six whole days back, and gives a
    Monday back unchanged; [getEndOfWeek] gives the Sunday six whole days
    later; the date lies in the range from the one to the other, which is
    the range [getWeeklySchedule] reads sessions for. Days of the week and
    times of day are the local ones, read with the offset in force at the
    instant. *)
Theorem week_of_a_date :
  forall (zone : Zone) (utcOffset date : Z),
    steady zone utcOffset (date - 7 * msPerDay) (date + 7 * msPerDay) ->
    let start := getStartOfWeek zone date in
    let end_ := getEndOfWeek zone date in
    getDay (offsetAt zone start) start = 1
    /\ getDay (offsetAt zone end_) end_ = 0
    /\ timeOfDay (offsetAt zone start) start = timeOfDay (offsetAt zone date) date
    /\ end_ = start + 6 * msPerDay
    /\ (exists back, 0 <= back <= 6 /\ date = start + back * msPerDay)
    /\ isDateInRange date start end_ = true
    /\ getStartOfWeek zone start = start.
Proof.
  intros zone utcOffset date Hsteady. cbn zeta. pose proof msPerDay_pos as Hpos.
  destruct (getStartOfWeek_back zone utcOffset _ _ date Hsteady)
    as [back [Hb [Hs Hm]]]; [lia | lia |].
  assert (Hend : getEndOfWeek zone date = date - back * msPerDay + 6 * msPerDay).
  { unfold getEndOfWeek. cbn zeta. rewrite Hs.
    apply (plusDays_steady zone utcOffset _ _ _ 6 Hsteady); nia. }
  assert (Hat : forall t, date - 7 * msPerDay <= t <= date + 7 * msPerDay ->
                          offsetAt zone t = utcOffset)
    by exact (proj1 Hsteady).
  assert (Hmonday : getDay utcOffset (date - back * msPerDay) = 1).
  { replace (date - back * msPerDay) with (date + (- back) * msPerDay) by lia.
    rewrite getDay_shift.
    replace (getDay utcOffset date + - back) with (getDay utcOffset date - back)
      by lia.
    exact Hm. }
  rewrite Hend, Hs.
  rewrite (Hat (date - back * msPerDay)), (Hat date),
    (Hat (date - back * msPerDay + 6 * msPerDay)) by nia.
  split; [exact Hmonday |]. split; [| split; [| split; [| split; [| split]]]].
  - rewrite getDay_shift, Hmonday. reflexivity.
  - replace (date - back * msPerDay) with (date + (- back) * msPerDay) by lia.
    apply timeOfDay_shift.
  - reflexivity.
  - exists back. split; [exact Hb | lia].
  - unfold isDateInRange.
    apply andb_true_iff. split; [apply Z.geb_le | apply Z.leb_le]; nia.
  - unfold getStartOfWeek. cbn zeta.
    rewrite (Hat (date - back * msPerDay)), Hmonday by nia. cbn [Z.eqb].
    rewrite (plusDays_steady zone utcOffset _ _ _ _ Hsteady); [lia | nia | nia].
Qed.

(** On Thursday 18 January 2024, 08:00 UTC, in Jakarta, where it is 15:00,
    the week starts on Monday 15 January, 08:00 UTC. *)
Lemma week_of_a_date_witness :
  steady jakarta (7 * 3600000) (1705564800000 - 7 * msPerDay)
         (1705564800000 + 7 * msPerDay)
  /\ getStartOfWeek jakarta 1705564800000 = 1705305600000
  /\ getDay (offsetAt jakarta 1705305600000) 1705305600000 = 1.
Proof.
  assert (H : steady jakarta (7 * 3600000) (1705564800000 - 7 * msPerDay)
                     (1705564800000 + 7 * msPerDay))
    by (split; intros; reflexivity).
  split; [exact H |]. split; [reflexivity |].
  destruct (week_of_a_date jakarta (7 * 3600000) 1705564800000 H) as [Hmonday _].
  exact Hmonday.
Defined.

(** X10: In a zone whose clock does not change within seven days of the date,
    the seven dates [getWeekDates] lists from the Monday [getStartOfWeek]
    gives are that Monday and the six days after it at the same time of
    day: the days 1, 2, ..., 7 of the stored numbering, in this order. In
    every zone the last of them is [getEndOfWeek]. *)
Theorem getWeekDates_covers_the_week :
  forall (zone : Zone) (utcOffset date : Z),
    let week := getWeekDates zone (getStartOfWeek zone date) in
    last week 0 = getEndOfWeek zone date
    /\ (steady zone utcOffset (date - 7 * msPerDay) (date + 7 * msPerDay) ->
        week = map (fun i => getStartOfWeek zone date + i * msPerDay)
                   [0; 1; 2; 3; 4; 5; 6]
        /\ map (fun d => convertToPrismaDay (getDay (offsetAt zone d) d)) week
           = [1; 2; 3; 4; 5; 6; 7]).
Proof.
  intros zone utcOffset date. cbn zeta. split; [reflexivity |].
  intros Hsteady. pose proof msPerDay_pos as Hpos.
  destruct (getStartOfWeek_back zone utcOffset _ _ date Hsteady)
    as [back [Hb [Hs Hm]]]; [lia | lia |].
  assert (Hmonday : getDay utcOffset (date - back * msPerDay) = 1).
  { replace (date - back * msPerDay) with (date + (- back) * msPerDay) by lia.
    rewrite getDay_shift.
    replace (getDay utcOffset date + - back) with (getDay utcOffset date - back)
      by lia.
    exact Hm. }
  assert (Hweek : getWeekDates zone (getStartOfWeek zone date)
                  = map (fun i => getStartOfWeek zone date + i * msPerDay)
                        [0; 1; 2; 3; 4; 5; 6]).
  { unfold getWeekDates. cbn [weekDatesFrom map Z.add Pos.add Pos.succ].
    rewrite Hs.
    rewrite !(plusDays_steady zone utcOffset _ _ _ _ Hsteady) by nia.
    reflexivity. }
  split; [exact Hweek |].
  rewrite Hweek, Hs. cbn [map].
  rewrite !(proj1 Hsteady) by nia.
  rewrite !getDay_shift, Hmonday. reflexivity.
Qed.

Lemma getWeekDates_covers_the_week_witness :
  steady jakarta (7 * 3600000) (1705564800000 - 7 * msPerDay)
         (1705564800000 + 7 * msPerDay)
  /\ map (fun d => convertToPrismaDay (getDay (offsetAt jakarta d) d))
         (getWeekDates jakarta (getStartOfWeek jakarta 1705564800000))
     = [1; 2; 3; 4; 5; 6; 7].
Proof.
  assert (H : steady jakarta (7 * 3600000) (1705564800000 - 7 * msPerDay)
                     (1705564800000 + 7 * msPerDay))
    by (split; intros; reflexivity).
  split; [exact H |].
  destruct (getWeekDates_covers_the_week jakarta (7 * 3600000) 1705564800000)
    as [_ Hweek].
  destruct (Hweek H) as [_ Hdays]. exact Hdays.
Defined.

(** ** Active schedules and conflicts *)

(** X11: [isScheduleActive] counts both ends of a slot in. Two slots are active
    at one and the same instant only when the three range conditions of
    [checkTimeConflict] hold between them, or when that instant is the end
    of the one and the start of the other. *)
Theorem active_together_only_when_overlapping :
  forall (utcOffset now : Z) (a b : ClassSchedule.t),
    isScheduleActive utcOffset a now = true ->
    isScheduleActive utcOffset b now = true ->
    ClassSchedule.dayOfWeek a = ClassSchedule.dayOfWeek b
    /\ (timeOverlap (ClassSchedule.startTime a) (ClassSchedule.endTime a) b = true
        \/ (ClassSchedule.endTime a = ClassSchedule.startTime b
            /\ timeOfDay utcOffset now = ClassSchedule.endTime a)
        \/ (ClassSchedule.endTime b = ClassSchedule.startTime a
            /\ timeOfDay utcOffset now = ClassSchedule.endTime b)).
Proof.
  intros utcOffset now a b Ha Hb. unfold isScheduleActive in *. cbn zeta in *.
  rewrite !andb_true_iff, Z.eqb_eq, Z.geb_le, Z.leb_le in Ha, Hb.
  destruct Ha as [[Hda Hsa] Hea], Hb as [[Hdb Hsb] Heb].
  split; [congruence |].
  destruct (timeOverlap (ClassSchedule.startTime a) (ClassSchedule.endTime a) b)
    eqn:E; [now left | right].
  assert (Hno : ~ (timeOverlap (ClassSchedule.startTime a)
                               (ClassSchedule.endTime a) b = true))
    by congruence.
  rewrite timeOverlap_spec in Hno. lia.
Qed.

Lemma active_together_only_when_overlapping_witness :
  let later := ClassSchedule.mk 2 1 2 1 1 (hms 9 30 0) (hms 11 0 0) None 1 true in
  let halfPastNine := eightOClock + minutes 90 in
  isScheduleActive 0 mondayEight halfPastNine = true
  /\ isScheduleActive 0 later halfPastNine = true
  /\ timeOverlap (ClassSchedule.startTime mondayEight)
                 (ClassSchedule.endTime mondayEight) later = false
  /\ timeOfDay 0 halfPastNine = ClassSchedule.endTime mondayEight.
Proof.
  intros later halfPastNine.
  assert (Ha : isScheduleActive 0 mondayEight halfPastNine = true) by reflexivity.
  assert (Hb : isScheduleActive 0 later halfPastNine = true) by reflexivity.
  split; [exact Ha |]. split; [exact Hb |]. split; [reflexivity |].
  destruct (proj2 (active_together_only_when_overlapping 0 halfPastNine
                     mondayEight later Ha Hb)) as [H | [[_ H] | [H _]]].
  - vm_compute in H. discriminate H.
  - exact H.
  - vm_compute in H. discriminate H.
Defined.

(** ** Grouping *)

Lemma mapGet_mapSet {V} (key key' : Z) (value : V) (m : list (Z * V)) :
  mapGet key' (mapSet key value m)
  = if key =? key' then Some value else mapGet key' m.
Proof.
  induction m as [| [k v] rest IH]; simpl.
  - reflexivity.
  - destruct (Z.eqb_spec k key) as [E | E]; simpl.
    + subst k. destruct (key =? key'); reflexivity.
    + rewrite IH. destruct (Z.eqb_spec k key') as [E' | E']; [| reflexivity].
      subst k. destruct (Z.eqb_spec key key'); [congruence | reflexivity].
Qed.

Lemma mapSet_keys {V} (key : Z) (value : V) (m : list (Z * V)) :
  mapGet key m <> None -> map fst (mapSet key value m) = map fst m.
Proof.
  induction m as [| [k v] rest IH]; simpl; intros H.
  - now contradiction H.
  - destruct (Z.eqb_spec k key) as [E | E]; simpl; [reflexivity |].
    now rewrite IH.
Qed.

Lemma pushSession_at (key : Z) (m : list (Z * list AttendanceSession.t))
      (session : AttendanceSession.t) :
  sessionsAt key (pushSession m session)
  = if AttendanceSession.classScheduleId session =? key
    then sessionsAt key m ++ [session]
    else sessionsAt key m.
Proof.
  unfold sessionsAt, pushSession, mapHas. cbn zeta.
  destruct (mapGet (AttendanceSession.classScheduleId session) m) as [l |] eqn:E;
    cbn [negb].
  - rewrite E, mapGet_mapSet.
    destruct (Z.eqb_spec (AttendanceSession.classScheduleId session) key) as [Ek | Ek];
      [| reflexivity].
    subst key. now rewrite E.
  - rewrite mapGet_mapSet, Z.eqb_refl, mapGet_mapSet, mapGet_mapSet.
    destruct (Z.eqb_spec (AttendanceSession.classScheduleId session) key) as [Ek | Ek];
      [| reflexivity].
    subst key. now rewrite E.
Qed.

Lemma fold_pushSession_at (key : Z) (sessions : list AttendanceSession.t)
      (m : list (Z * list AttendanceSession.t)) :
  sessionsAt key (fold_left pushSession sessions m)
  = sessionsAt key m
    ++ filter (fun s => AttendanceSession.classScheduleId s =? key) sessions.
Proof.
  revert m. induction sessions as [| s rest IH]; intros m; simpl.
  - now rewrite app_nil_r.
  - rewrite IH, pushSession_at.
    destruct (AttendanceSession.classScheduleId s =? key).
    + now rewrite <- app_assoc.
    + reflexivity.
Qed.

(** X12: [mergeSchedulesWithSessions] keeps the schedules in order and gives each
    one exactly the sessions whose [classScheduleId] is its id, in the order
    they came in; a session of no listed schedule appears nowhere. *)
Theorem mergeSchedulesWithSessions_attaches_own_sessions :
  forall (schedules : list ClassSchedule.t) (sessions : list AttendanceSession.t),
    mergeSchedulesWithSessions schedules sessions
    = map (fun schedule =>
             (schedule,
              filter (fun s => AttendanceSession.classScheduleId s
                               =? ClassSchedule.id schedule)
                     sessions))
          schedules.
Proof.
  intros schedules sessions. unfold mergeSchedulesWithSessions. cbn zeta.
  apply map_ext. intros schedule. f_equal.
  exact (fold_pushSession_at (ClassSchedule.id schedule) sessions []).
Qed.

Lemma pushSchedules_spec (schedules : list ClassSchedule.t) :
  forall (grouped grouped' : list (Z * list ClassSchedule.t)),
    pushSchedules grouped schedules = Ok grouped' ->
    map fst grouped' = map fst grouped
    /\ Forall (fun s => mapGet (ClassSchedule.dayOfWeek s) grouped <> None) schedules
    /\ forall day,
         mapGet day grouped'
         = option_map
             (fun l => l ++ filter (fun s => ClassSchedule.dayOfWeek s =? day) schedules)
             (mapGet day grouped).
Proof.
  induction schedules as [| s rest IH]; intros grouped grouped' H.
  - simpl in H. inversion H; subst. split; [reflexivity |]. split; [constructor |].
    intros day. destruct (mapGet day grouped'); simpl; [| reflexivity].
    now rewrite app_nil_r.
  - cbn [pushSchedules] in H. apply bind_Ok in H. destruct H as [g [Hg H]].
    unfold pushSchedule in Hg.
    destruct (mapGet (ClassSchedule.dayOfWeek s) grouped) as [l |] eqn:E;
      [| discriminate].
    inversion Hg; subst g; clear Hg.
    destruct (IH _ _ H) as [Hkeys [Hall Hget]].
    split; [| split].
    + rewrite Hkeys. apply mapSet_keys. congruence.
    + constructor; [congruence |].
      eapply Forall_impl; [| exact Hall]. cbn beta. intros x Hx.
      rewrite mapGet_mapSet in Hx.
      destruct (ClassSchedule.dayOfWeek s =? ClassSchedule.dayOfWeek x) eqn:Ed;
        [| exact Hx].
      apply Z.eqb_eq in Ed. congruence.
    + intros day. rewrite Hget, mapGet_mapSet. cbn [filter].
      destruct (Z.eqb_spec (ClassSchedule.dayOfWeek s) day) as [Ed | Ed].
      * subst day. rewrite E. simpl. now rewrite <- app_assoc.
      * reflexivity.
Qed.

Lemma pushSchedules_total (schedules : list ClassSchedule.t) :
  forall (grouped : list (Z * list ClassSchedule.t)),
    Forall (fun s => mapGet (ClassSchedule.dayOfWeek s) grouped <> None) schedules ->
    exists grouped', pushSchedules grouped schedules = Ok grouped'.
Proof.
  induction schedules as [| s rest IH]; intros grouped Hall.
  - simpl. eauto.
  - inversion Hall as [| x l Hs Hrest]; subst.
    cbn [pushSchedules]. unfold pushSchedule.
    destruct (mapGet (ClassSchedule.dayOfWeek s) grouped) as [l |] eqn:E;
      [| now contradiction Hs].
    cbn [bind]. apply IH.
    eapply Forall_impl; [| exact Hrest]. cbn beta. intros x Hx.
    rewrite mapGet_mapSet.
    destruct (ClassSchedule.dayOfWeek s =? ClassSchedule.dayOfWeek x);
      [discriminate | exact Hx].
Qed.

Lemma weekGroups_key (day : Z) :
  mapGet day [(1, @nil ClassSchedule.t); (2, []); (3, []); (4, []);
              (5, []); (6, []); (7, [])]
  = if (1 <=? day) && (day <=? 7) then Some [] else None.
Proof.
  cbn [mapGet].
  destruct (Z.eqb_spec 1 day); [subst; reflexivity |].
  destruct (Z.eqb_spec 2 day); [subst; reflexivity |].
  destruct (Z.eqb_spec 3 day); [subst; reflexivity |].
  destruct (Z.eqb_spec 4 day); [subst; reflexivity |].
  destruct (Z.eqb_spec 5 day); [subst; reflexivity |].
  destruct (Z.eqb_spec 6 day); [subst; reflexivity |].
  destruct (Z.eqb_spec 7 day); [subst; reflexivity |].
  destruct (Z.leb_spec 1 day); [| reflexivity].
  destruct (Z.leb_spec day 7); [lia | reflexivity].
Qed.

(** X13: [groupSchedulesByDay] returns a grouping exactly when every schedule has
    a day of 1..7, and throws a [TypeError] otherwise. The grouping has the
    seven keys 1..7, and under each day the schedules of that day, in the
    order they came in. *)
Theorem groupSchedulesByDay_groups :
  forall (schedules : list ClassSchedule.t),
    ((exists grouped, groupSchedulesByDay schedules = Ok grouped)
     <-> Forall (fun s => 1 <= ClassSchedule.dayOfWeek s <= 7) schedules)
    /\ (forall e, groupSchedulesByDay schedules = Err e -> e = TypeError)
    /\ (forall grouped,
          groupSchedulesByDay schedules = Ok grouped ->
          map fst grouped = [1; 2; 3; 4; 5; 6; 7]
          /\ forall day,
               1 <= day <= 7 ->
               mapGet day grouped
               = Some (filter (fun s => ClassSchedule.dayOfWeek s =? day) schedules)).
Proof.
  intros schedules. unfold groupSchedulesByDay.
  assert (Hkey : forall day,
            mapGet day [(1, @nil ClassSchedule.t); (2, []); (3, []); (4, []);
                        (5, []); (6, []); (7, [])] <> None
            <-> 1 <= day <= 7).
  { intros day. rewrite weekGroups_key.
    destruct (Z.leb_spec 1 day), (Z.leb_spec day 7); simpl;
      split; try congruence; lia. }
  split; [| split].
  - split.
    + intros [grouped H]. apply pushSchedules_spec in H.
      destruct H as [_ [Hall _]].
      eapply Forall_impl; [| exact Hall]. cbn beta. intros s. apply Hkey.
    + intros Hall. apply pushSchedules_total.
      eapply Forall_impl; [| exact Hall]. cbn beta. intros s. apply Hkey.
  - generalize [(1, @nil ClassSchedule.t); (2, []); (3, []); (4, []);
                (5, []); (6, []); (7, [])].
    induction schedules as [| s rest IH]; intros grouped e H.
    + discriminate.
    + cbn [pushSchedules] in H. unfold pushSchedule in H.
      destruct (mapGet (ClassSchedule.dayOfWeek s) grouped); cbn [bind] in H.
      * eapply IH; exact H.
      * now inversion H.
  - intros grouped H. apply pushSchedules_spec in H.
    destruct H as [Hkeys [_ Hget]]. split; [exact Hkeys |].
    intros day Hday. rewrite Hget, weekGroups_key.
    replace ((1 <=? day) && (day <=? 7)) with true; [reflexivity |].
    symmetry. apply andb_true_iff. split; apply Z.leb_le; lia.
Qed.

Lemma groupSchedulesByDay_groups_witness :
  exists grouped,
    groupSchedulesByDay [mondayEight] = Ok grouped
    /\ mapGet 1 grouped = Some [mondayEight].
Proof.
  destruct (proj2 (proj1 (groupSchedulesByDay_groups [mondayEight])))
    as [grouped H].
  - constructor; [| constructor]. simpl. lia.
  - exists grouped. split; [exact H |].
    rewrite (proj2 (proj2 (proj2 (groupSchedulesByDay_groups [mondayEight]))
                          grouped H) 1 ltac:(lia)).
    reflexivity.
Defined.

(** * Further properties of the schedule service *)

Lemma halfOpenOverlap_sym (s1 e1 s2 e2 : Time) :
  halfOpenOverlap s1 e1 s2 e2 <-> halfOpenOverlap s2 e2 s1 e1.
Proof. unfold halfOpenOverlap. tauto. Qed.

Lemma rivals_sym (a b : ClassSchedule.t) : rivals a b -> rivals b a.
Proof.
  unfold rivals. intros [H1 [H2 [H3 [H4 H5]]]].
  repeat split; try congruence. destruct H5; [left | right]; congruence.
Qed.

Lemma no_conflict_none (schedules : list ClassSchedule.t) (p : Params.t) :
  hasConflict (checkTimeConflict schedules p) = false ->
  forall s, In s schedules -> teacherWhere p s = false /\ classWhere p s = false.
Proof.
  intros H s Hin.
  destruct (teacherWhere p s) eqn:Et.
  - assert (Hc : hasConflict (checkTimeConflict schedules p) = true)
      by (apply hasConflict_iff; eauto).
    congruence.
  - destruct (classWhere p s) eqn:Ec; [| auto].
    assert (Hc : hasConflict (checkTimeConflict schedules p) = true)
      by (apply hasConflict_iff; eauto).
    congruence.
Qed.

(** A stored slot in the scope of the candidate, of its teacher or its
    class, that the check let pass does not overlap the candidate. *)
Lemma no_conflict_disjoint (schedules : list ClassSchedule.t) (p : Params.t)
      (s : ClassSchedule.t) :
  hasConflict (checkTimeConflict schedules p) = false ->
  In s schedules ->
  whereClause p s = true ->
  ClassSchedule.teacherId s = Params.teacherId p
  \/ ClassSchedule.classId s = Params.classId p ->
  Params.startTime p < Params.endTime p ->
  ClassSchedule.startTime s < ClassSchedule.endTime s ->
  ~ halfOpenOverlap (Params.startTime p) (Params.endTime p)
                    (ClassSchedule.startTime s) (ClassSchedule.endTime s).
Proof.
  intros Hno Hin Hw Hside Hp Hs Hov.
  destruct (no_conflict_none _ _ Hno s Hin) as [Ht Hc].
  apply (timeOverlap_half_open _ _ s Hp Hs) in Hov.
  unfold teacherWhere, classWhere in *. rewrite Hw, Hov in *.
  rewrite andb_true_r in *. simpl in *.
  destruct Hside as [E | E]; apply Z.eqb_eq in E; congruence.
Qed.

Lemma createSchedule_Ok (c : Candidate.t) (st st' : Store) (row : ClassSchedule.t) :
  createSchedule c st = Ok (st', row) ->
  createScheduleSchema c = true
  /\ hasConflict (checkTimeConflict (classSchedules st) (paramsOf c)) = false
  /\ (st', row) = insertSchedule c st.
Proof.
  unfold createSchedule. intros H. open_ok H. clean_ok. auto.
Qed.

Lemma nth_error_snoc {A} (l : list A) (x : A) (i : nat) (a : A) :
  nth_error (l ++ [x]) i = Some a ->
  (nth_error l i = Some a /\ (i < List.length l)%nat)
  \/ (i = List.length l /\ a = x).
Proof.
  intros H. destruct (Nat.lt_ge_cases i (List.length l)) as [Hlt | Hge].
  - rewrite nth_error_app1 in H by exact Hlt. auto.
  - rewrite nth_error_app2 in H by exact Hge.
    destruct (i - List.length l)%nat as [| n] eqn:E; simpl in H.
    + inversion H. right. split; [lia | reflexivity].
    + destruct n; discriminate.
Qed.

(** X14: [createSchedule] keeps the table free of conflicts: when no two rival
    slots overlapped before, every stored slot ends after it starts and so
    does the candidate, then after a successful [createSchedule] no two
    rival slots overlap, the new one included. The candidate is appended as
    an active slot. *)
Theorem createSchedule_keeps_conflict_free :
  forall (c : Candidate.t) (st st' : Store) (row : ClassSchedule.t),
    conflictFree (classSchedules st) ->
    properSlots (classSchedules st) ->
    Candidate.startTime c < Candidate.endTime c ->
    createSchedule c st = Ok (st', row) ->
    classSchedules st' = classSchedules st ++ [row]
    /\ ClassSchedule.isActive row = true
    /\ conflictFree (classSchedules st')
    /\ properSlots (classSchedules st').
Proof.
  intros c st st' row Hfree Hproper Hc H.
  apply createSchedule_Ok in H. destruct H as [_ [Hno Hins]].
  unfold insertSchedule in Hins. inversion Hins; subst st' row; clear Hins.
  cbn [classSchedules ClassSchedule.isActive].
  set (row := ClassSchedule.mk _ _ _ _ _ _ _ _ _ _).
  split; [reflexivity |]. split; [reflexivity |]. split.
  - assert (Hnew : forall a, In a (classSchedules st) -> rivals a row ->
                             disjointSlots a row).
    { intros a Hin [Ha [_ [Hd [Hp Hside]]]]. unfold disjointSlots.
      rewrite halfOpenOverlap_sym.
      apply (no_conflict_disjoint _ _ a Hno Hin).
      - unfold whereClause, paramsOf. cbn. rewrite Ha.
        subst row. cbn in Hd, Hp. rewrite Hd, Hp, !Z.eqb_refl. reflexivity.
      - subst row. cbn in Hside. cbn. exact Hside.
      - exact Hc.
      - unfold properSlots in Hproper. rewrite Forall_forall in Hproper. auto. }
    intros i j a b Hij Hi Hj Hr.
    apply nth_error_snoc in Hi, Hj.
    destruct Hi as [[Hi _] | [Hi Ea]], Hj as [[Hj _] | [Hj Eb]].
    + exact (Hfree i j a b Hij Hi Hj Hr).
    + subst b. apply Hnew; [eapply nth_error_In; eauto | exact Hr].
    + subst a. unfold disjointSlots. rewrite halfOpenOverlap_sym.
      apply Hnew; [eapply nth_error_In; eauto | now apply rivals_sym].
    + lia.
  - unfold properSlots in *. apply Forall_app. split; [exact Hproper |].
    constructor; [exact Hc | constructor].
Qed.

Lemma createSchedule_keeps_conflict_free_witness :
  let c := Candidate.mk 1 1 1 1 (hms 9 30 0) (hms 11 0 0) None 1 in
  exists st' row,
    createSchedule c emptySchool = Ok (st', row)
    /\ conflictFree (classSchedules st').
Proof.
  intros c.
  destruct (createSchedule c emptySchool) as [[st' row] | e] eqn:E;
    [| vm_compute in E; discriminate E].
  exists st', row. split; [reflexivity |].
  refine (proj1 (proj2 (proj2 (createSchedule_keeps_conflict_free
                                 c emptySchool st' row _ _ _ E)))).
  - intros i j a b Hij Hi Hj _.
    destruct i as [| [| i]], j as [| [| j]]; simpl in Hi, Hj;
      try discriminate; try lia; destruct i; discriminate.
  - repeat constructor.
  - reflexivity.
Defined.

Lemma updateSchedule_Ok (request : UpdateScheduleRequest.t) (st st' : Store)
      (row : ClassSchedule.t) :
  updateSchedule request st = Ok (st', row) ->
  exists existing,
    updateScheduleSchema request = true
    /\ findSchedule (UpdateScheduleRequest.scheduleId request) st = Some existing
    /\ (touchesPlacement (UpdateScheduleRequest.updates request) = true ->
        hasConflict
          (checkTimeConflict (classSchedules st)
             (updateParams (UpdateScheduleRequest.scheduleId request)
                           (UpdateScheduleRequest.updates request) existing))
        = false)
    /\ updateFirst
         (fun s => ClassSchedule.id s =? UpdateScheduleRequest.scheduleId request)
         (applyUpdates (UpdateScheduleRequest.updates request))
         (classSchedules st)
       = Some (classSchedules st', row)
    /\ st' = withSchedules st (classSchedules st').
Proof.
  unfold updateSchedule. intros H. open_ok H. clean_ok.
  match goal with
  | Hs : findSchedule _ _ = Some ?s |- _ => exists s
  end.
  simpl. repeat split; try assumption.
  intros Ht.
  match goal with
  | Hc : (if touchesPlacement _ then _ else _) = Ok _ |- _ =>
      rewrite Ht in Hc; now apply throwIf_Ok in Hc
  end.
Qed.

(** A table of two slots, one of them switched off, is free of conflicts. *)
Ltac two_rows :=
  let i := fresh "i" in
  let j := fresh "j" in
  let Hi := fresh "Hi" in
  let Hj := fresh "Hj" in
  let Ha := fresh "Ha" in
  let Hb := fresh "Hb" in
  intros i j ? ? ? Hi Hj [Ha [Hb _]];
  destruct i as [| [| i]], j as [| [| j]]; simpl in Hi, Hj;
  try discriminate; try lia;
  try (inversion Hi; inversion Hj; subst; vm_compute in Ha, Hb; discriminate);
  try (destruct i; discriminate);
  try (destruct j; discriminate).




Lemma nth_error_middle {A} (pre post : list A) (y : A) (i : nat) :
  nth_error (pre ++ y :: post) i
  = if (i =? List.length pre)%nat then Some y
    else nth_error (pre ++ post) (if (i <? List.length pre)%nat then i else i - 1).
Proof.
  destruct (Nat.eqb_spec i (List.length pre)) as [E | E].
  - subst. rewrite nth_error_app2 by lia. now rewrite Nat.sub_diag.
  - destruct (Nat.ltb_spec i (List.length pre)) as [Hlt | Hge].
    + now rewrite !nth_error_app1 by exact Hlt.
    + rewrite !nth_error_app2 by lia.
      replace (i - List.length pre)%nat with (S (i - 1 - List.length pre)) by lia.
      reflexivity.
Qed.

Lemma nth_error_middle_other {A} (pre post : list A) (y z : A) (i : nat) :
  i <> List.length pre ->
  nth_error (pre ++ y :: post) i = nth_error (pre ++ z :: post) i.
Proof.
  intros Hi. rewrite !nth_error_middle.
  destruct (Nat.eqb_spec i (List.length pre)); [contradiction | reflexivity].
Qed.

Lemma nth_error_middle_self {A} (pre post : list A) (y : A) :
  nth_error (pre ++ y :: post) (List.length pre) = Some y.
Proof.
  rewrite nth_error_middle. now rewrite Nat.eqb_refl.
Qed.

Lemma NoDup_id_at (schedules : list ClassSchedule.t) (i j : nat)
      (a b : ClassSchedule.t) :
  NoDup (map ClassSchedule.id schedules) ->
  nth_error schedules i = Some a ->
  nth_error schedules j = Some b ->
  ClassSchedule.id a = ClassSchedule.id b ->
  i = j.
Proof.
  intros Hnd Hi Hj E.
  apply (proj1 (NoDup_nth_error (map ClassSchedule.id schedules)) Hnd).
  - rewrite length_map. apply nth_error_Some. congruence.
  - rewrite !nth_error_map, Hi, Hj. simpl. now rewrite E.
Qed.

Lemma orExisting_given (o : option Z) (existing : Z) :
  optional positiveId o = true -> orExisting o existing = given o existing.
Proof.
  destruct o as [x |]; simpl; [| reflexivity].
  unfold positiveId. intros H. apply Z.ltb_lt in H.
  destruct (Z.eqb_spec x 0); [lia | reflexivity].
Qed.

Lemma orExisting_given_day (o : option Z) (existing : Z) :
  optional (fun d => (1 <=? d) && (d <=? 7)) o = true ->
  orExisting o existing = given o existing.
Proof.
  destruct o as [x |]; simpl; [| reflexivity].
  intros H. apply andb_true_iff in H. destruct H as [H _]. apply Z.leb_le in H.
  destruct (Z.eqb_spec x 0); [lia | reflexivity].
Qed.

(** The candidate [updateSchedule] hands to [checkTimeConflict] is the
    slot as the update will leave it. *)
Lemma updateParams_applied (request : UpdateScheduleRequest.t)
      (existing : ClassSchedule.t) :
  updateScheduleSchema request = true ->
  let p := updateParams (UpdateScheduleRequest.scheduleId request)
                        (UpdateScheduleRequest.updates request) existing in
  let row := applyUpdates (UpdateScheduleRequest.updates request) existing in
  Params.teacherId p = ClassSchedule.teacherId row
  /\ Params.classId p = ClassSchedule.classId row
  /\ Params.dayOfWeek p = ClassSchedule.dayOfWeek row
  /\ Params.startTime p = ClassSchedule.startTime row
  /\ Params.endTime p = ClassSchedule.endTime row
  /\ Params.academicPeriodId p = ClassSchedule.academicPeriodId row
  /\ Params.excludeScheduleId p = Some (UpdateScheduleRequest.scheduleId request)
  /\ 0 < UpdateScheduleRequest.scheduleId request.
Proof.
  unfold updateScheduleSchema. cbn zeta. rewrite !andb_true_iff.
  intros [[[[[[[[[Hid Hc] _] Ht] Hd] _] _] _] Hp] _].
  unfold updateParams, applyUpdates. cbn.
  rewrite (orExisting_given _ _ Hc), (orExisting_given _ _ Ht),
    (orExisting_given _ _ Hp), (orExisting_given_day _ _ Hd).
  unfold positiveId in Hid. apply Z.ltb_lt in Hid.
  repeat split; try reflexivity. exact Hid.
Qed.

(** X16: When the update names the day, a time, the teacher or the class,
    [updateSchedule] keeps the table free of conflicts: with distinct
    schedule ids, every stored slot ending after it starts and the updated
    slot doing so too, a successful update leaves no two rival slots
    overlapping. The slot under update is left out of the check, so it
    never conflicts with its own former times. *)
Theorem updateSchedule_keeps_conflict_free :
  forall (request : UpdateScheduleRequest.t) (st st' : Store)
         (row : ClassSchedule.t),
    conflictFree (classSchedules st) ->
    properSlots (classSchedules st) ->
    NoDup (map ClassSchedule.id (classSchedules st)) ->
    touchesPlacement (UpdateScheduleRequest.updates request) = true ->
    updateSchedule request st = Ok (st', row) ->
    ClassSchedule.startTime row < ClassSchedule.endTime row ->
    conflictFree (classSchedules st')
    /\ properSlots (classSchedules st')
    /\ map ClassSchedule.id (classSchedules st')
       = map ClassSchedule.id (classSchedules st).
Proof.
  intros request st st' row Hfree Hproper Hnd Htouch H Hrow.
  apply updateSchedule_Ok in H.
  destruct H as [existing [Hschema [Hfound [Hcheck [Hu _]]]]].
  specialize (Hcheck Htouch).
  pose proof (updateParams_applied request existing Hschema) as Hp.
  cbn zeta in Hp.
  destruct Hp as [Pt [Pc [Pd [Ps [Pe [Pp [Px Hpos]]]]]]].
  assert (Hids : map ClassSchedule.id (classSchedules st')
                 = map ClassSchedule.id (classSchedules st))
    by (eapply updateFirst_map; [| exact Hu]; reflexivity).
  pose proof Hu as Hdec. apply updateFirst_Some in Hdec.
  destruct Hdec as [pre [x [post [E1 [Hpre [Hx [E2 E3]]]]]]].
  assert (x = existing).
  { unfold findSchedule in Hfound. rewrite E1 in Hfound.
    rewrite (find_app_first _ pre post x Hpre Hx) in Hfound. congruence. }
  subst x. apply Z.eqb_eq in Hx.
  set (p := updateParams (UpdateScheduleRequest.scheduleId request)
                         (UpdateScheduleRequest.updates request) existing) in *.
  (* A slot at another place than the updated one is none of its rivals. *)
  assert (Hother : forall i a,
            i <> List.length pre ->
            nth_error (classSchedules st) i = Some a ->
            rivals a row -> disjointSlots a row).
  { intros i a Hi Ha [Hact [_ [Hd [Hper Hside]]]].
    assert (Hida : ClassSchedule.id a <> UpdateScheduleRequest.scheduleId request).
    { intros E. apply Hi.
      apply (NoDup_id_at (classSchedules st) i (List.length pre) a existing Hnd Ha).
      - rewrite E1. apply nth_error_middle_self.
      - congruence. }
    unfold disjointSlots. rewrite halfOpenOverlap_sym.
    rewrite E3 in *. rewrite <- Ps, <- Pe.
    apply (no_conflict_disjoint (classSchedules st) p a Hcheck).
    - eapply nth_error_In; eauto.
    - unfold whereClause. rewrite Pd, Pp, Px, Hd, Hper, !Z.eqb_refl, Hact.
      destruct (Z.eqb_spec (UpdateScheduleRequest.scheduleId request) 0); [lia |].
      apply Z.eqb_neq in Hida. now rewrite Hida.
    - rewrite Pt, Pc. exact Hside.
    - rewrite Ps, Pe. exact Hrow.
    - unfold properSlots in Hproper. rewrite Forall_forall in Hproper.
      apply Hproper. eapply nth_error_In; eauto. }
  split; [| split; [| exact Hids]].
  - rewrite E2. intros i j a b Hij Hi Hj Hr.
    destruct (Nat.eq_dec i (List.length pre)) as [Ei | Ei],
             (Nat.eq_dec j (List.length pre)) as [Ej | Ej].
    + lia.
    + subst i. rewrite nth_error_middle_self in Hi. inversion Hi; subst a.
      rewrite (nth_error_middle_other pre post _ existing j Ej), <- E1 in Hj.
      unfold disjointSlots. rewrite halfOpenOverlap_sym. rewrite <- E3 in *.
      apply (Hother j b Ej Hj). now apply rivals_sym.
    + subst j. rewrite nth_error_middle_self in Hj. inversion Hj; subst b.
      rewrite (nth_error_middle_other pre post _ existing i Ei), <- E1 in Hi.
      rewrite <- E3 in *. exact (Hother i a Ei Hi Hr).
    + rewrite (nth_error_middle_other pre post _ existing i Ei), <- E1 in Hi.
      rewrite (nth_error_middle_other pre post _ existing j Ej), <- E1 in Hj.
      exact (Hfree i j a b Hij Hi Hj Hr).
  - unfold properSlots in *. rewrite E2. rewrite E1 in Hproper.
    apply Forall_app in Hproper. destruct Hproper as [H1 H2].
    apply Forall_cons_iff in H2. destruct H2 as [_ H2].
    apply Forall_app. split; [exact H1 |]. constructor; [| exact H2].
    rewrite <- E3. exact Hrow.
Qed.

Lemma updateSchedule_keeps_conflict_free_witness :
  exists st' row,
    updateSchedule moveLater dormantSchool = Ok (st', row)
    /\ ClassSchedule.isActive row = true
    /\ conflictFree (classSchedules st').
Proof.
  destruct (updateSchedule moveLater dormantSchool) as [[st' row] | e] eqn:E;
    [| vm_compute in E; discriminate E].
  exists st', row. split; [reflexivity |].
  assert (Hrow : row = ClassSchedule.mk 2 2 1 1 1 (hms 9 30 0) (hms 11 0 0) None 1 true).
  { vm_compute in E. inversion E. reflexivity. }
  split; [rewrite Hrow; reflexivity |].
  refine (proj1 (updateSchedule_keeps_conflict_free moveLater dormantSchool st' row
                   _ _ _ eq_refl E _)).
  - two_rows.
  - repeat constructor.
  - simpl. repeat constructor; simpl; intuition discriminate.
  - rewrite Hrow. reflexivity.
Defined.

Lemma deleteSchedule_Ok (request : DeleteScheduleRequest.t) (st st' : Store)
      (res : ScheduleDeleted) :
  deleteSchedule request st = Ok (st', res) ->
  let scheduleId := DeleteScheduleRequest.scheduleId request in
  exists existing,
    findSchedule scheduleId st = Some existing
    /\ ((DeleteScheduleRequest.softDelete request = Some false
         /\ countSessions scheduleId st = 0%nat
         /\ deleted res = true
         /\ classSchedules st'
            = removeFirst (fun s => ClassSchedule.id s =? scheduleId)
                          (classSchedules st))
        \/ (DeleteScheduleRequest.softDelete request <> Some false
            /\ deleted res = false
            /\ exists row,
                 updateFirst (fun s => ClassSchedule.id s =? scheduleId) deactivate
                             (classSchedules st)
                 = Some (classSchedules st', row)))
    /\ st' = withSchedules st (classSchedules st').
Proof.
  unfold deleteSchedule. cbn zeta. intros H. open_ok H.
  match goal with
  | Hs : orThrow (findSchedule _ _) _ = Ok ?s |- _ =>
      apply orThrow_Ok in Hs; exists s; split; [exact Hs |]
  end.
  match goal with
  | Ht : throwIf _ _ = Ok _ |- _ => apply throwIf_Ok in Ht; rename Ht into Hguard
  end.
  destruct (DeleteScheduleRequest.softDelete request) as [[|] |] eqn:Esoft;
    cbn [orb negb] in *.
  - open_ok H. clean_ok. simpl. split; [| reflexivity]. right.
    split; [discriminate |]. split; [reflexivity |]. eauto.
  - rewrite andb_true_r in Hguard. rewrite Hguard in H.
    inversion H; subst. simpl. split; [| reflexivity]. left.
    repeat split; try reflexivity.
    destruct (countSessions _ st); [reflexivity | discriminate].
  - open_ok H. clean_ok. simpl. split; [| reflexivity]. right.
    split; [discriminate |]. split; [reflexivity |]. eauto.
Qed.

Lemma removeFirst_In {A} (where_ : A -> bool) (rows : list A) (a : A) :
  In a (removeFirst where_ rows) -> In a rows.
Proof.
  induction rows as [| r rest IH]; simpl; [tauto |].
  destruct (where_ r); simpl; intuition.
Qed.

Lemma removeFirst_gone (scheduleId : Z) (rows : list ClassSchedule.t)
      (a : ClassSchedule.t) :
  NoDup (map ClassSchedule.id rows) ->
  In a (removeFirst (fun s => ClassSchedule.id s =? scheduleId) rows) ->
  ClassSchedule.id a <> scheduleId.
Proof.
  induction rows as [| r rest IH]; simpl; intros Hnd Hin; [contradiction |].
  inversion Hnd as [| k l Hr Hrest]; subst.
  destruct (Z.eqb_spec (ClassSchedule.id r) scheduleId) as [E | E].
  - intros Ea. apply Hr. rewrite E, <- Ea. now apply in_map.
  - destruct Hin as [Hin | Hin]; [now subst | now apply IH].
Qed.

(** X17: A successful [deleteSchedule] takes the slot out of scheduling: with
    distinct schedule ids, no active row of the deleted id is left, and
    [checkTimeConflict] reports on the new table only conflicts it reported
    before. The row itself is removed only when soft deletion was switched
    off, which succeeds only for a schedule without sessions; by default it
    is kept and deactivated. Sessions and attendance rows are untouched. *)
Theorem deleteSchedule_frees_the_slot :
  forall (request : DeleteScheduleRequest.t) (st st' : Store)
         (res : ScheduleDeleted),
    NoDup (map ClassSchedule.id (classSchedules st)) ->
    deleteSchedule request st = Ok (st', res) ->
    (forall s, In s (classSchedules st') ->
               ClassSchedule.id s = DeleteScheduleRequest.scheduleId request ->
               ClassSchedule.isActive s = false)
    /\ (forall p, hasConflict (checkTimeConflict (classSchedules st') p) = true ->
                  hasConflict (checkTimeConflict (classSchedules st) p) = true)
    /\ (deleted res = true <-> DeleteScheduleRequest.softDelete request = Some false)
    /\ (deleted res = true ->
        countSessions (DeleteScheduleRequest.scheduleId request) st = 0%nat
        /\ forall s, In s (classSchedules st') ->
                     ClassSchedule.id s <> DeleteScheduleRequest.scheduleId request)
    /\ (deleted res = false ->
        map ClassSchedule.id (classSchedules st')
        = map ClassSchedule.id (classSchedules st))
    /\ attendanceSessions st' = attendanceSessions st
    /\ attendances st' = attendances st.
Proof.
  intros request st st' res Hnd H.
  apply deleteSchedule_Ok in H. cbn zeta in H.
  destruct H as [existing [Hfound [Hcase Hst]]].
  assert (Hframe : attendanceSessions st' = attendanceSessions st
                   /\ attendances st' = attendances st)
    by (rewrite Hst; split; reflexivity).
  destruct Hcase as [[Hsoft [Hcount [Hdel Hrows]]] | [Hsoft [Hdel [row Hu]]]].
  - assert (Hgone : forall s, In s (classSchedules st') ->
                              ClassSchedule.id s
                              <> DeleteScheduleRequest.scheduleId request).
    { intros s Hin. rewrite Hrows in Hin. eapply removeFirst_gone; eauto. }
    split; [| split; [| split; [| split; [| split]]]].
    + intros s Hin Hid. now apply Hgone in Hin.
    + intros p Hp. apply hasConflict_iff in Hp. destruct Hp as [s [Hin Hw]].
      apply hasConflict_iff. exists s. split; [| exact Hw].
      rewrite Hrows in Hin. eapply removeFirst_In; eauto.
    + tauto.
    + intros _. auto.
    + congruence.
    + exact Hframe.
  - pose proof Hu as Hdec. apply updateFirst_Some in Hdec.
    destruct Hdec as [pre [x [post [E1 [Hpre [Hx [E2 _]]]]]]].
    apply Z.eqb_eq in Hx.
    split; [| split; [| split; [| split; [| split]]]].
    + intros s Hin Hid. rewrite E2 in Hin.
      apply in_app_or in Hin. destruct Hin as [Hin | [Hin | Hin]].
      * specialize (Hpre s Hin). apply Z.eqb_neq in Hpre. contradiction.
      * subst s. reflexivity.
      * exfalso. rewrite E1, map_app in Hnd. cbn [map] in Hnd.
        apply NoDup_remove_2 in Hnd. apply Hnd.
        apply in_or_app. right. rewrite Hx, <- Hid. now apply in_map.
    + intros p Hp. apply hasConflict_iff in Hp. destruct Hp as [s [Hin Hw]].
      apply hasConflict_iff. exists s. split; [| exact Hw].
      assert (Hactive : ClassSchedule.isActive s = true).
      { unfold teacherWhere, classWhere, whereClause in Hw.
        rewrite !andb_true_iff in Hw. tauto. }
      rewrite E2 in Hin. rewrite E1.
      apply in_app_or in Hin. apply in_or_app.
      destruct Hin as [Hin | [Hin | Hin]]; [now left | | right; now right].
      subst s. discriminate.
    + split; [congruence |]. intros E. contradiction.
    + congruence.
    + intros _. eapply updateFirst_map; [| exact Hu]. reflexivity.
    + exact Hframe.
Qed.

Lemma deleteSchedule_frees_the_slot_witness :
  exists st' res,
    deleteSchedule (DeleteScheduleRequest.mk 1 None) openSchool = Ok (st', res)
    /\ deleted res = false
    /\ hasConflict
         (checkTimeConflict (classSchedules st')
            (Params.mk 1 1 1 (hms 8 0 0) (hms 9 0 0) 1 None)) = false.
Proof.
  destruct (deleteSchedule (DeleteScheduleRequest.mk 1 None) openSchool)
    as [[st' res] | e] eqn:E; [| vm_compute in E; discriminate E].
  exists st', res. split; [reflexivity |].
  assert (Hnd : NoDup (map ClassSchedule.id (classSchedules openSchool)))
    by (simpl; repeat constructor; simpl; tauto).
  destruct (deleteSchedule_frees_the_slot _ _ _ _ Hnd E)
    as [Hinactive [_ [Hdel _]]].
  split.
  - destruct (deleted res); [| reflexivity].
    pose proof (proj1 Hdel eq_refl) as H. discriminate H.
  - destruct (hasConflict _) eqn:Ec; [| reflexivity].
    apply hasConflict_iff in Ec. destruct Ec as [s [Hin Hw]].
    assert (Hs : ClassSchedule.id s = 1).
    { clear - Hin E. vm_compute in E. inversion E; subst. simpl in Hin.
      destruct Hin as [Hin | []]. subst s. reflexivity. }
    specialize (Hinactive s Hin Hs).
    unfold teacherWhere, classWhere, whereClause in Hw.
    rewrite Hinactive in Hw. rewrite !andb_false_r in Hw. simpl in Hw.
    destruct Hw; discriminate.
Defined.

(** * Further properties of the stored tables *)

(** ** What a request writes *)

Lemma markAll_Forall_valid (P : Attendance.t -> Prop) (now sessionId profileId : Z)
      (updates : list AttendanceUpdate.t) :
  (forall att a, In att updates ->
                 P (markData now profileId (AttendanceUpdate.status att)
                             (AttendanceUpdate.notes att) a)) ->
  forall rows rows' results,
    Forall P rows ->
    markAll now sessionId profileId updates rows = Ok (rows', results) ->
    Forall P rows'.
Proof.
  induction updates as [| att rest IH]; intros Hd rows rows' results Hrows H.
  - simpl in H. inversion H; subst. exact Hrows.
  - apply markAll_cons in H. destruct H as [rows1 [one [others [H1 [H2 _]]]]].
    eapply IH; [| | exact H2].
    + intros att' a Hin. apply Hd. now right.
    + eapply updateFirst_Forall; [| exact Hrows | exact H1].
      intros r. apply Hd. now left.
Qed.

Lemma markAttendanceSchema_valid (request : MarkAttendanceRequest.t)
      (att : AttendanceUpdate.t) :
  markAttendanceSchema request = true ->
  In att (MarkAttendanceRequest.attendances request) ->
  validAttendanceStatus (AttendanceUpdate.status att) = true.
Proof.
  unfold markAttendanceSchema. rewrite !andb_true_iff.
  intros [[[_ Hall] _] _] Hin. rewrite forallb_forall in Hall.
  specialize (Hall att Hin). unfold attendanceUpdateSchema in Hall.
  rewrite !andb_true_iff in Hall. tauto.
Qed.

Lemma exec_writes (utcOffset : Z) (c : Call) (st st' : Store) :
  exec utcOffset c st = Ok st' ->
  classSchedules st' = classSchedules st
  /\ students st' = students st
  /\ nextClassScheduleId st' = nextClassScheduleId st
  /\ Written st st'.
Proof.
  unfold exec. intros H.
  assert (Hstatus :
            forall now request st1 res,
              updateSessionStatus now request st = Ok (st1, res) ->
              classSchedules st1 = classSchedules st
              /\ students st1 = students st
              /\ nextClassScheduleId st1 = nextClassScheduleId st
              /\ Written st st1).
  { intros now request st1 res Hx.
    apply updateSessionStatus_Ok in Hx.
    destruct Hx as [found [Hschema [_ [_ [_ [_ [Hu Hst]]]]]]].
    unfold updateSessionStatusSchema in Hschema.
    rewrite !andb_true_iff in Hschema. destruct Hschema as [[_ Hvalid] _].
    rewrite Hst at 1 2 3. repeat split; try reflexivity.
    eapply StatusWritten; [exact Hvalid | exact Hu | | |];
      rewrite Hst; reflexivity. }
  destruct (op c) as [r | r | r | r | r | r | r];
    open_ok H;
    match goal with
    | Hx : _ = Ok ?x |- _ =>
        match type of x with
        | (_ * _)%type => destruct x as [st1 res]; cbn [fst] in *
        end
    end;
    injection H as <-.
  - apply createSession_Ok in Hx.
    destruct Hx as [schedule [Hs [Hnone [Hsess [Hrows [_ Hst]]]]]].
    pose proof (find_some _ _ Hs) as [Hin Hw].
    rewrite !andb_true_iff, Z.eqb_eq in Hw. destruct Hw as [[Hid _] _].
    rewrite Hst at 1 2 3. repeat split; try reflexivity.
    eapply (SessionAdded st st1 r (instant c) schedule (session res)
              (createdAttendances res));
      try (rewrite Hst; reflexivity); try assumption.
    intros s Hs' E. rewrite find_none_iff in Hnone. specialize (Hnone s Hs').
    unfold occasion in E. inversion E as [[E1 E2]].
    rewrite E1, E2, !Z.eqb_refl in Hnone. discriminate.
  - eapply Hstatus; exact Hx.
  - apply endSession_Ok in Hx. eapply Hstatus; exact Hx.
  - apply cancelSession_Ok in Hx. eapply Hstatus; exact Hx.
  - apply markAttendance_Ok in Hx.
    destruct Hx as [found [results [Hschema [_ [_ [_ [_ [Hm [_ Hst]]]]]]]]].
    rewrite Hst at 1 2 3. repeat split; try reflexivity.
    apply RowsWritten; try (rewrite Hst; reflexivity).
    + eapply markAll_map; [| exact Hm]. reflexivity.
    + intros P Hmark _ Hall.
      eapply markAll_Forall_valid; [| exact Hall | exact Hm].
      intros att a Hin. apply Hmark.
      eapply markAttendanceSchema_valid; eauto.
  - apply markSingleAttendance_Ok in Hx.
    destruct Hx as [a [s [Hschema [_ [_ [_ [_ [_ [Hu Hst]]]]]]]]].
    rewrite Hst at 1 2 3. repeat split; try reflexivity.
    apply RowsWritten; try (rewrite Hst; reflexivity).
    + eapply updateFirst_map; [| exact Hu]. reflexivity.
    + intros P Hmark _ Hall.
      eapply updateFirst_Forall; [| exact Hall | exact Hu].
      intros x. apply Hmark.
      unfold markSingleAttendanceSchema in Hschema.
      rewrite !andb_true_iff in Hschema. tauto.
  - apply studentCheckIn_Ok in Hx.
    destruct Hx as [found [a [s [_ [_ [_ [_ [_ [_ [Hu Hst]]]]]]]]]].
    rewrite Hst at 1 2 3. repeat split; try reflexivity.
    apply RowsWritten; try (rewrite Hst; reflexivity).
    + eapply updateFirst_map; [| exact Hu]. reflexivity.
    + intros P _ Hcheck Hall.
      eapply updateFirst_Forall; [| exact Hall | exact Hu].
      intros x. apply Hcheck. apply determineAttendanceStatus_values.
Qed.

Lemma createAll_writes (schedules : list Candidate.t) (st : Store) :
  let st' := fst (createAll schedules st) in
  classSchedules st' = classSchedules st ++ snd (createAll schedules st)
  /\ students st' = students st
  /\ attendanceSessions st' = attendanceSessions st
  /\ attendances st' = attendances st
  /\ nextAttendanceSessionId st' = nextAttendanceSessionId st
  /\ nextAttendanceId st' = nextAttendanceId st.
Proof.
  revert st. induction schedules as [| c rest IH]; intros st; cbn zeta.
  - simpl. rewrite app_nil_r. repeat split.
  - cbn [createAll].
    destruct (insertSchedule c st) as [st1 row] eqn:Ei.
    specialize (IH st1). cbn zeta in IH.
    destruct (createAll rest st1) as [st2 rows].
    cbn [fst snd] in *.
    unfold insertSchedule in Ei. inversion Ei as [[E1 E2]].
    rewrite <- E1 in IH. cbn in IH.
    destruct IH as [H1 [H2 [H3 [H4 [H5 H6]]]]].
    rewrite H1, <- app_assoc. repeat split; assumption.
Qed.

(** A request of the administrator writes the schedules only. *)
Lemma admin_writes (utcOffset : Z) (r : Request) (st st' : Store) :
  (forall c, r <> Teaching c) ->
  perform utcOffset r st = Ok st' ->
  attendanceSessions st' = attendanceSessions st
  /\ attendances st' = attendances st
  /\ nextAttendanceSessionId st' = nextAttendanceSessionId st
  /\ nextAttendanceId st' = nextAttendanceId st
  /\ students st' = students st.
Proof.
  intros Hadmin H. destruct r as [c | c | l | u | d]; cbn [perform] in H.
  - now contradiction (Hadmin c).
  - open_ok H. destruct x as [st1 row]. injection H as <-.
    apply createSchedule_Ok in Hx. destruct Hx as [_ [_ Hins]].
    unfold insertSchedule in Hins. inversion Hins; subst. repeat split.
  - open_ok H. destruct x as [st1 res]. injection H as <-.
    unfold bulkCreateSchedules in Hx. open_ok Hx.
    pose proof (createAll_writes l st) as Hw. cbn zeta in Hw.
    destruct (createAll l st) as [st2 created]. inversion Hx; subst.
    cbn [fst] in *. tauto.
  - open_ok H. destruct x as [st1 row]. injection H as <-.
    apply updateSchedule_Ok in Hx.
    destruct Hx as [existing [_ [_ [_ [_ Hst]]]]]. rewrite Hst. repeat split.
  - open_ok H. destruct x as [st1 res]. injection H as <-.
    apply deleteSchedule_Ok in Hx. cbn zeta in Hx.
    destruct Hx as [existing [_ [_ Hst]]]. rewrite Hst. repeat split.
Qed.

Lemma find_by_id_found (schedules : list ClassSchedule.t) (k : Z)
      (s : ClassSchedule.t) :
  In s schedules -> ClassSchedule.id s = k ->
  find (fun x => ClassSchedule.id x =? k) schedules <> None.
Proof.
  intros Hin Hid Hnone. rewrite find_none_iff in Hnone.
  specialize (Hnone s Hin). apply Z.eqb_neq in Hnone. contradiction.
Qed.

Lemma find_found_in {A} (f : A -> bool) (l : list A) :
  find f l <> None <-> exists x, In x l /\ f x = true.
Proof.
  split.
  - destruct (find f l) as [x |] eqn:E; [| intros H; now contradiction H].
    intros _. apply find_some in E. eauto.
  - intros [x [Hin Hx]] Hnone. rewrite find_none_iff in Hnone.
    rewrite (Hnone x Hin) in Hx. discriminate.
Qed.

(** A request of the administrator keeps every schedule that has
    sessions. *)
Lemma admin_keeps_used_schedules (utcOffset : Z) (r : Request) (st st' : Store)
      (k : Z) :
  (forall c, r <> Teaching c) ->
  perform utcOffset r st = Ok st' ->
  findSchedule k st <> None ->
  countSessions k st <> 0%nat ->
  findSchedule k st' <> None.
Proof.
  intros Hadmin H Hfound Hused. unfold findSchedule in *.
  apply find_found_in in Hfound. destruct Hfound as [s [Hin Hs]].
  apply Z.eqb_eq in Hs.
  destruct r as [c | c | l | u | d]; cbn [perform] in H.
  - now contradiction (Hadmin c).
  - open_ok H. destruct x as [st1 row]. injection H as <-.
    apply createSchedule_Ok in Hx. destruct Hx as [_ [_ Hins]].
    unfold insertSchedule in Hins. inversion Hins; subst. simpl.
    apply find_by_id_found with s; [apply in_or_app; now left | reflexivity].
  - open_ok H. destruct x as [st1 res]. injection H as <-.
    unfold bulkCreateSchedules in Hx. open_ok Hx.
    pose proof (createAll_writes l st) as Hw. cbn zeta in Hw.
    destruct (createAll l st) as [st2 created]. inversion Hx; subst.
    cbn [fst snd] in *. destruct Hw as [Hw _]. rewrite Hw.
    apply find_by_id_found with s; [apply in_or_app; now left | reflexivity].
  - open_ok H. destruct x as [st1 row]. injection H as <-.
    apply updateSchedule_Ok in Hx.
    destruct Hx as [existing [_ [_ [_ [Hu _]]]]].
    intros Hnone.
    apply (find_keyed_none ClassSchedule.id (fun i => i =? k) _ (classSchedules st))
      in Hnone.
    + rewrite find_none_iff in Hnone. specialize (Hnone s Hin).
      apply Z.eqb_neq in Hnone. contradiction.
    + eapply updateFirst_map; [| exact Hu]. reflexivity.
  - open_ok H. destruct x as [st1 res]. injection H as <-.
    apply deleteSchedule_Ok in Hx. cbn zeta in Hx.
    destruct Hx as [existing [_ [[[_ [Hcount [_ Hrows]]] | [_ [_ [row Hu]]]] _]]].
    + assert (Hk : DeleteScheduleRequest.scheduleId d <> k) by congruence.
      rewrite Hrows. clear - Hin Hs Hk.
      induction (classSchedules st) as [| x rest IH]; [contradiction |].
      cbn [removeFirst].
      destruct (Z.eqb_spec (ClassSchedule.id x) (DeleteScheduleRequest.scheduleId d))
        as [E | E].
      * destruct Hin as [Hin | Hin]; [subst x; congruence |].
        now apply find_by_id_found with s.
      * destruct Hin as [Hin | Hin].
        -- subst x. cbn [find]. rewrite Hs, Z.eqb_refl. discriminate.
        -- cbn [find]. destruct (ClassSchedule.id x =? k); [discriminate |].
           now apply IH.
    + intros Hnone.
      apply (find_keyed_none ClassSchedule.id (fun i => i =? k) _ (classSchedules st))
        in Hnone.
      * rewrite find_none_iff in Hnone. specialize (Hnone s Hin).
        apply Z.eqb_neq in Hnone. contradiction.
      * eapply updateFirst_map; [| exact Hu]. reflexivity.
Qed.

(** ** Invariants of the tables *)

Lemma afterAll_invariant (utcOffset : Z) (I : Store -> Prop) :
  (forall r st st', I st -> perform utcOffset r st = Ok st' -> I st') ->
  forall requests st, I st -> I (afterAll utcOffset st requests).
Proof.
  intros Hstep requests. unfold afterAll.
  induction requests as [| r rest IH]; intros st HI; [exact HI |].
  cbn [fold_left]. apply IH. unfold after.
  destruct (perform utcOffset r st) as [st' | e] eqn:E; [| exact HI].
  eapply Hstep; eauto.
Qed.

Lemma perform_cases (utcOffset : Z) (r : Request) (st st' : Store) :
  perform utcOffset r st = Ok st' ->
  (classSchedules st' = classSchedules st /\ students st' = students st
   /\ Written st st')
  \/ ((forall c, r <> Teaching c)
      /\ attendanceSessions st' = attendanceSessions st
      /\ attendances st' = attendances st
      /\ nextAttendanceSessionId st' = nextAttendanceSessionId st
      /\ nextAttendanceId st' = nextAttendanceId st
      /\ students st' = students st).
Proof.
  intros H. destruct r as [c | c | l | u | d].
  - left. apply exec_writes in H. tauto.
  - right. split; [intros ?; discriminate |].
    eapply admin_writes; [| exact H]; intros ?; discriminate.
  - right. split; [intros ?; discriminate |].
    eapply admin_writes; [| exact H]; intros ?; discriminate.
  - right. split; [intros ?; discriminate |].
    eapply admin_writes; [| exact H]; intros ?; discriminate.
  - right. split; [intros ?; discriminate |].
    eapply admin_writes; [| exact H]; intros ?; discriminate.
Qed.

Lemma find_keyed_found {A K} (key : A -> K) (w : K -> bool) (l l' : list A) :
  map key l' = map key l ->
  find (fun x => w (key x)) l <> None ->
  find (fun x => w (key x)) l' <> None.
Proof.
  intros Hmap Hfound Hnone. apply Hfound.
  eapply find_keyed_none; [| exact Hnone]. exact Hmap.
Qed.

Lemma map_rowKey_session (rows rows' : list Attendance.t) :
  map rowKey rows' = map rowKey rows ->
  map Attendance.attendanceSessionId rows' = map Attendance.attendanceSessionId rows.
Proof.
  intros H.
  assert (E : forall l, map Attendance.attendanceSessionId l
                        = map (fun k => snd (fst k)) (map rowKey l)).
  { intros l. rewrite map_map. reflexivity. }
  rewrite !E, H. reflexivity.
Qed.

Lemma linked_perform (utcOffset : Z) (r : Request) (st st' : Store) :
  linked st -> perform utcOffset r st = Ok st' -> linked st'.
Proof.
  intros [Hrows Hsessions] H. pose proof H as Hp.
  apply perform_cases in H.
  destruct H as [[Hsched [_ Hw]] | [Hadmin [Hs [Ha _]]]].
  - unfold linked, findSession, findSchedule in *. rewrite Hsched.
    destruct Hw as [request now schedule created rows Hin Hid _ Hc Hr Hs Ha _ _
                   | sessionId now status res _ Hu Ha _ _
                   | Hs _ _ Hmap _].
    + rewrite Hs, Ha. split.
      * apply Forall_app. split.
        -- eapply Forall_impl; [| exact Hrows]. cbn beta. intros a Hfound.
           apply find_found_in in Hfound. destruct Hfound as [s [Hins Hsid]].
           apply find_found_in. exists s. split; [apply in_or_app; now left | exact Hsid].
        -- rewrite Forall_forall. intros a Hina.
           pose proof (createAttendances_spec (nextAttendanceSessionId st)
                         (nextAttendanceId st)
                         (studentsOfClass (ClassSchedule.classId schedule) st))
             as Hspec.
           rewrite <- Hr in Hspec.
           apply find_found_in. exists created.
           split; [apply in_or_app; right; now left |].
           rewrite Hc. cbn. apply Z.eqb_eq. symmetry.
           destruct Hspec as [_ [_ Hall]]. rewrite Forall_forall in Hall.
           apply (Hall a Hina).
      * apply Forall_app. split; [exact Hsessions |].
        constructor; [| constructor]. rewrite Hc. cbn.
        apply find_by_id_found with schedule; assumption.
    + rewrite Ha. split.
      * eapply Forall_impl; [| exact Hrows]. cbn beta. intros a.
        apply (find_keyed_found AttendanceSession.id
                 (fun i => i =? Attendance.attendanceSessionId a)).
        eapply updateFirst_map; [| exact Hu]. reflexivity.
      * eapply (Forall_map_eq AttendanceSession.classScheduleId
                  (fun k => find (fun s => ClassSchedule.id s =? k) (classSchedules st)
                            <> None)); [| exact Hsessions].
        eapply updateFirst_map; [| exact Hu]. reflexivity.
    + rewrite Hs. split; [| exact Hsessions].
      eapply (Forall_map_eq Attendance.attendanceSessionId
                (fun k => find (fun s => AttendanceSession.id s =? k)
                               (attendanceSessions st) <> None));
        [| exact Hrows].
      now apply map_rowKey_session.
  - unfold linked. split.
    + unfold findSession. rewrite Hs, Ha. exact Hrows.
    + rewrite Hs. rewrite Forall_forall in *. intros s Hin.
      eapply admin_keeps_used_schedules; [exact Hadmin | exact Hp | now apply Hsessions |].
      unfold countSessions. intros Hzero. apply length_zero_iff_nil in Hzero.
      assert (Hf : In s (filter (fun x => AttendanceSession.classScheduleId x
                                          =? AttendanceSession.classScheduleId s)
                                (attendanceSessions st))).
      { apply filter_In. split; [exact Hin | apply Z.eqb_refl]. }
      rewrite Hzero in Hf. contradiction.
Qed.

Lemma markSingleAttendance_relation (now : Z) (request : MarkSingleAttendanceRequest.t)
      (st : Store) :
  linked st -> markSingleAttendance now request st <> Err TypeError.
Proof.
  intros [Hrows _]. unfold markSingleAttendance, validate, validationError, throwIf.
  destruct (negb (markSingleAttendanceSchema request)); cbn [bind]; [discriminate |].
  destruct (findAttendance _ st) as [a |] eqn:Ea; cbn [orThrow bind]; [| discriminate].
  apply find_some in Ea. destruct Ea as [Hin _].
  rewrite Forall_forall in Hrows. specialize (Hrows a Hin).
  destruct (findSession (Attendance.attendanceSessionId a) st) as [s |];
    [| now contradiction Hrows].
  cbn [orThrow bind].
  destruct (negb _); cbn [bind]; [discriminate |].
  unfold validateSessionActive, throwIf.
  destruct (String.eqb (AttendanceSession.status s) "completed");
    cbn [bind]; [discriminate |].
  destruct (String.eqb (AttendanceSession.status s) "cancelled");
    cbn [bind]; [discriminate |].
  unfold prismaUpdate. destruct (updateFirst _ _ _); cbn [orThrow bind]; discriminate.
Qed.

Lemma studentCheckIn_relation (utcOffset now : Z) (request : StudentCheckInRequest.t)
      (st : Store) :
  linked st -> studentCheckIn utcOffset now request st <> Err TypeError.
Proof.
  intros [_ Hsessions]. unfold studentCheckIn, validate, validationError, throwIf.
  destruct (negb (studentCheckInSchema request)); cbn [bind]; [discriminate |].
  destruct (findSession _ st) as [s |] eqn:Es; cbn [orThrow bind]; [| discriminate].
  apply find_some in Es. destruct Es as [Hin _].
  rewrite Forall_forall in Hsessions. specialize (Hsessions s Hin).
  destruct (negb (String.eqb (AttendanceSession.status s) "ongoing"));
    cbn [bind]; [discriminate |].
  destruct (findAttendanceOf _ _ st) as [a |]; cbn [orThrow bind]; [| discriminate].
  destruct (negb (String.eqb (Attendance.status a) "absent"));
    cbn [bind]; [discriminate |].
  destruct (findSchedule (AttendanceSession.classScheduleId s) st) as [c |];
    [| now contradiction Hsessions].
  cbn [orThrow bind].
  unfold prismaUpdate. destruct (updateFirst _ _ _); cbn [orThrow bind]; discriminate.
Qed.

(** X18: Referential integrity. When every attendance row belongs to a
    stored session and every session to a stored schedule, this is still so
    after any sequence of requests of teachers, students and the
    administrator, failed ones included: the services never leave a row
    without its session or a session without its schedule (a schedule that
    has sessions is deactivated, not deleted). So the relations that
    [markSingleAttendance] and [studentCheckIn] read through
    ([attendance.attendanceSession], [session.classSchedule]) are never
    missing. *)
Theorem relations_never_dangle (utcOffset : Z) (st : Store) (requests : list Request) :
  linked st ->
  let st' := afterAll utcOffset st requests in
  linked st'
  /\ (forall now request, markSingleAttendance now request st' <> Err TypeError)
  /\ (forall now request, studentCheckIn utcOffset now request st' <> Err TypeError).
Proof.
  intros Hlinked st'.
  assert (H : linked st').
  { apply afterAll_invariant; [| exact Hlinked].
    intros r s s' Hs Hp. eapply linked_perform; eauto. }
  split; [exact H |]. split; intros now request.
  - now apply markSingleAttendance_relation.
  - now apply studentCheckIn_relation.
Qed.

Lemma relations_never_dangle_witness :
  linked openSchool /\ linked (afterAll 0 openSchool schoolMorning).
Proof.
  assert (H : linked openSchool).
  { split; repeat (constructor; [vm_compute; discriminate |]); constructor. }
  split; [exact H |].
  apply (relations_never_dangle 0 openSchool schoolMorning H).
Defined.

Lemma occasions_perform (utcOffset : Z) (r : Request) (st st' : Store) :
  perform utcOffset r st = Ok st' ->
  (oneSessionPerOccasion st -> oneSessionPerOccasion st')
  /\ incl (map occasion (attendanceSessions st))
          (map occasion (attendanceSessions st')).
Proof.
  intros H. apply perform_cases in H. unfold oneSessionPerOccasion.
  destruct H as [[_ [_ Hw]] | [_ [Hs _]]].
  - destruct Hw as [request now schedule created rows _ _ Hnew Hc _ Hs _ _ _
                   | sessionId now status res _ Hu _ _ _
                   | Hs _ _ _ _].
    + rewrite Hs, map_app. split.
      * intros Hnd. apply NoDup_app; [exact Hnd | |].
        -- constructor; [intros [] | constructor].
        -- intros o Hin [Ho | []]. apply in_map_iff in Hin.
           destruct Hin as [s [Es Hin]]. apply (Hnew s Hin).
           rewrite Es, <- Ho, Hc. reflexivity.
      * apply incl_appl, incl_refl.
    + assert (E : map occasion (attendanceSessions st')
                  = map occasion (attendanceSessions st)).
      { eapply updateFirst_map; [| exact Hu]. reflexivity. }
      rewrite E. split; [tauto | apply incl_refl].
    + rewrite Hs. split; [tauto | apply incl_refl].
  - rewrite Hs. split; [tauto | apply incl_refl].
Qed.

(** X19: One session per slot and date. When no two stored sessions are of the
    same class schedule on the same date, this is still so after any
    sequence of requests: [createSession] is the only service that adds a
    session, and it looks for one of that slot and date first. *)
Theorem sessions_stay_one_per_occasion (utcOffset : Z) (st : Store)
        (requests : list Request) :
  oneSessionPerOccasion st ->
  oneSessionPerOccasion (afterAll utcOffset st requests).
Proof.
  apply (afterAll_invariant utcOffset oneSessionPerOccasion).
  intros r s s' Hs Hp. now apply (occasions_perform utcOffset r s s' Hp).
Qed.

Lemma sessions_stay_one_per_occasion_witness :
  oneSessionPerOccasion openSchool
  /\ oneSessionPerOccasion (afterAll 0 openSchool schoolMorning).
Proof.
  assert (H : oneSessionPerOccasion openSchool).
  { unfold oneSessionPerOccasion. vm_compute.
    constructor; [intros [] | constructor]. }
  split; [exact H |].
  apply (sessions_stay_one_per_occasion 0 openSchool schoolMorning H).
Defined.

(** X20: A session is created once. After [createSession] has succeeded for a
    class schedule and a date, every later [createSession] for that schedule
    and date fails, whoever calls it and whatever requests were served in
    between: no service deletes a session or moves it to another date. *)
Theorem createSession_never_twice (utcOffset now : Z) (request : CreateSessionRequest.t)
        (st st1 : Store) (res : SessionCreated) (requests : list Request)
        (now' : Z) (again : CreateSessionRequest.t) :
  createSession now request st = Ok (st1, res) ->
  CreateSessionRequest.classScheduleId again
  = CreateSessionRequest.classScheduleId request ->
  CreateSessionRequest.date again = CreateSessionRequest.date request ->
  exists e, createSession now' again (afterAll utcOffset st1 requests) = Err e.
Proof.
  intros Hcreate Eid Edate.
  set (o := (CreateSessionRequest.classScheduleId request,
             CreateSessionRequest.date request)).
  assert (Hin : In o (map occasion (attendanceSessions st1))).
  { apply createSession_Ok in Hcreate.
    destruct Hcreate as [schedule [_ [_ [Hsess [_ [_ Hst]]]]]].
    rewrite Hst. cbn. rewrite map_app. apply in_or_app. right. left.
    rewrite Hsess. reflexivity. }
  assert (Hlater : In o (map occasion
                           (attendanceSessions (afterAll utcOffset st1 requests)))).
  { apply (afterAll_invariant utcOffset
             (fun s => In o (map occasion (attendanceSessions s))));
      [| exact Hin].
    intros r s s' Hs Hp. now apply (occasions_perform utcOffset r s s' Hp). }
  destruct (createSession now' again (afterAll utcOffset st1 requests))
    as [[st2 res2] | e] eqn:E; [| now exists e].
  exfalso. apply createSession_Ok in E.
  destruct E as [schedule [_ [Hnone _]]]. rewrite find_none_iff in Hnone.
  apply in_map_iff in Hlater. destruct Hlater as [s [Es Hs]].
  specialize (Hnone s Hs). unfold occasion, o in Es. inversion Es as [[E1 E2]].
  rewrite E1, E2, Eid, Edate, !Z.eqb_refl in Hnone. discriminate.
Qed.

Lemma createSession_never_twice_witness :
  exists e,
    createSession (eightOClock + minutes 120)
                  (CreateSessionRequest.mk 1 monday (Some "again") 1)
                  (afterAll 0 openSchool schoolMorning)
    = Err e.
Proof.
  apply (createSession_never_twice 0 (eightOClock - minutes 5)
           (CreateSessionRequest.mk 1 monday None 1) emptySchool openSchool
           (mkSessionCreated
              (AttendanceSession.mk 1 1 monday "ongoing" (eightOClock - minutes 5)
                                    None None 1)
              3 (createAttendances 1 1 (studentsOfClass 1 emptySchool)))).
  - vm_compute. reflexivity.
  - reflexivity.
  - reflexivity.
Defined.

Lemma statusData_ok (now : Z) (status : string) (s : AttendanceSession.t) :
  validSessionStatus status = true ->
  validSessionStatus (AttendanceSession.status (statusData now status s)) = true
  /\ (AttendanceSession.endedAt (statusData now status s) = None
      <-> AttendanceSession.status (statusData now status s) = "ongoing").
Proof.
  intros Hvalid. cbn. split; [exact Hvalid |].
  unfold validSessionStatus in Hvalid. unfold isTerminal.
  rewrite !orb_true_iff, !String.eqb_eq in Hvalid.
  destruct Hvalid as [[E | E] | E]; rewrite E; cbn; split;
    intros; try reflexivity; discriminate.
Qed.

Lemma statusesOk_perform (utcOffset : Z) (r : Request) (st st' : Store) :
  statusesOk st -> perform utcOffset r st = Ok st' -> statusesOk st'.
Proof.
  intros [Hsessions Hrows] H. apply perform_cases in H. unfold statusesOk.
  destruct H as [[_ [_ Hw]] | [_ [Hs [Ha _]]]].
  - destruct Hw as [request now schedule created rows _ _ _ Hc Hr Hs Ha _ _
                   | sessionId now status res Hvalid Hu Ha _ _
                   | Hs _ _ _ Hall].
    + rewrite Hs, Ha. split.
      * apply Forall_app. split; [exact Hsessions |].
        constructor; [| constructor]. rewrite Hc. cbn. split; [reflexivity |].
        split; reflexivity.
      * apply Forall_app. split; [exact Hrows |].
        pose proof (createAttendances_spec (nextAttendanceSessionId st)
                      (nextAttendanceId st)
                      (studentsOfClass (ClassSchedule.classId schedule) st))
          as [_ [_ Hspec]].
        rewrite <- Hr in Hspec. eapply Forall_impl; [| exact Hspec].
        cbn beta. intros a [_ [E _]]. rewrite E. reflexivity.
    + rewrite Ha. split; [| exact Hrows].
      eapply updateFirst_Forall; [| exact Hsessions | exact Hu].
      intros s. now apply statusData_ok.
    + rewrite Hs. split; [exact Hsessions |].
      apply Hall; [| | exact Hrows].
      * intros now profileId status notes a Hvalid. exact Hvalid.
      * intros now status method confidence a [E | E]; rewrite E; reflexivity.
  - rewrite Hs, Ha. split; assumption.
Qed.

(** X21: Statuses stay within the schemas. When every stored session is
    ongoing, completed or cancelled and has an end exactly when it is not
    ongoing, and every attendance row is present, absent, late or excused,
    this is still so after any sequence of requests. So in the summary that
    [getAttendanceBySession] builds for any session, the four counts add up
    to the total. *)
Theorem statuses_stay_valid (utcOffset : Z) (st : Store) (requests : list Request) :
  statusesOk st ->
  let st' := afterAll utcOffset st requests in
  statusesOk st'
  /\ forall sessionId,
       let summary := filterSummary (attendancesOf sessionId st') in
       Summary.present summary + Summary.absent summary
       + Summary.late summary + Summary.excused summary
       = Summary.total summary.
Proof.
  intros Hok st'.
  assert (H : statusesOk st').
  { apply afterAll_invariant; [| exact Hok].
    intros r s s' Hs Hp. eapply statusesOk_perform; eauto. }
  split; [exact H |]. intros sessionId summary. subst summary. cbn.
  apply countStatus_partition. destruct H as [_ Hrows].
  unfold attendancesOf. rewrite Forall_forall in *. intros a Hin.
  apply filter_In in Hin. now apply Hrows.
Qed.

Lemma statuses_stay_valid_witness :
  statusesOk openSchool /\ statusesOk (afterAll 0 openSchool schoolMorning).
Proof.
  assert (H : statusesOk openSchool).
  { split.
    - constructor; [| constructor]. vm_compute.
      split; [reflexivity | split; reflexivity].
    - repeat (constructor; [vm_compute; reflexivity |]). constructor. }
  split; [exact H |].
  apply (statuses_stay_valid 0 openSchool schoolMorning H).
Defined.

Lemma filter_map_keyed {A K} (key : A -> K) (w : K -> bool) (l l' : list A) :
  map key l' = map key l ->
  map key (filter (fun a => w (key a)) l') = map key (filter (fun a => w (key a)) l).
Proof.
  revert l'. induction l as [| x rest IH]; intros [| y rest'] H;
    try discriminate; [reflexivity |].
  cbn [map] in H. injection H as Hk Hrest. cbn [filter]. rewrite Hk.
  destruct (w (key x)); cbn [map]; rewrite ?Hk, (IH rest' Hrest); reflexivity.
Qed.

Lemma roster_perform (utcOffset : Z) (r : Request) (st st' : Store) (sessionId : Z) :
  sessionId < nextAttendanceSessionId st ->
  Forall (fun a => Attendance.attendanceSessionId a < nextAttendanceSessionId st)
         (attendances st) ->
  perform utcOffset r st = Ok st' ->
  sessionId < nextAttendanceSessionId st'
  /\ Forall (fun a => Attendance.attendanceSessionId a < nextAttendanceSessionId st')
            (attendances st')
  /\ roster sessionId st' = roster sessionId st.
Proof.
  intros Hold Hbelow H. apply perform_cases in H. unfold roster, attendancesOf.
  destruct H as [[_ [_ Hw]] | [_ [_ [Ha [Hn _]]]]].
  - destruct Hw as [request now schedule created rows _ _ _ _ Hr _ Ha Hn _
                   | sid now status res _ _ Ha Hn _
                   | _ Hn _ Hmap _].
    + pose proof (createAttendances_spec (nextAttendanceSessionId st)
                    (nextAttendanceId st)
                    (studentsOfClass (ClassSchedule.classId schedule) st))
        as [_ [_ Hspec]].
      rewrite <- Hr in Hspec.
      rewrite Hn, Ha. split; [lia |]. split.
      * apply Forall_app. split.
        -- eapply Forall_impl; [| exact Hbelow]. cbn beta. intros; lia.
        -- eapply Forall_impl; [| exact Hspec]. cbn beta. intros a [E _]. lia.
      * rewrite filter_app.
        assert (E : filter (fun a => Attendance.attendanceSessionId a =? sessionId) rows
                    = []).
        { apply filter_nil. rewrite Forall_forall in *. intros a Hin.
          destruct (Hspec a Hin) as [E _]. apply Z.eqb_neq. lia. }
        rewrite E, app_nil_r. reflexivity.
    + rewrite Hn, Ha. auto.
    + rewrite Hn. split; [exact Hold |]. split.
      * eapply (Forall_map_eq Attendance.attendanceSessionId
                  (fun k => k < nextAttendanceSessionId st)); [| exact Hbelow].
        now apply map_rowKey_session.
      * pose proof (filter_map_keyed rowKey (fun k => snd (fst k) =? sessionId)
                      (attendances st) (attendances st') Hmap) as E.
        cbn in E.
        assert (F : forall l,
                   map (fun a => (Attendance.id a, Attendance.studentId a)) l
                   = map (fun k => (fst (fst k), snd k)) (map rowKey l)).
        { intros l. rewrite map_map. reflexivity. }
        rewrite !F. f_equal. exact E.
  - rewrite Hn, Ha. auto.
Qed.

(** X22: The roster of a session is frozen. Once a session is stored, which
    attendance rows it has, and of which students, never changes, whatever
    requests are served: no service adds a row to an existing session,
    removes one or moves one. So a student who has no row of the session
    (one who joined the class after the session was opened, say) can never
    check in to it. *)
Theorem roster_is_frozen (utcOffset : Z) (st : Store) (requests : list Request)
        (sessionId : Z) :
  wellKeyed st = true ->
  linked st ->
  findSession sessionId st <> None ->
  let st' := afterAll utcOffset st requests in
  roster sessionId st' = roster sessionId st
  /\ forall now request,
       StudentCheckInRequest.sessionId request = sessionId ->
       ~ In (StudentCheckInRequest.studentId request)
            (map snd (roster sessionId st)) ->
       exists e, studentCheckIn utcOffset now request st' = Err e.
Proof.
  intros Hkeyed [Hrows _] Hfound st'.
  apply wellKeyed_spec in Hkeyed. destruct Hkeyed as [Hids _].
  assert (Hbelow : forall k, findSession k st <> None -> k < nextAttendanceSessionId st).
  { intros k Hk. unfold findSession in Hk. apply find_found_in in Hk.
    destruct Hk as [s [Hin Hs]]. apply Z.eqb_eq in Hs. subst k.
    rewrite Forall_forall in Hids. now apply Hids. }
  assert (H : sessionId < nextAttendanceSessionId st'
              /\ Forall (fun a => Attendance.attendanceSessionId a
                                  < nextAttendanceSessionId st') (attendances st')
              /\ roster sessionId st' = roster sessionId st).
  { apply (afterAll_invariant utcOffset
             (fun s => sessionId < nextAttendanceSessionId s
                       /\ Forall (fun a => Attendance.attendanceSessionId a
                                           < nextAttendanceSessionId s) (attendances s)
                       /\ roster sessionId s = roster sessionId st)).
    - intros r s s' [H1 [H2 H3]] Hp.
      destruct (roster_perform utcOffset r s s' sessionId H1 H2 Hp) as [G1 [G2 G3]].
      repeat split; try assumption. now rewrite G3.
    - split; [now apply Hbelow |]. split; [| reflexivity].
      eapply Forall_impl; [| exact Hrows]. cbn beta. intros a. apply Hbelow. }
  destruct H as [_ [_ Hroster]]. split; [exact Hroster |].
  intros now request Hsid Hnot.
  destruct (studentCheckIn utcOffset now request st') as [[st2 row] | e] eqn:E;
    [| now exists e].
  exfalso. apply Hnot. apply studentCheckIn_Ok in E.
  destruct E as [found [a [c [_ [_ [_ [Ha _]]]]]]].
  unfold findAttendanceOf in Ha. apply find_some in Ha. destruct Ha as [Hin Hw].
  rewrite andb_true_iff, !Z.eqb_eq in Hw. destruct Hw as [Hs Hstudent].
  rewrite <- Hroster. unfold roster, attendancesOf. rewrite map_map. cbn [snd].
  apply in_map_iff. exists a. split; [exact Hstudent |].
  apply filter_In. split; [exact Hin |]. apply Z.eqb_eq. congruence.
Qed.

Lemma roster_is_frozen_witness :
  roster 1 (afterAll 0 openSchool schoolMorning) = roster 1 openSchool
  /\ exists e,
       studentCheckIn 0 (eightOClock + minutes 5) (checkInOf 4)
                      (afterAll 0 openSchool schoolMorning) = Err e.
Proof.
  assert (Hlinked : linked openSchool).
  { split; repeat (constructor; [vm_compute; discriminate |]); constructor. }
  assert (Hfound : findSession 1 openSchool <> None) by (vm_compute; discriminate).
  destruct (roster_is_frozen 0 openSchool schoolMorning 1 eq_refl Hlinked Hfound)
    as [H1 H2].
  split; [exact H1 |].
  apply (H2 (eightOClock + minutes 5) (checkInOf 4) eq_refl).
  vm_compute. intros [H | [H | [H | []]]]; discriminate H.
Defined.

(** ** The check-in of a student *)

(** X23: A check-in is for oneself. [studentCheckInController] refuses every
    caller who is not a student with a 403, and for a student it takes the
    student from the authenticated user, never from the body. On tables with
    distinct primary keys a check-in that goes through writes one row and
    nothing else: the caller's own row of the session named in the body,
    which was absent and becomes present or late with the check-in time set
    to the instant of the call. *)
Theorem check_in_is_for_oneself (utcOffset now : Z) (user : User.t)
        (body : CheckInBody.t) (st : Store) :
  wellKeyed st = true ->
  (User.role user <> "student" ->
   studentCheckInController utcOffset now user body st
   = Err (ResponseError 403 (Msg "Only students can check in")))
  /\ forall st' row,
       studentCheckInController utcOffset now user body st = Ok (st', row) ->
       User.role user = "student"
       /\ st' = withAttendances st (attendances st')
       /\ exists pre old post,
            attendances st = pre ++ old :: post
            /\ attendances st' = pre ++ row :: post
            /\ Attendance.id row = Attendance.id old
            /\ Attendance.studentId old = User.profileId user
            /\ Attendance.studentId row = User.profileId user
            /\ Attendance.attendanceSessionId old = CheckInBody.sessionId body
            /\ Attendance.attendanceSessionId row = CheckInBody.sessionId body
            /\ Attendance.status old = "absent"
            /\ (Attendance.status row = "present" \/ Attendance.status row = "late")
            /\ Attendance.checkInTime row = Some now.
Proof.
  intros Hkeyed. unfold studentCheckInController, throwIf. split.
  - intros Hrole. apply String.eqb_neq in Hrole. rewrite Hrole. reflexivity.
  - intros st' row H.
    destruct (String.eqb_spec (User.role user) "student") as [Hrole | Hrole];
      cbn [negb bind] in H; [| discriminate].
    split; [exact Hrole |].
    apply studentCheckIn_Ok in H. cbn in H.
    destruct H as [found [a [c [_ [_ [_ [Ha [Habsent [_ [Hu Hst]]]]]]]]]].
    split; [exact Hst |].
    unfold findAttendanceOf in Ha. apply find_some in Ha. destruct Ha as [Hin Hw].
    rewrite andb_true_iff, !Z.eqb_eq in Hw. destruct Hw as [Hsession Hstudent].
    apply updateFirst_Some in Hu.
    destruct Hu as [pre [r [post [Erows [_ [Hr [Erows' Erow]]]]]]].
    apply Z.eqb_eq in Hr.
    apply wellKeyed_spec in Hkeyed. destruct Hkeyed as [_ [_ Hnd]].
    assert (Er : r = a).
    { apply (NoDup_key_inj Attendance.id (attendances st)); try assumption.
      rewrite Erows. apply in_or_app. right. now left. }
    subst r. exists pre, a, post. rewrite Erow. cbn.
    repeat split; try assumption.
    apply determineAttendanceStatus_values.
Qed.

Lemma check_in_is_for_oneself_witness :
  studentCheckInController 0 (eightOClock + minutes 10) (User.mk "teacher" 1)
    (CheckInBody.mk 1 None None) openSchool
  = Err (ResponseError 403 (Msg "Only students can check in"))
  /\ exists st' row,
       studentCheckInController 0 (eightOClock + minutes 10) (User.mk "student" 2)
         (CheckInBody.mk 1 None None) openSchool = Ok (st', row)
       /\ Attendance.studentId row = 2.
Proof.
  split.
  - apply (check_in_is_for_oneself 0 (eightOClock + minutes 10) (User.mk "teacher" 1)
             (CheckInBody.mk 1 None None) openSchool eq_refl).
    discriminate.
  - destruct (studentCheckInController 0 (eightOClock + minutes 10)
                (User.mk "student" 2) (CheckInBody.mk 1 None None) openSchool)
      as [[st' row] | e] eqn:E; [| vm_compute in E; discriminate E].
    exists st', row. split; [reflexivity |].
    destruct (check_in_is_for_oneself 0 (eightOClock + minutes 10)
                (User.mk "student" 2) (CheckInBody.mk 1 None None) openSchool eq_refl)
      as [_ H].
    destruct (H st' row E) as [_ [_ [pre [old [post H']]]]].
    apply H'.
Defined.

(** ** Ownership *)

Lemma exec_frame_or_owner (utcOffset : Z) (c : Call) (st st' : Store)
      (sessionId : Z) (s : AttendanceSession.t) :
  wellKeyed st = true ->
  findSession sessionId st = Some s ->
  exec utcOffset c st = Ok st' ->
  (findSession sessionId st' = Some s
   /\ attendancesOf sessionId st' = attendancesOf sessionId st)
  \/ callerOf (op c) = Some (AttendanceSession.createdBy s)
  \/ callerOf (op c) = None.
Proof.
  intros Hkeys Hfound.
  pose proof Hkeys as Hwf. apply wellKeyed_spec in Hwf.
  destruct Hwf as [Hk1 [Hk2 Hk3]].
  assert (Hstatus :
            forall now request st1 res,
              updateSessionStatus now request st = Ok (st1, res) ->
              (findSession sessionId st1 = Some s
               /\ attendancesOf sessionId st1 = attendancesOf sessionId st)
              \/ UpdateSessionStatusRequest.profileId request
                 = AttendanceSession.createdBy s).
  { intros now request st1 res Hx.
    apply updateSessionStatus_Ok in Hx.
    destruct Hx as [found [_ [Hf [Hown [_ [_ [Hu Hst]]]]]]].
    destruct (Z.eq_dec (UpdateSessionStatusRequest.sessionId request) sessionId)
      as [E | Hne].
    - right. rewrite E, Hfound in Hf. inversion Hf; subst found. now symmetry.
    - left. pose proof (findSession_id _ _ _ Hf) as [_ Hfid].
      rewrite Hst. split; [| reflexivity].
      unfold findSession. cbn [attendanceSessions withSessions].
      rewrite <- Hfound. unfold findSession.
      eapply updateFirst_find_other; [exact Hu | exact Hf | |];
        cbn; apply Z.eqb_neq; congruence. }
  unfold exec. intros H.
  destruct (op c) as [r | r | r | r | r | r | r];
    open_ok H;
    match goal with
    | Hx : _ = Ok ?x |- _ =>
        match type of x with
        | (_ * _)%type => destruct x as [st1 res]; cbn [fst] in *
        end
    end;
    injection H as <-; cbn [callerOf].
  - left. apply createSession_Ok in Hx.
    destruct Hx as [schedule [_ [_ [Hsess [Hrows [_ Hst]]]]]].
    subst st1. unfold findSession, attendancesOf. simpl.
    split.
    + rewrite find_app. unfold findSession in Hfound. now rewrite Hfound.
    + rewrite filter_app, (filter_nil _ (createdAttendances res));
        [apply app_nil_r |].
      rewrite Hrows.
      destruct (createAttendances_spec (nextAttendanceSessionId st)
                  (nextAttendanceId st)
                  (studentsOfClass (ClassSchedule.classId schedule) st))
        as [_ [_ Hall]].
      eapply Forall_impl; [| exact Hall].
      cbn beta. intros a [Ha _]. apply Z.eqb_neq.
      pose proof (findSession_id _ _ _ Hfound) as [Hin Hsid].
      rewrite Forall_forall in Hk1. specialize (Hk1 _ Hin). lia.
  - destruct (Hstatus _ _ _ _ Hx) as [G | G]; [now left | right; left; now f_equal].
  - apply endSession_Ok in Hx.
    destruct (Hstatus _ _ _ _ Hx) as [G | G]; [now left | right; left; now f_equal].
  - apply cancelSession_Ok in Hx.
    destruct (Hstatus _ _ _ _ Hx) as [G | G]; [now left | right; left; now f_equal].
  - apply markAttendance_Ok in Hx.
    destruct Hx as [found [results [_ [Hf [Hown [_ [_ [Hm [_ Hst]]]]]]]]].
    destruct (Z.eq_dec (MarkAttendanceRequest.sessionId r) sessionId) as [E | Hne].
    + right. left. rewrite E, Hfound in Hf. inversion Hf; subst found.
      now f_equal.
    + left. rewrite Hst. split; [exact Hfound |].
      unfold attendancesOf. cbn [attendances withAttendances].
      eapply markAll_filter_other; [| exact Hm].
      intros a Ha. apply Z.eqb_neq. congruence.
  - apply markSingleAttendance_Ok in Hx.
    destruct Hx as [a [s' [_ [Ha [Hs [Hown [_ [_ [Hu Hst]]]]]]]]].
    destruct (Z.eq_dec (Attendance.attendanceSessionId a) sessionId) as [E | Hne].
    + right. left. rewrite E, Hfound in Hs. inversion Hs; subst s'.
      now f_equal.
    + left. rewrite Hst. split; [exact Hfound |].
      unfold attendancesOf. cbn [attendances withAttendances].
      eapply updateFirst_filter; [exact Hu | exact Ha | |];
        cbn; apply Z.eqb_neq; exact Hne.
  - right. right. reflexivity.
Qed.

Lemma wellKeyed_perform (utcOffset : Z) (r : Request) (st st' : Store) :
  wellKeyed st = true -> perform utcOffset r st = Ok st' -> wellKeyed st' = true.
Proof.
  intros Hkeys H. destruct r as [c | c | l | u | d];
    [eapply wellKeyed_exec; eauto | | | |];
    (apply admin_writes in H; [| intros ?; discriminate]);
    destruct H as [H1 [H2 [H3 [H4 _]]]];
    unfold wellKeyed in *; now rewrite H1, H2, H3, H4.
Qed.

(** X24: Only the creator writes. Requests of the administrator and calls of
    teachers who did not create a session, in any number and order, leave
    that session and its attendance rows exactly as they were: the calls
    that name the session or one of its rows are refused, and the others
    write elsewhere. *)
Theorem only_the_creator_writes (utcOffset : Z) (requests : list Request) (st : Store)
        (sessionId : Z) (s : AttendanceSession.t) :
  wellKeyed st = true ->
  findSession sessionId st = Some s ->
  Forall (otherThan (AttendanceSession.createdBy s)) requests ->
  findSession sessionId (afterAll utcOffset st requests) = Some s
  /\ attendancesOf sessionId (afterAll utcOffset st requests)
     = attendancesOf sessionId st.
Proof.
  unfold afterAll. revert st.
  induction requests as [| r rest IH]; intros st Hkeys Hfound Hothers;
    [split; [exact Hfound | reflexivity] |].
  apply Forall_cons_iff in Hothers. destruct Hothers as [Hr Hrest].
  cbn [fold_left]. unfold after.
  destruct (perform utcOffset r st) as [st' | e] eqn:E; [| now apply IH].
  assert (Hkeys' : wellKeyed st' = true) by (eapply wellKeyed_perform; eauto).
  assert (Hframe : findSession sessionId st' = Some s
                   /\ attendancesOf sessionId st' = attendancesOf sessionId st).
  { destruct r as [c | c | l | u | d].
    - cbn [perform] in E. cbn [otherThan] in Hr. destruct Hr as [p [Hp Hne]].
      destruct (exec_frame_or_owner utcOffset c st st' sessionId s Hkeys Hfound E)
        as [G | [G | G]]; [exact G | |]; rewrite G in Hp.
      + exfalso. apply Hne. now inversion Hp.
      + discriminate Hp.
    - apply admin_writes in E; [| intros ?; discriminate].
      destruct E as [E1 [E2 _]]. unfold findSession, attendancesOf.
      rewrite E1, E2. now split.
    - apply admin_writes in E; [| intros ?; discriminate].
      destruct E as [E1 [E2 _]]. unfold findSession, attendancesOf.
      rewrite E1, E2. now split.
    - apply admin_writes in E; [| intros ?; discriminate].
      destruct E as [E1 [E2 _]]. unfold findSession, attendancesOf.
      rewrite E1, E2. now split.
    - apply admin_writes in E; [| intros ?; discriminate].
      destruct E as [E1 [E2 _]]. unfold findSession, attendancesOf.
      rewrite E1, E2. now split. }
  destruct Hframe as [Hf Ha].
  destruct (IH st' Hkeys' Hf Hrest) as [G1 G2].
  split; [exact G1 | etransitivity; [exact G2 | exact Ha]].
Qed.

Lemma only_the_creator_writes_witness :
  findSession 1 (afterAll 0 openSchool intrusion)
  = Some (AttendanceSession.mk 1 1 monday "ongoing" (eightOClock - minutes 5)
                               None None 1)
  /\ attendancesOf 1 (afterAll 0 openSchool intrusion) = attendancesOf 1 openSchool.
Proof.
  apply (only_the_creator_writes 0 intrusion openSchool 1
           (AttendanceSession.mk 1 1 monday "ongoing" (eightOClock - minutes 5)
                                 None None 1) eq_refl eq_refl).
  unfold intrusion.
  repeat (apply Forall_cons; [first [exact I | exists 2; split; [reflexivity | cbn; lia]] |]).
  apply Forall_nil.
Defined.

(** ** When a bulk marking goes through *)

Lemma markAll_total (now sessionId profileId : Z) (updates : list AttendanceUpdate.t) :
  forall rows,
    (forall att, In att updates ->
                 find (fun a => (Attendance.id a =? AttendanceUpdate.attendanceId att)
                                && (Attendance.attendanceSessionId a =? sessionId))
                      rows <> None) ->
    exists rows' results,
      markAll now sessionId profileId updates rows = Ok (rows', results).
Proof.
  induction updates as [| att rest IH]; intros rows Hall.
  - exists rows, []. reflexivity.
  - cbn [markAll]. unfold prismaUpdate.
    destruct (updateFirst
                (fun a => (Attendance.id a =? AttendanceUpdate.attendanceId att)
                          && (Attendance.attendanceSessionId a =? sessionId))
                (markData now profileId (AttendanceUpdate.status att)
                          (AttendanceUpdate.notes att)) rows)
      as [[rows1 one] |] eqn:E.
    + cbn [orThrow bind fst snd].
      destruct (IH rows1) as [rows' [results H]].
      * intros att' Hin.
        apply (find_keyed_found
                 (fun a => (Attendance.id a, Attendance.attendanceSessionId a))
                 (fun k => (fst k =? AttendanceUpdate.attendanceId att')
                           && (snd k =? sessionId))
                 rows rows1).
        -- eapply updateFirst_map; [| exact E]. reflexivity.
        -- apply Hall. now right.
      * rewrite H. cbn [bind fst snd]. eauto.
    + apply updateFirst_None in E. exfalso. apply (Hall att); [now left | exact E].
Qed.

Lemma markAll_length (now sessionId profileId : Z) (updates : list AttendanceUpdate.t) :
  forall rows rows' results,
    markAll now sessionId profileId updates rows = Ok (rows', results) ->
    List.length results = List.length updates.
Proof.
  induction updates as [| att rest IH]; intros rows rows' results H.
  - simpl in H. inversion H. reflexivity.
  - apply markAll_cons in H. destruct H as [rows1 [one [others [_ [H2 E]]]]].
    subst results. cbn [List.length]. f_equal. eapply IH; exact H2.
Qed.

(** X25: When a bulk marking goes through. On tables whose relations hold
    (every session has its schedule, so that the answer, which reads the
    names of the class and of the subject through [session.classSchedule]
    after the transaction, does not throw), [markAttendance] succeeds
    exactly when the request satisfies its schema, the session exists, the
    caller created it, it is neither completed nor cancelled, and every
    entry names a row that the session has in the table as it is before the
    call; an entry may name a row that another entry names too. The
    [updated] it answers is then the number of entries, not of rows, and the
    schedule the answer reads through is stored. *)
Theorem markAttendance_succeeds_iff (now : Z) (request : MarkAttendanceRequest.t)
        (st : Store) :
  linked st ->
  ((exists st' res, markAttendance now request st = Ok (st', res))
   <->
   markAttendanceSchema request = true
   /\ (exists found,
          findSession (MarkAttendanceRequest.sessionId request) st = Some found
          /\ AttendanceSession.createdBy found = MarkAttendanceRequest.profileId request
          /\ AttendanceSession.status found <> "completed"
          /\ AttendanceSession.status found <> "cancelled")
   /\ (forall att,
          In att (MarkAttendanceRequest.attendances request) ->
          exists row,
            In row (attendances st)
            /\ Attendance.id row = AttendanceUpdate.attendanceId att
            /\ Attendance.attendanceSessionId row
               = MarkAttendanceRequest.sessionId request))
  /\ (forall st' res,
         markAttendance now request st = Ok (st', res) ->
         updated res = List.length (MarkAttendanceRequest.attendances request)
         /\ exists found classSchedule,
              findSession (MarkAttendanceRequest.sessionId request) st = Some found
              /\ findSchedule (AttendanceSession.classScheduleId found) st
                 = Some classSchedule).
Proof.
  intros [_ Hsessions]. split; [split |].
  - intros [st' [res H]]. apply markAttendance_Ok in H.
    destruct H as [found [results [Hschema [Hf [Hown [H1 [H2 [Hm _]]]]]]]].
    split; [exact Hschema |]. split; [exists found; tauto |].
    intros att Hin.
    pose proof (markAll_found _ _ _ _ _ _ _ att Hm Hin) as Hfound.
    apply find_found_in in Hfound. destruct Hfound as [row [Hrow Hw]].
    rewrite andb_true_iff, !Z.eqb_eq in Hw. exists row. tauto.
  - intros [Hschema [[found [Hf [Hown [H1 H2]]]] Hall]].
    destruct (markAll_total now (MarkAttendanceRequest.sessionId request)
                (MarkAttendanceRequest.profileId request)
                (MarkAttendanceRequest.attendances request) (attendances st))
      as [rows' [results Hm]].
    { intros att Hin. apply find_found_in.
      destruct (Hall att Hin) as [row [Hrow [Hid Hs]]]. exists row.
      split; [exact Hrow |]. rewrite Hid, Hs, !Z.eqb_refl. reflexivity. }
    unfold markAttendance, validate, throwIf. rewrite Hschema. cbn [negb bind].
    rewrite Hf. cbn [orThrow bind]. rewrite Hown, Z.eqb_refl. cbn [negb bind].
    unfold validateSessionActive, throwIf.
    apply String.eqb_neq in H1, H2. rewrite H1, H2. cbn [bind].
    rewrite Hm. cbn [bind]. eauto.
  - intros st' res H. apply markAttendance_Ok in H.
    destruct H as [found [results [_ [Hf [_ [_ [_ [Hm [Hu _]]]]]]]]].
    split; [rewrite Hu; eapply markAll_length; exact Hm |].
    pose proof (findSession_id _ _ _ Hf) as [Hin _].
    rewrite Forall_forall in Hsessions. specialize (Hsessions found Hin).
    destruct (findSchedule (AttendanceSession.classScheduleId found) st)
      as [classSchedule |] eqn:E; [| now contradiction Hsessions].
    exists found, classSchedule. split; [exact Hf | exact E].
Qed.

Lemma markAttendance_succeeds_iff_witness :
  linked openSchool
  /\ exists st' res,
       markAttendance (eightOClock + minutes 20)
         (MarkAttendanceRequest.mk 1 [AttendanceUpdate.mk 1 "late" None;
                                     AttendanceUpdate.mk 1 "present" None] 1)
         openSchool = Ok (st', res)
       /\ updated res = 2%nat.
Proof.
  assert (Hlinked : linked openSchool).
  { split; repeat (constructor; [vm_compute; discriminate |]); constructor. }
  split; [exact Hlinked |].
  destruct (markAttendance_succeeds_iff (eightOClock + minutes 20)
              (MarkAttendanceRequest.mk 1 [AttendanceUpdate.mk 1 "late" None;
                                          AttendanceUpdate.mk 1 "present" None] 1)
              openSchool Hlinked) as [[_ Hif] Hupdated].
  destruct Hif as [st' [res H]].
  - split; [reflexivity |]. split.
    + exists (AttendanceSession.mk 1 1 monday "ongoing" (eightOClock - minutes 5)
                                   None None 1).
      split; [reflexivity |]. split; [reflexivity |]. split; discriminate.
    + intros att Hin.
      exists (Attendance.mk 1 1 1 "absent" None None None None None None).
      split; [left; reflexivity |].
      destruct Hin as [E | [E | []]]; rewrite <- E; split; reflexivity.
  - exists st', res. split; [exact H | apply (Hupdated st' res H)].
Defined.

(** ** The helper that guards modification *)

(** X26: [validateSessionModifiable] is the rule [updateSessionStatus] applies.
    For a request the schema accepts, on a stored session of the caller: the
    error the helper throws for the session is the error the service throws,
    and when the helper answers true the service goes through and the
    session takes the requested status. The helper accepts exactly the
    sessions that [validateSessionActive] of the attendance services
    accepts. *)
Theorem validateSessionModifiable_is_the_rule (now : Z)
        (request : UpdateSessionStatusRequest.t) (st : Store)
        (found : AttendanceSession.t) :
  updateSessionStatusSchema request = true ->
  findSession (UpdateSessionStatusRequest.sessionId request) st = Some found ->
  AttendanceSession.createdBy found = UpdateSessionStatusRequest.profileId request ->
  (forall e, validateSessionModifiable found = Err e ->
             updateSessionStatus now request st = Err e)
  /\ (forall b, validateSessionModifiable found = Ok b ->
                b = true
                /\ exists st' res,
                     updateSessionStatus now request st = Ok (st', res)
                     /\ AttendanceSession.status res
                        = UpdateSessionStatusRequest.status request)
  /\ isOk (validateSessionModifiable found) = isOk (validateSessionActive found).
Proof.
  intros Hschema Hf Hown.
  unfold updateSessionStatus, validate, validateSessionOwnership,
    validateSessionModifiable, validateSessionActive, throwIf.
  rewrite Hschema, Hf. cbn [negb bind orThrow].
  rewrite Hown, Z.eqb_refl. cbn [negb bind].
  destruct (String.eqb (AttendanceSession.status found) "completed");
    cbn [bind isOk].
  - split; [intros e H; injection H as <-; reflexivity |].
    split; [intros b H; discriminate H | reflexivity].
  - destruct (String.eqb (AttendanceSession.status found) "cancelled");
      cbn [bind isOk].
    + split; [intros e H; injection H as <-; reflexivity |].
      split; [intros b H; discriminate H | reflexivity].
    + split; [intros e H; discriminate H |]. split; [| reflexivity].
      intros b H. injection H as <-. split; [reflexivity |].
      unfold prismaUpdate.
      destruct (updateFirst _ _ (attendanceSessions st)) as [[sessions' u] |] eqn:E.
      * cbn [orThrow bind fst snd]. exists (withSessions st sessions'), u.
        split; [reflexivity |].
        apply updateFirst_find in E. destruct E as [r [_ Eu]]. rewrite Eu.
        reflexivity.
      * apply updateFirst_None in E. unfold findSession in Hf. congruence.
Qed.

Lemma validateSessionModifiable_is_the_rule_witness :
  updateSessionStatus (eightOClock + minutes 100)
    (UpdateSessionStatusRequest.mk 1 "ongoing" 1) closedSchool
  = Err (ResponseError 400 (Msg "Cannot modify completed session")).
Proof.
  destruct (validateSessionModifiable_is_the_rule (eightOClock + minutes 100)
              (UpdateSessionStatusRequest.mk 1 "ongoing" 1) closedSchool
              (AttendanceSession.mk 1 1 monday "completed" (eightOClock - minutes 5)
                 (Some (eightOClock + minutes 90)) None 1)
              eq_refl eq_refl eq_refl) as [H _].
  apply H. reflexivity.
Defined.

(** ** The sessions that are open to a caller *)

Lemma mapThrowing_Ok {A B} (f : A -> Result B) (l : list A) :
  (forall x, In x l -> exists y, f x = Ok y) ->
  exists ys, mapThrowing f l = Ok ys.
Proof.
  induction l as [| x rest IH]; intros Hall; [exists []; reflexivity |].
  destruct (Hall x (or_introl eq_refl)) as [y Hy].
  destruct IH as [ys Hys]; [intros z Hz; apply Hall; now right |].
  exists (y :: ys). cbn [mapThrowing]. rewrite Hy, Hys. reflexivity.
Qed.

Lemma mapThrowing_In {A B} (f : A -> Result B) (l : list A) (ys : list B) (y : B) :
  mapThrowing f l = Ok ys ->
  (In y ys <-> exists x, In x l /\ f x = Ok y).
Proof.
  revert ys. induction l as [| x rest IH]; intros ys H.
  - cbn in H. injection H as <-. split; [intros [] | intros [x [[] _]]].
  - cbn [mapThrowing] in H. open_ok H. injection H as <-.
    specialize (IH _ Hx0). split.
    + intros [E | Hin].
      * subst y. exists x. split; [now left | exact Hx].
      * apply IH in Hin. destruct Hin as [z [Hz Hf]]. exists z. split; [now right | exact Hf].
    + intros [z [[E | Hz] Hf]].
      * subst z. left. congruence.
      * right. apply IH. eauto.
Qed.

Lemma insertByStart_In (s x : AttendanceSession.t) (l : list AttendanceSession.t) :
  In x (insertByStart s l) <-> x = s \/ In x l.
Proof.
  induction l as [| y rest IH]; cbn [insertByStart].
  - split; [intros [E | []]; now left | intros [E | []]; now left].
  - destruct (AttendanceSession.startedAt y <=? AttendanceSession.startedAt s).
    + split; [intros [E | H]; [left; now symmetry | now right]
             | intros [E | H]; [left; now symmetry | now right]].
    + cbn [In]. rewrite IH. tauto.
Qed.

Lemma newestFirst_In (x : AttendanceSession.t) (l : list AttendanceSession.t) :
  In x (newestFirst l) <-> In x l.
Proof.
  unfold newestFirst. induction l as [| y rest IH]; [reflexivity |].
  cbn [fold_right]. rewrite insertByStart_In, IH. cbn [In].
  split; intros [E | H]; auto.
Qed.

Lemma NoDup_map_inj {A K} (key : A -> K) (rows : list A) (a b : A) :
  NoDup (map key rows) -> In a rows -> In b rows -> key a = key b -> a = b.
Proof.
  induction rows as [| r rest IH]; simpl; intros Hnd Ha Hb E; [contradiction |].
  inversion Hnd as [| k l Hr Hrest]; subst.
  destruct Ha as [Ha | Ha], Hb as [Hb | Hb]; subst.
  - reflexivity.
  - exfalso. apply Hr. rewrite E. now apply in_map.
  - exfalso. apply Hr. rewrite <- E. now apply in_map.
  - now apply IH.
Qed.

Lemma absentInOngoing_spec (profileId : Z) (st : Store) (a : Attendance.t) :
  absentInOngoing profileId st a = true <->
  Attendance.studentId a = profileId
  /\ Attendance.status a = "absent"
  /\ exists s, findSession (Attendance.attendanceSessionId a) st = Some s
               /\ AttendanceSession.status s = "ongoing".
Proof.
  unfold absentInOngoing. rewrite !andb_true_iff, Z.eqb_eq, String.eqb_eq.
  destruct (findSession (Attendance.attendanceSessionId a) st) as [s |].
  - rewrite String.eqb_eq. split.
    + intros [[H1 H2] H3]. eauto.
    + intros [H1 [H2 [s' [E H3]]]]. inversion E; subst s'. auto.
  - split; [intros [_ H]; discriminate H | intros [_ [_ [s [E _]]]]; discriminate E].
Qed.

Lemma activeForStudent_Ok (st : Store) (a : Attendance.t) (s : AttendanceSession.t) :
  linked st ->
  findSession (Attendance.attendanceSessionId a) st = Some s ->
  exists entry,
    activeForStudent st a = Ok entry
    /\ ActiveForStudent.sessionId entry = Attendance.attendanceSessionId a.
Proof.
  intros [_ Hsessions] Hs. unfold activeForStudent. rewrite Hs. cbn [orThrow bind].
  pose proof (findSession_id _ _ _ Hs) as [Hin _].
  rewrite Forall_forall in Hsessions. specialize (Hsessions s Hin).
  destruct (findSchedule (AttendanceSession.classScheduleId s) st) as [c |];
    [| now contradiction Hsessions].
  cbn [orThrow bind]. eexists. split; reflexivity.
Qed.

Lemma activeForTeacher_Ok (st : Store) (s : AttendanceSession.t) :
  linked st ->
  In s (attendanceSessions st) ->
  exists entry,
    activeForTeacher st s = Ok entry
    /\ ActiveForTeacher.sessionId entry = AttendanceSession.id s.
Proof.
  intros [_ Hsessions] Hin. unfold activeForTeacher.
  rewrite Forall_forall in Hsessions. specialize (Hsessions s Hin).
  destruct (findSchedule (AttendanceSession.classScheduleId s) st) as [c |];
    [| now contradiction Hsessions].
  cbn [orThrow bind]. eexists. split; reflexivity.
Qed.

Lemma activeForStudent_sessionId (st : Store) (a : Attendance.t)
      (entry : ActiveForStudent.t) :
  activeForStudent st a = Ok entry ->
  ActiveForStudent.sessionId entry = Attendance.attendanceSessionId a.
Proof.
  unfold activeForStudent. intros H. open_ok H. injection H as <-. reflexivity.
Qed.

Lemma activeForTeacher_sessionId (st : Store) (s : AttendanceSession.t)
      (entry : ActiveForTeacher.t) :
  activeForTeacher st s = Ok entry ->
  ActiveForTeacher.sessionId entry = AttendanceSession.id s.
Proof.
  unfold activeForTeacher. intros H. open_ok H. injection H as <-. reflexivity.
Qed.

(** X27: What a student sees is what the student can check in to. On tables
    whose relations and keys hold, [getActiveSessions] answers a student
    with a list, and a session is on it exactly when a check-in of that
    student to it, with a request the schema accepts, goes through. A role
    other than student and teacher is refused with a 403. *)
Theorem getActiveSessions_student (profileId : Z) (st : Store) :
  linked st ->
  uniqueKeys st ->
  (exists listed,
      getActiveSessions "student" profileId st = Ok (ForStudent listed)
      /\ forall utcOffset now request,
           studentCheckInSchema request = true ->
           StudentCheckInRequest.studentId request = profileId ->
           (In (StudentCheckInRequest.sessionId request)
               (map ActiveForStudent.sessionId listed)
            <-> exists st' row,
                  studentCheckIn utcOffset now request st = Ok (st', row)))
  /\ forall role,
       role <> "student" -> role <> "teacher" ->
       getActiveSessions role profileId st
       = Err (ResponseError 403 (Msg "Invalid role")).
Proof.
  intros Hlinked [_ Hseats]. split.
  - unfold getActiveSessions. cbn [String.eqb Ascii.eqb Bool.eqb].
    destruct (mapThrowing_Ok (activeForStudent st)
                (filter (absentInOngoing profileId st) (attendances st)))
      as [listed Hlisted].
    { intros a Ha. apply filter_In in Ha. destruct Ha as [_ Ha].
      apply absentInOngoing_spec in Ha. destruct Ha as [_ [_ [s [Hs _]]]].
      destruct (activeForStudent_Ok st a s Hlinked Hs) as [entry [He _]]. eauto. }
    exists listed. rewrite Hlisted. cbn [bind]. split; [reflexivity |].
    intros utcOffset now request Hschema Hstudent. split.
    + intros Hin. apply in_map_iff in Hin. destruct Hin as [entry [Hsid Hentry]].
      apply (mapThrowing_In _ _ _ entry Hlisted) in Hentry.
      destruct Hentry as [a [Ha Hf]]. apply filter_In in Ha. destruct Ha as [Hrow Ha].
      apply absentInOngoing_spec in Ha. destruct Ha as [Hp [Habsent [s [Hs Hon]]]].
      apply activeForStudent_sessionId in Hf. rewrite Hsid in Hf.
      unfold studentCheckIn, validate, throwIf. rewrite Hschema. cbn [negb bind].
      rewrite Hf, Hs. cbn [orThrow bind]. rewrite Hon. cbn [String.eqb Ascii.eqb Bool.eqb negb bind].
      destruct (findAttendanceOf (Attendance.attendanceSessionId a)
                  (StudentCheckInRequest.studentId request) st) as [a' |] eqn:Ea.
      * unfold findAttendanceOf in Ea. apply find_some in Ea.
        destruct Ea as [Hrow' Hw]. rewrite andb_true_iff, !Z.eqb_eq in Hw.
        assert (Esame : a' = a).
        { apply (NoDup_map_inj seat (attendances st)); try assumption.
          unfold seat. f_equal; [tauto | destruct Hw; congruence]. }
        subst a'. cbn [orThrow bind]. rewrite Habsent.
        cbn [String.eqb Ascii.eqb Bool.eqb negb bind].
        destruct Hlinked as [_ Hsessions].
        pose proof (findSession_id _ _ _ Hs) as [Hins _].
        rewrite Forall_forall in Hsessions. specialize (Hsessions s Hins).
        destruct (findSchedule (AttendanceSession.classScheduleId s) st) as [c |];
          [| now contradiction Hsessions].
        cbn [orThrow bind]. unfold prismaUpdate.
        destruct (updateFirst _ _ (attendances st)) as [[rows' u] |] eqn:Eu.
        -- cbn [orThrow bind]. eauto.
        -- apply updateFirst_None in Eu. rewrite find_none_iff in Eu.
           specialize (Eu a Hrow). rewrite Z.eqb_refl in Eu. discriminate Eu.
      * unfold findAttendanceOf in Ea. rewrite find_none_iff in Ea.
        specialize (Ea a Hrow). rewrite Hstudent, Hp, !Z.eqb_refl in Ea.
        discriminate Ea.
    + intros [st' [row H]]. apply studentCheckIn_Ok in H.
      destruct H as [found [a [c [_ [Hf [Hon [Ha [Habsent _]]]]]]]].
      unfold findAttendanceOf in Ha. apply find_some in Ha. destruct Ha as [Hrow Hw].
      rewrite andb_true_iff, !Z.eqb_eq in Hw. destruct Hw as [Hsid Hp].
      destruct (activeForStudent_Ok st a found Hlinked) as [entry [He Hes]];
        [now rewrite Hsid |].
      apply in_map_iff. exists entry. split; [congruence |].
      apply (mapThrowing_In _ _ _ entry Hlisted). exists a. split; [| exact He].
      apply filter_In. split; [exact Hrow |]. apply absentInOngoing_spec.
      split; [congruence |]. split; [exact Habsent |].
      exists found. split; [now rewrite Hsid | exact Hon].
  - intros role H1 H2. unfold getActiveSessions.
    apply String.eqb_neq in H1, H2. rewrite H1, H2. reflexivity.
Qed.

Lemma getActiveSessions_student_witness :
  exists listed,
    getActiveSessions "student" 2 openSchool = Ok (ForStudent listed)
    /\ map ActiveForStudent.sessionId listed = [1]
    /\ exists st' row,
         studentCheckIn 0 (eightOClock + minutes 3) (checkInOf 2) openSchool
         = Ok (st', row).
Proof.
  assert (Hlinked : linked openSchool).
  { split; repeat (constructor; [vm_compute; discriminate |]); constructor. }
  assert (Hkeys : uniqueKeys openSchool).
  { split; vm_compute.
    - constructor; [intros [] | constructor].
    - repeat (constructor;
              [intros H; repeat (destruct H as [H | H]; [discriminate H |]);
               exact H |]).
      constructor. }
  destruct (getActiveSessions_student 2 openSchool Hlinked Hkeys)
    as [[listed [Hlisted Hiff]] _].
  exists listed. split; [exact Hlisted |].
  assert (E : map ActiveForStudent.sessionId listed = [1]).
  { vm_compute in Hlisted. injection Hlisted as <-. reflexivity. }
  split; [exact E |].
  apply (Hiff 0 (eightOClock + minutes 3) (checkInOf 2) eq_refl eq_refl).
  rewrite E. left. reflexivity.
Defined.

(** X28: What a teacher sees is what the teacher can end. On tables whose
    relations and keys hold and whose statuses are among the three of the
    schema, [getActiveSessions] answers a teacher with a list, and a session
    is on it exactly when [endSession] by that teacher, with a request the
    schema accepts, goes through. *)
Theorem getActiveSessions_teacher (profileId : Z) (st : Store) :
  linked st ->
  statusesOk st ->
  uniqueKeys st ->
  exists listed,
    getActiveSessions "teacher" profileId st = Ok (ForTeacher listed)
    /\ forall now request,
         endSessionSchema request = true ->
         EndSessionRequest.profileId request = profileId ->
         (In (EndSessionRequest.sessionId request)
             (map ActiveForTeacher.sessionId listed)
          <-> exists st' res, endSession now request st = Ok (st', res)).
Proof.
  intros Hlinked [Hstatuses _] [Hids _].
  unfold getActiveSessions. cbn [String.eqb Ascii.eqb Bool.eqb].
  set (mine := fun s => (AttendanceSession.createdBy s =? profileId)
                        && String.eqb (AttendanceSession.status s) "ongoing").
  assert (Hmine : forall s, In s (newestFirst (filter mine (attendanceSessions st)))
                            <-> In s (attendanceSessions st)
                                /\ AttendanceSession.createdBy s = profileId
                                /\ AttendanceSession.status s = "ongoing").
  { intros s. rewrite newestFirst_In, filter_In. unfold mine.
    rewrite andb_true_iff, Z.eqb_eq, String.eqb_eq. tauto. }
  destruct (mapThrowing_Ok (activeForTeacher st)
              (newestFirst (filter mine (attendanceSessions st))))
    as [listed Hlisted].
  { intros s Hs. apply Hmine in Hs. destruct Hs as [Hin _].
    destruct (activeForTeacher_Ok st s Hlinked Hin) as [entry [He _]]. eauto. }
  exists listed. rewrite Hlisted. cbn [bind]. split; [reflexivity |].
  intros now request Hschema Hp.
  assert (Hschema' : updateSessionStatusSchema
                       (UpdateSessionStatusRequest.mk
                          (EndSessionRequest.sessionId request) "completed"
                          (EndSessionRequest.profileId request)) = true).
  { unfold endSessionSchema in Hschema. apply andb_true_iff in Hschema.
    destruct Hschema as [H1 H2]. unfold updateSessionStatusSchema. cbn.
    now rewrite H1, H2. }
  split.
  - intros Hin. apply in_map_iff in Hin. destruct Hin as [entry [Hsid Hentry]].
    apply (mapThrowing_In _ _ _ entry Hlisted) in Hentry.
    destruct Hentry as [s [Hs Hf]]. apply Hmine in Hs.
    destruct Hs as [Hin [Hown Hon]].
    apply activeForTeacher_sessionId in Hf. rewrite Hsid in Hf.
    assert (Hfound : findSession (EndSessionRequest.sessionId request) st = Some s).
    { unfold findSession.
      destruct (find (fun x => AttendanceSession.id x
                               =? EndSessionRequest.sessionId request)
                     (attendanceSessions st)) as [s' |] eqn:E.
      - apply find_some in E. destruct E as [Hin' Hid]. apply Z.eqb_eq in Hid.
        f_equal. apply (NoDup_map_inj AttendanceSession.id (attendanceSessions st));
          try assumption. congruence.
      - rewrite find_none_iff in E. specialize (E s Hin).
        rewrite <- Hf, Z.eqb_refl in E. discriminate E. }
    unfold endSession, validate, throwIf. rewrite Hschema. cbn [negb bind].
    apply updateSessionStatus_accepts with s; try assumption.
    cbn. congruence.
  - intros [st' [res H]]. apply endSession_Ok in H.
    apply updateSessionStatus_Ok in H. cbn in H.
    destruct H as [found [_ [Hf [Hown [H1 [H2 _]]]]]].
    pose proof (findSession_id _ _ _ Hf) as [Hin Hid].
    rewrite Forall_forall in Hstatuses. destruct (Hstatuses found Hin) as [Hvalid _].
    assert (Hon : AttendanceSession.status found = "ongoing").
    { unfold validSessionStatus in Hvalid.
      rewrite !orb_true_iff, !String.eqb_eq in Hvalid.
      destruct Hvalid as [[E | E] | E]; [exact E | contradiction | contradiction]. }
    destruct (activeForTeacher_Ok st found Hlinked Hin) as [entry [He Hes]].
    apply in_map_iff. exists entry. split; [congruence |].
    apply (mapThrowing_In _ _ _ entry Hlisted). exists found. split; [| exact He].
    apply Hmine. split; [exact Hin |]. split; [congruence | exact Hon].
Qed.

Lemma getActiveSessions_teacher_witness :
  exists listed,
    getActiveSessions "teacher" 1 openSchool = Ok (ForTeacher listed)
    /\ map ActiveForTeacher.sessionId listed = [1]
    /\ exists st' res,
         endSession (eightOClock + minutes 90) (EndSessionRequest.mk 1 1) openSchool
         = Ok (st', res).
Proof.
  assert (Hlinked : linked openSchool).
  { split; repeat (constructor; [vm_compute; discriminate |]); constructor. }
  assert (Hstatuses : statusesOk openSchool).
  { split.
    - constructor; [| constructor]. vm_compute.
      split; [reflexivity | split; reflexivity].
    - repeat (constructor; [vm_compute; reflexivity |]). constructor. }
  assert (Hkeys : uniqueKeys openSchool).
  { split; vm_compute.
    - constructor; [intros [] | constructor].
    - repeat (constructor;
              [intros H; repeat (destruct H as [H | H]; [discriminate H |]);
               exact H |]).
      constructor. }
  destruct (getActiveSessions_teacher 1 openSchool Hlinked Hstatuses Hkeys)
    as [listed [Hlisted Hiff]].
  exists listed. split; [exact Hlisted |].
  assert (E : map ActiveForTeacher.sessionId listed = [1]).
  { vm_compute in Hlisted. injection Hlisted as <-. reflexivity. }
  split; [exact E |].
  apply (Hiff (eightOClock + minutes 90) (EndSessionRequest.mk 1 1) eq_refl eq_refl).
  rewrite E. left. reflexivity.
Defined.
